(** * WebMonitor-for-WinServer: sensor-source selection and aggregate readers

    A shallow embedding of [src/LHML.py]: the aggregate readers of
    [LibreHMReader] and the candidate enumeration, automatic choice,
    persistence and pinned reads of [SensorSelector].

    Conventions of the embedding.
    - A Python [float] is a binary64 number: Rocq's primitive [float], with
      its own [<?], [<=?], [+], [*], [/].
    - A Python [str] is a [string]; [lower], [isdigit] and whitespace are the
      ASCII ones.
    - A call that may raise returns [exc A]; a [try ... except Exception]
      block is a [match] on that result.
    - The native backend (LibreHardwareMonitorLib) is a snapshot of its
      hardware tree: [hw.Update()] returns nothing and the values read after
      it are the ones stored in the snapshot.  Property reads on the snapshot
      do not raise. *)

From Stdlib Require Import ZArith List String Ascii Bool Lia Floats.
From Stdlib Require Import DecimalString DecimalNat.
Import ListNotations.

Open Scope string_scope.
Open Scope Z_scope.

Set Warnings "-register-all".

(** ** Python values and primitives *)

Module Py.

(** The exceptions the embedded code can meet. *)
Inductive exn :=
| TypeError | ValueError | KeyError | AttributeError | IndexError
| OverflowError | EOFError | OSError | JSONDecodeError.

Inductive exc (A : Type) :=
| Ok (a : A)
| Raise (e : exn).
Arguments Ok {A} a.
Arguments Raise {A} e.

Definition bind {A B} (m : exc A) (k : A -> exc B) : exc B :=
  match m with
  | Ok a => k a
  | Raise e => Raise e
  end.

Notation "x <- m ;; k" := (bind m (fun x => k))
  (at level 61, m at next level, right associativity).

(** *** Strings *)

Definition lower_char (c : ascii) : ascii :=
  let n := nat_of_ascii c in
  if (Nat.leb 65 n && Nat.leb n 90)%bool then ascii_of_nat (n + 32) else c.

(** [s.lower()] *)
Fixpoint lower (s : string) : string :=
  match s with
  | EmptyString => EmptyString
  | String c r => String (lower_char c) (lower r)
  end.

(** [k in s] on strings: [k] occurs as a contiguous substring of [s]. *)
Fixpoint str_in (k s : string) : bool :=
  if prefix k s then true
  else match s with
       | EmptyString => false
       | String _ r => str_in k r
       end.

(** [s.startswith(k)] *)
Definition startswith (s k : string) : bool := prefix k s.

(** [any(k in s for k in ks)] *)
Definition any_in (ks : list string) (s : string) : bool :=
  existsb (fun k => str_in k s) ks.

(** [x or ""] for an optional string. *)
Definition or_empty (x : option string) : string :=
  match x with
  | Some s => if String.eqb s "" then "" else s
  | None => ""
  end.

Definition is_space (c : ascii) : bool :=
  let n := nat_of_ascii c in
  ((Nat.leb 9 n && Nat.leb n 13) || (Nat.leb 28 n && Nat.leb n 32))%bool.

Fixpoint lstrip (s : string) : string :=
  match s with
  | EmptyString => EmptyString
  | String c r => if is_space c then lstrip r else s
  end.

Fixpoint rstrip (s : string) : string :=
  match s with
  | EmptyString => EmptyString
  | String c r =>
      match rstrip r with
      | EmptyString => if is_space c then EmptyString else String c EmptyString
      | r' => String c r'
      end
  end.

(** [s.strip()] *)
Definition strip (s : string) : string := rstrip (lstrip s).

Definition is_digit (c : ascii) : bool :=
  let n := nat_of_ascii c in (Nat.leb 48 n && Nat.leb n 57)%bool.

Fixpoint all_digits (s : string) : bool :=
  match s with
  | EmptyString => true
  | String c r => (is_digit c && all_digits r)%bool
  end.

(** [s.isdigit()] *)
Definition isdigit (s : string) : bool :=
  match s with
  | EmptyString => false
  | _ => all_digits s
  end.

Definition digit_val (c : ascii) : Z := Z.of_nat (nat_of_ascii c) - 48.

(** Value of a run of decimal digits in which single underscores may
    separate digits (the literal syntax [int] accepts); [acc] is the value
    read so far, [after_digit] whether the previous character was a
    digit. *)
Fixpoint digits_value (acc : Z) (after_digit : bool) (s : string) : option Z :=
  match s with
  | EmptyString => if after_digit then Some acc else None
  | String c r =>
      if is_digit c then digits_value (10 * acc + digit_val c) true r
      else if (Ascii.eqb c "_" && after_digit)%bool then digits_value acc false r
      else None
  end.

(** [int(s)] for a string: surrounding whitespace, an optional sign, then
    decimal digits; [ValueError] otherwise. *)
Definition int_of_str (s : string) : exc Z :=
  let body (t : string) :=
    match t with
    | EmptyString => None
    | _ => digits_value 0 false t
    end in
  let r :=
    match strip s with
    | String "-" t => option_map Z.opp (body t)
    | String "+" t => body t
    | t => body t
    end in
  match r with
  | Some z => Ok z
  | None => Raise ValueError
  end.

(** [s.split(sep)[-1]] for a one-character separator: what follows the
    last separator, the whole string when there is none. *)
Fixpoint last_segment (sep : ascii) (s : string) : string :=
  match s with
  | EmptyString => EmptyString
  | String c r =>
      if Ascii.eqb c sep then last_segment sep r
      else if str_in (String sep EmptyString) r then last_segment sep r
      else s
  end.

(** [s.split(sep, 1)] for a one-character separator that occurs in [s]:
    what precedes the first separator and what follows it. *)
Fixpoint split_once (sep : ascii) (s : string) : string * string :=
  match s with
  | EmptyString => (EmptyString, EmptyString)
  | String c r =>
      if Ascii.eqb c sep then (EmptyString, r)
      else let '(a, b) := split_once sep r in (String c a, b)
  end.

(** [str(n)] for a list position. *)
Definition str_of_nat (n : nat) : string :=
  NilZero.string_of_uint (Nat.to_uint n).

(** *** Floats *)

(** [int(x)] for a float: truncation towards zero; [OverflowError] on an
    infinity, [ValueError] on a NaN. *)
Definition int_of_float (x : float) : exc Z :=
  match Prim2SF x with
  | S754_zero _ => Ok 0
  | S754_finite s m e =>
      let a := Z.shiftl (Z.pos m) e in
      Ok (if s then - a else a)
  | S754_infinity _ => Raise OverflowError
  | S754_nan => Raise ValueError
  end.

(** [float(n)] for an integer: the nearest binary64 number. *)
Definition float_of_Z (z : Z) : float :=
  SF2Prim (binary_normalize prec emax z 0 false).

(** [float(len(l))] *)
Definition float_of_len {A} (l : list A) : float :=
  float_of_Z (Z.of_nat (List.length l)).

(** [sum(l)] for a list of floats: left to right from the integer [0].
    (CPython 3.12 and later also carry a compensation for the rounding
    errors of the partial sums; the two agree whenever the partial sums are
    exact.) *)
Definition sum (l : list float) : float :=
  fold_left PrimFloat.add l 0%float.

(** [max(l, key=k)]: the first element whose key no later element
    exceeds; [ValueError] on the empty list, and the key's own exception
    when it raises. *)
Section Max.
Context {A : Type} (key : A -> exc float).

Fixpoint max_loop (best : A) (kbest : float) (l : list A) : exc A :=
  match l with
  | [] => Ok best
  | x :: r =>
      kx <- key x ;;
      if (kbest <? kx)%float then max_loop x kx r else max_loop best kbest r
  end.

Definition max_by (l : list A) : exc A :=
  match l with
  | [] => Raise ValueError
  | x :: r => kx <- key x ;; max_loop x kx r
  end.
End Max.

(** *** JSON documents and the dictionaries made from them *)

Inductive json :=
| JNull
| JBool (b : bool)
| JInt (z : Z)
| JFloat (f : float)
| JStr (s : string)
| JList (l : list json)
| JDict (kv : list (string * json)).

(** Truth value of a Python object, as [x or None] tests it. *)
Definition truthy (j : json) : bool :=
  match j with
  | JNull => false
  | JBool b => b
  | JInt z => negb (z =? 0)
  | JFloat f => negb (f =? 0)%float
  | JStr s => negb (String.eqb s "")
  | JList l => match l with [] => false | _ => true end
  | JDict kv => match kv with [] => false | _ => true end
  end.

(** [x or None] *)
Definition or_none (j : json) : json := if truthy j then j else JNull.

Fixpoint assoc (k : string) (kv : list (string * json)) : option json :=
  match kv with
  | [] => None
  | (k', v) :: r => if String.eqb k k' then Some v else assoc k r
  end.

(** [d.get(k)]: only a dictionary has the method. *)
Definition dict_get (d : json) (k : string) : exc json :=
  match d with
  | JDict kv => Ok (match assoc k kv with Some v => v | None => JNull end)
  | _ => Raise AttributeError
  end.

(** [d[k]] with a string key. *)
Definition getitem (d : json) (k : string) : exc json :=
  match d with
  | JDict kv => match assoc k kv with Some v => Ok v | None => Raise KeyError end
  | _ => Raise TypeError
  end.

(** [x == s] for a string literal [s]. *)
Definition eq_str (x : json) (s : string) : bool :=
  match x with
  | JStr s' => String.eqb s' s
  | _ => false
  end.

End Py.

Import Py.

(** ** The native backend: hardware tree snapshot *)

(** A member of the backend's [SensorType] or [HardwareType] enumeration is
    represented by its name: what [str(...)] returns for it and what [==]
    between two members compares. *)
Definition SensorType := string.
Definition HardwareType := string.

Record Sensor := mkSensor {
  s_SensorType : SensorType;
  s_Name : option string;
  s_Identifier : string;       (* [s.Identifier.ToString()] *)
  s_Value : option float       (* [s.Value], a nullable number *)
}.

Inductive Hardware := mkHardware {
  hw_HardwareType : HardwareType;
  hw_Name : option string;
  hw_Identifier : string;
  hw_Sensors : list Sensor;
  hw_SubHardware : list Hardware
}.

(** ** LibreHMReader *)

Module LibreHMReader.

Record t := mk {
  ok : bool;
  _comp : option (list Hardware)    (* [self._comp.Hardware], the roots *)
}.

(** [not self.ok or self._comp is None] fails: the roots to traverse. *)
Definition roots (self : t) : option (list Hardware) :=
  if ok self then _comp self else None.

(** *** gpu_mem_used_total_bytes *)

(** [u_local], [t_local], [d3d_ded_local] *)
Definition gpu_locals := (option float * option float * option float)%type.

Definition gpu_sensor_step (acc : gpu_locals) (s : Sensor) : gpu_locals :=
  let '(u_local, t_local, d3d_ded_local) := acc in
  let st := lower (s_SensorType s) in
  let name := lower (or_empty (s_Name s)) in
  let ident := lower (s_Identifier s) in
  if (str_in "smalldata" ident || String.eqb st "smalldata")%bool then
    match s_Value s with
    | None => acc
    | Some v =>
        if str_in "gpu memory used" name then (Some v, t_local, d3d_ded_local)
        else if str_in "gpu memory total" name then (u_local, Some v, d3d_ded_local)
        else if str_in "d3d dedicated memory used" name then (u_local, t_local, Some v)
        else acc
    end
  else acc.

(** The per-node values after the sensor loop and the D3D fallback:
    [(u_local, t_local)]. *)
Definition gpu_node (hw : Hardware) : option float * option float :=
  let '(u_local, t_local, d3d_ded_local) :=
    fold_left gpu_sensor_step (hw_Sensors hw) (None, None, None) in
  let u_local :=
    match u_local, d3d_ded_local with
    | None, Some d => Some d
    | _, _ => u_local
    end in
  (u_local, t_local).

Record gpu_acc := mkGpuAcc { g_used : float; g_total : float; g_has_any : bool }.

Definition is_gpu (hw : Hardware) : bool := str_in "Gpu" (hw_HardwareType hw).

Definition gpu_hw_step (acc : gpu_acc) (hw : Hardware) : gpu_acc :=
  if negb (is_gpu hw) then acc
  else
    let '(u_local, t_local) := gpu_node hw in
    let acc :=
      match u_local with
      | Some u => mkGpuAcc (g_used acc + u * 1000000.0)%float (g_total acc) true
      | None => acc
      end in
    match t_local with
    | Some tl => mkGpuAcc (g_used acc) (g_total acc + tl * 1000000.0)%float true
    | None => acc
    end.

Definition gpu_scan (hws : list Hardware) : gpu_acc :=
  fold_left gpu_hw_step hws (mkGpuAcc 0.0 0.0 false).

(** The [return] of [gpu_mem_used_total_bytes] once data was found; [int]
    is outside the [try] block. *)
Definition gpu_result (acc : gpu_acc) : exc (option Z * option Z) :=
  u <- (if (0 <=? g_used acc)%float then int_of_float (g_used acc) else Ok 0) ;;
  tt <- (if (0 <? g_total acc)%float
         then (x <- int_of_float (g_total acc) ;; Ok (Some x))
         else Ok None) ;;
  Ok (Some u, tt).

Definition gpu_mem_used_total_bytes (self : t) : exc (option Z * option Z) :=
  match roots self with
  | None => Ok (None, None)
  | Some hws =>
      let acc := gpu_scan hws in
      if negb (g_has_any acc) then Ok (None, None) else gpu_result acc
  end.

(** *** cpu_effective_freq_mhz *)

Definition freq_sensor_step (vals : list float) (s : Sensor) : list float :=
  if String.eqb (lower (s_SensorType s)) "clock" then
    let nm := lower (or_empty (s_Name s)) in
    if (str_in "effective" nm || startswith nm "core #")%bool then
      match s_Value s with
      | Some v => if (0 <? v)%float then vals ++ [v] else vals
      | None => vals
      end
    else vals
  else vals.

Definition freq_hw_step (vals : list float) (hw : Hardware) : list float :=
  if String.eqb (hw_HardwareType hw) "Cpu"
  then fold_left freq_sensor_step (hw_Sensors hw) vals
  else vals.

Definition freq_vals (hws : list Hardware) : list float :=
  fold_left freq_hw_step hws [].

Definition cpu_effective_freq_mhz (self : t) : option float :=
  match roots self with
  | None => None
  | Some hws =>
      let vals := freq_vals hws in
      match vals with
      | [] => None
      | _ => Some (sum vals / float_of_len vals)%float
      end
  end.

(** *** nic_up_down_bps and storage_read_write_bps *)

(** The two per-node sums of a throughput loop: [pick1] and [pick2] say
    which sensor names feed the first and the second sum ([if]/[elif]). *)
Definition rate_sensor_step (pick1 pick2 : string -> bool)
    (acc : float * float) (s : Sensor) : float * float :=
  let '(a, b) := acc in
  let st := s_SensorType s in
  let name := lower (or_empty (s_Name s)) in
  if String.eqb (lower st) "throughput" then
    if pick1 name then
      match s_Value s with Some v => ((a + v)%float, b) | None => acc end
    else if pick2 name then
      match s_Value s with Some v => (a, (b + v)%float) | None => acc end
    else acc
  else acc.

Definition rate_node (pick1 pick2 : string -> bool) (hw : Hardware) : float * float :=
  fold_left (rate_sensor_step pick1 pick2) (hw_Sensors hw) (0.0, 0.0)%float.

Record rate_acc := mkRateAcc { r_first : float; r_second : float; r_has_any : bool }.

Definition rate_hw_step (sel : Hardware -> bool) (pick1 pick2 : string -> bool)
    (acc : rate_acc) (hw : Hardware) : rate_acc :=
  if negb (sel hw) then acc
  else
    let '(a, b) := rate_node pick1 pick2 hw in
    if ((0 <? a) || (0 <? b))%float%bool
    then mkRateAcc (r_first acc + a)%float (r_second acc + b)%float true
    else acc.

Definition rate_scan sel pick1 pick2 (hws : list Hardware) : rate_acc :=
  fold_left (rate_hw_step sel pick1 pick2) hws (mkRateAcc 0.0 0.0 false).

Definition rate_result (acc : rate_acc) : exc (option Z * option Z) :=
  if negb (r_has_any acc) then Ok (None, None)
  else
    a <- int_of_float (r_first acc * 8.0)%float ;;
    b <- int_of_float (r_second acc * 8.0)%float ;;
    Ok (Some a, Some b).

Definition is_network (hw : Hardware) : bool :=
  String.eqb (lower (hw_HardwareType hw)) "network".

Definition nic_up_down_bps (self : t) : exc (option Z * option Z) :=
  match roots self with
  | None => Ok (None, None)
  | Some hws =>
      rate_result
        (rate_scan is_network (str_in "upload") (str_in "download") hws)
  end.

Definition is_storage (hw : Hardware) : bool :=
  let hwt := lower (hw_HardwareType hw) in
  if negb (any_in ["storage"; "hdd"; "nvme"] hwt) then
    if negb (any_in ["nvme"; "hdd"; "ssd"; "wdc"; "st"] (lower (or_empty (hw_Name hw))))
    then false else true
  else true.

Definition is_read_rate (name : string) : bool :=
  (str_in "read rate" name || (str_in "read" name && str_in "rate" name))%bool.

Definition is_write_rate (name : string) : bool :=
  (str_in "write rate" name || (str_in "write" name && str_in "rate" name))%bool.

Definition storage_read_write_bps (self : t) : exc (option Z * option Z) :=
  match roots self with
  | None => Ok (None, None)
  | Some hws =>
      rate_result (rate_scan is_storage is_read_rate is_write_rate hws)
  end.

(** *** cpu_fan_rpm and cpu_package_temp_c *)

(** The inner loop of [cpu_fan_rpm], the same for a Motherboard node and
    for a SuperIO or Cooler node. *)
Definition cpu_fan_sensor_step (candidates : list float) (s : Sensor) : list float :=
  if String.eqb (s_SensorType s) "Fan" then
    if any_in ["cpu"; "aio"; "pump"] (lower (or_empty (s_Name s))) then
      match s_Value s with
      | Some val =>
          if ((1.0 <=? val) && (val <? 20000.0))%float%bool
          then candidates ++ [val] else candidates
      | None => candidates
      end
    else candidates
  else candidates.

Definition cpu_fan_hw_step (candidates : list float) (hw : Hardware) : list float :=
  let candidates :=
    if String.eqb (hw_HardwareType hw) "Motherboard"
    then fold_left cpu_fan_sensor_step (hw_Sensors hw) candidates
    else candidates in
  if (String.eqb (hw_HardwareType hw) "SuperIO"
      || String.eqb (hw_HardwareType hw) "Cooler")%bool
  then fold_left cpu_fan_sensor_step (hw_Sensors hw) candidates
  else candidates.

(** [max(candidates) if candidates else None] is outside the [try]
    block. *)
Definition cpu_fan_rpm (self : t) : exc (option float) :=
  match roots self with
  | None => Ok None
  | Some hws =>
      let candidates := fold_left cpu_fan_hw_step hws [] in
      match candidates with
      | [] => Ok None
      | _ :: _ => v <- max_by (fun x => Ok x) candidates ;; Ok (Some v)
      end
  end.

Definition cpu_temp_sensor_step (candidates : list float) (s : Sensor) : list float :=
  if String.eqb (s_SensorType s) "Temperature" then
    if any_in ["package"; "tctl"; "tdie"; "ccd"; "die"] (lower (or_empty (s_Name s))) then
      match s_Value s with
      | Some val =>
          if ((0.0 <=? val) && (val <? 120.0))%float%bool
          then candidates ++ [val] else candidates
      | None => candidates
      end
    else candidates
  else candidates.

Definition cpu_temp_hw_step (candidates : list float) (hw : Hardware) : list float :=
  if String.eqb (hw_HardwareType hw) "Cpu"
  then fold_left cpu_temp_sensor_step (hw_Sensors hw) candidates
  else candidates.

(** The whole body is inside the [try] block: an exception gives [None]. *)
Definition cpu_package_temp_c (self : t) : option float :=
  match roots self with
  | None => None
  | Some hws =>
      let candidates := fold_left cpu_temp_hw_step hws [] in
      match candidates with
      | [] => None
      | _ :: _ =>
          match max_by (fun x => Ok x) candidates with
          | Ok v => Some v
          | Raise _ => None
          end
      end
  end.

End LibreHMReader.

(** ** The OS management interface (WMI) *)

(** One [MSAcpi_ThermalZoneTemperature] record: the raw readings are integers
    in tenths of a kelvin; an attribute the record lacks reads as [None]. *)
Record ThermalZone := mkThermalZone {
  tz_CurrentTemperature : option Z;
  tz_Temperature : option Z;
  tz_InstanceName : string
}.

(** One [Win32_Fan] record. *)
Record Win32Fan := mkWin32Fan {
  fan_Speed : option Z;
  fan_DesiredSpeed : option Z;
  fan_Name : string;
  fan_DeviceID : string
}.

(** ** SensorSelector *)

Module SensorSelector.

(** A candidate dictionary [{"type", "id", "name", "value"}] as the two
    enumerators build it. *)
Record Candidate := mkCandidate {
  c_type : string;
  c_id : string;
  c_name : string;
  c_value : option float
}.

Definition to_dict (c : Candidate) : json :=
  JDict [("type", JStr (c_type c)); ("id", JStr (c_id c));
         ("name", JStr (c_name c));
         ("value", match c_value c with Some v => JFloat v | None => JNull end)].

(** What [json.load] does with the file at a path. *)
Inductive file :=
| Document (j : json)        (* the text is the JSON document [j] *)
| Malformed (raw : string)   (* the parser raises on the text *)
| Unreadable.                (* the file exists and [open] raises *)

Inductive quantity := Temperature | Fan.

(** What the selector does that can be observed from outside. *)
Inductive event :=
| Enumerated (q : quantity) (cands : list Candidate)
| Shown (q : quantity) (cands : list Candidate) (tty : bool)
| Prompted (q : quantity)
| Rejected
| AutoPicked (q : quantity) (choice : option Candidate)
| LoggedChoice (q : quantity)
| Wrote (path : string)
| WriteFailed (path : string)
| LoadFailed (path : string).

(** The parts of the selector and of its surroundings that do not change
    while it runs. *)
Record Env := mkEnv {
  lhm : option LibreHMReader.t;
  config_path : string;
  wmi_ok : bool;    (* [wmi_module is not None] on a Windows platform *)
  wmi_thermal : exc (list ThermalZone);   (* [MSAcpi_ThermalZoneTemperature()] *)
  wmi_fan : exc (list Win32Fan);          (* [Win32_Fan()] *)
  is_tty : bool;    (* [bool(sys.stdin and sys.stdin.isatty())] *)
  now : string;     (* [time.strftime(...)] *)
  writable : string -> bool   (* [open(path, "w")] succeeds *)
}.

(** The parts that change: the two attributes, the files, the lines still
    to be read from standard input, and what has been done so far (latest
    first). *)
Record state := mkState {
  sel_temp : json;
  sel_fan : json;
  files : string -> option file;
  stdin : list string;
  trace : list event
}.

Definition set_sel_temp (v : json) (st : state) : state :=
  mkState v (sel_fan st) (files st) (stdin st) (trace st).
Definition set_sel_fan (v : json) (st : state) : state :=
  mkState (sel_temp st) v (files st) (stdin st) (trace st).
Definition set_stdin (l : list string) (st : state) : state :=
  mkState (sel_temp st) (sel_fan st) (files st) l (trace st).
Definition emit (e : event) (st : state) : state :=
  mkState (sel_temp st) (sel_fan st) (files st) (stdin st) (e :: trace st).
Definition write_file (path : string) (f : file) (st : state) : state :=
  mkState (sel_temp st) (sel_fan st)
          (fun p => if String.eqb p path then Some f else files st p)
          (stdin st) (trace st).

(** *** Enumeration *)

Fixpoint walk (hw : Hardware) : list Hardware :=
  match hw with
  | mkHardware _ _ _ _ subs => hw :: flat_map walk subs
  end.

Definition _iter_lhm_sensors_recursive (E : Env) : list (Hardware * Sensor) :=
  match lhm E with
  | Some r =>
      match LibreHMReader.roots r with
      | Some hws =>
          flat_map (fun node => map (pair node) (hw_Sensors node))
                   (flat_map walk hws)
      | None => []
      end
  | None => []
  end.

Definition lhm_candidate (hw : Hardware) (s : Sensor) : Candidate :=
  mkCandidate "LHM" (s_Identifier s)
    ("LHM | " ++ hw_HardwareType hw ++ " | " ++ or_empty (hw_Name hw)
              ++ " | " ++ or_empty (s_Name s))
    (s_Value s).

Definition lhm_candidates (E : Env) (ty : SensorType) : list Candidate :=
  flat_map (fun '(hw, s) =>
              if String.eqb (s_SensorType s) ty then [lhm_candidate hw s] else [])
           (_iter_lhm_sensors_recursive E).

(** [enumerate(items)] *)
Fixpoint enumerate_from {A} (i : nat) (l : list A) : list (nat * A) :=
  match l with
  | [] => []
  | x :: r => (i, x) :: enumerate_from (S i) r
  end.

Definition first_some {A} (a b : option A) : option A :=
  match a with Some _ => a | None => b end.

(** [float(t) / 10.0 - 273.15] *)
Definition celsius (t : Z) : float :=
  (float_of_Z t / 10.0 - 0x1.1126666666666p+8)%float.

Definition thermal_candidate (i : nat) (it : ThermalZone) : Candidate :=
  let t := first_some (tz_CurrentTemperature it) (tz_Temperature it) in
  mkCandidate "WMI_ACPI" ("WMI:ACPI:" ++ str_of_nat i)
    ("WMI | ACPI ThermalZone | idx=" ++ str_of_nat i ++ " | " ++ tz_InstanceName it)
    (option_map celsius t).

Definition fan_candidate (i : nat) (it : Win32Fan) : Candidate :=
  let sp := first_some (fan_Speed it) (fan_DesiredSpeed it) in
  mkCandidate "WMI_FAN" ("WMI:FAN:" ++ str_of_nat i)
    ("WMI | Win32_Fan | idx=" ++ str_of_nat i ++ " | " ++ fan_Name it ++ " "
                              ++ fan_DeviceID it)
    (option_map float_of_Z sp).

Definition wmi_candidates {A} (E : Env) (items : exc (list A))
    (mk : nat -> A -> Candidate) : list Candidate :=
  if wmi_ok E then
    match items with
    | Ok l => map (fun '(i, it) => mk i it) (enumerate_from 0 l)
    | Raise _ => []
    end
  else [].

Definition list_temp_candidates (E : Env) : list Candidate :=
  lhm_candidates E "Temperature" ++ wmi_candidates E (wmi_thermal E) thermal_candidate.

Definition list_fan_candidates (E : Env) : list Candidate :=
  lhm_candidates E "Fan" ++ wmi_candidates E (wmi_fan E) fan_candidate.

(** *** Automatic choice *)

(** [float(x["value"])] *)
Definition value_key (c : Candidate) : exc float :=
  match c_value c with
  | Some v => Ok v
  | None => Raise TypeError
  end.

Definition okv_temp (v : option float) : bool :=
  match v with
  | Some vv => ((0.5 <? vv) && (vv <? 120.0))%float%bool
  | None => false    (* [float(None)] raises, [except] returns [False] *)
  end.

Definition cpu_keywords : list string := ["package"; "tctl"; "tdie"; "cpu"].

Definition is_cpu_like (t : Candidate) : bool :=
  (String.eqb (c_type t) "LHM"
   && any_in cpu_keywords (lower (c_name t))
   && okv_temp (c_value t))%bool.

Definition is_acpi (t : Candidate) : bool :=
  (String.eqb (c_type t) "WMI_ACPI" && okv_temp (c_value t))%bool.

Definition _auto_pick_temp (temps : list Candidate) : exc (option Candidate) :=
  let cpu_like := filter is_cpu_like temps in
  match cpu_like with
  | _ :: _ => c <- max_by value_key cpu_like ;; Ok (Some c)
  | [] =>
      let acpi := filter is_acpi temps in
      match acpi with
      | _ :: _ => c <- max_by value_key acpi ;; Ok (Some c)
      | [] => Ok None
      end
  end.

Definition okv_fan (v : option float) : bool :=
  match v with
  | Some vv => ((1.0 <=? vv) && (vv <? 20000.0))%float%bool
  | None => false
  end.

Definition fan_keywords : list string := ["cpu"; "aio"; "pump"].

Definition is_pri (f : Candidate) : bool :=
  (String.eqb (c_type f) "LHM"
   && any_in fan_keywords (lower (c_name f))
   && okv_fan (c_value f))%bool.

Definition is_lhm_any (f : Candidate) : bool :=
  (String.eqb (c_type f) "LHM" && okv_fan (c_value f))%bool.

Definition is_wmi_fan (f : Candidate) : bool :=
  (String.eqb (c_type f) "WMI_FAN" && okv_fan (c_value f))%bool.

Definition _auto_pick_fan (fans : list Candidate) : exc (option Candidate) :=
  let pri := filter is_pri fans in
  match pri with
  | _ :: _ => c <- max_by value_key pri ;; Ok (Some c)
  | [] =>
      let lhm_any := filter is_lhm_any fans in
      match lhm_any with
      | _ :: _ => c <- max_by value_key lhm_any ;; Ok (Some c)
      | [] =>
          let wmi_fans := filter is_wmi_fan fans in
          match wmi_fans with
          | _ :: _ => c <- max_by value_key wmi_fans ;; Ok (Some c)
          | [] => Ok None
          end
      end
  end.

(** *** The persisted selection *)

Definition config_of (E : Env) (st : state) : json :=
  JDict [("temp_source", sel_temp st); ("fan_source", sel_fan st);
         ("created_at", JStr (now E))].

Definition _save_config (E : Env) (st : state) : state :=
  let cfg := config_of E st in
  if writable E (config_path E)
  then emit (Wrote (config_path E))
            (write_file (config_path E) (Document cfg) st)
  else emit (WriteFailed (config_path E)) st.

(** [json.load(f)] on an opened file. *)
Definition json_load (f : file) : exc json :=
  match f with
  | Document j => Ok j
  | Malformed _ => Raise JSONDecodeError
  | Unreadable => Raise OSError
  end.

Definition _load_config (E : Env) (st : state) : bool * state :=
  match files st (config_path E) with
  | None => (false, st)
  | Some f =>
      let failed st' := (false, emit (LoadFailed (config_path E)) st') in
      match json_load f with
      | Raise _ => failed st
      | Ok cfg =>
          match dict_get cfg "temp_source" with
          | Raise _ => failed st
          | Ok t =>
              let st1 := set_sel_temp (or_none t) st in
              match dict_get cfg "fan_source" with
              | Raise _ => failed st1
              | Ok f => (true, set_sel_fan (or_none f) st1)
              end
          end
      end
  end.

(** *** The selection procedure *)

(** The [while True] loop around [input()]: one line is consumed per turn;
    [input()] raises [EOFError] when none is left. *)
Fixpoint choose (q : quantity) (cands : list Candidate) (lines : list string)
    (st : state) : exc (option Candidate) * state :=
  match lines with
  | [] => (Raise EOFError, emit (Prompted q) (set_stdin [] st))
  | line :: rest =>
      let st := emit (Prompted q) (set_stdin rest st) in
      let tin := strip line in
      if String.eqb tin "" then (Ok None, st)
      else if isdigit tin then
        match int_of_str tin with
        | Raise e => (Raise e, st)
        | Ok n =>
            if ((0 <=? n) && (n <? Z.of_nat (List.length cands)))%bool then
              match nth_error cands (Z.to_nat n) with
              | Some c => (Ok (Some c), st)
              | None => (Raise IndexError, st)
              end
            else choose q cands rest (emit Rejected st)
        end
      else choose q cands rest (emit Rejected st)
  end.

Definition opt_dict (c : option Candidate) : json :=
  match c with
  | Some c => to_dict c
  | None => JNull
  end.

(** One of the two numbered steps of [ensure_selection]: show the
    candidates, let the operator choose on a terminal, choose automatically
    otherwise. *)
Definition negotiate (E : Env) (q : quantity) (cands : list Candidate)
    (auto : list Candidate -> exc (option Candidate))
    (set : json -> state -> state) (st : state) : exc unit * state :=
  let st := emit (Shown q cands (is_tty E)) st in
  let st := set JNull st in
  let '(chosen, st) :=
    match is_tty E, cands with
    | true, _ :: _ => choose q cands (stdin st) st
    | _, _ => (Ok None, st)
    end in
  match chosen with
  | Raise e => (Raise e, st)
  | Ok (Some c) => (Ok tt, set (to_dict c) st)
  | Ok None =>
      match auto cands with
      | Raise e => (Raise e, st)
      | Ok pick =>
          let st := emit (AutoPicked q pick) (set (opt_dict pick) st) in
          (Ok tt, if is_tty E then st else emit (LoggedChoice q) st)
      end
  end.

(** [ensure_selection] past its first [return]. *)
Definition selection_procedure (E : Env) (st : state) : exc unit * state :=
  let temps := list_temp_candidates E in
  match negotiate E Temperature temps _auto_pick_temp set_sel_temp
                  (emit (Enumerated Temperature temps) st) with
  | (Raise e, st) => (Raise e, st)
  | (Ok _, st) =>
      let fans := list_fan_candidates E in
      match negotiate E Fan fans _auto_pick_fan set_sel_fan
                      (emit (Enumerated Fan fans) st) with
      | (Raise e, st) => (Raise e, st)
      | (Ok _, st) => (Ok tt, _save_config E st)
      end
  end.

Definition ensure_selection (E : Env) (st : state) : exc unit * state :=
  let '(loaded, st) := _load_config E st in
  if loaded then (Ok tt, st) else selection_procedure E st.

(** *** Reading the pinned sources *)

Definition _read_lhm_by_id (E : Env) (ident : json) : option float :=
  match find (fun '(_, s) => eq_str ident (s_Identifier s))
             (_iter_lhm_sensors_recursive E) with
  | Some (_, s) => s_Value s
  | None => None
  end.

(** [int(sel["id"].split(":")[-1])] *)
Definition stored_index (sel : json) : exc Z :=
  id <- getitem sel "id" ;;
  match id with
  | JStr s => int_of_str (last_segment ":" s)
  | _ => Raise AttributeError
  end.

(** The shared body of [read_temp_c] and [read_fan_rpm]: [wmi_type] is the
    type name of the OS-management source, [items] its records and
    [reading] what is read from one of them. *)
Definition read_pinned {A} (E : Env) (sel : json) (wmi_type : string)
    (items : exc (list A)) (reading : A -> option float) : option float :=
  match sel with
  | JNull => None
  | _ =>
      let body : exc (option float) :=
        ty <- getitem sel "type" ;;
        if eq_str ty "LHM" then
          id <- getitem sel "id" ;; Ok (_read_lhm_by_id E id)
        else if (eq_str ty wmi_type && wmi_ok E)%bool then
          idx <- stored_index sel ;;
          l <- items ;;
          if ((0 <=? idx) && (idx <? Z.of_nat (List.length l)))%bool then
            match nth_error l (Z.to_nat idx) with
            | Some it => Ok (reading it)
            | None => Raise IndexError
            end
          else Ok None
        else Ok None in
      match body with
      | Ok r => r
      | Raise _ => None
      end
  end.

Definition read_temp_c (E : Env) (st : state) : option float :=
  read_pinned E (sel_temp st) "WMI_ACPI" (wmi_thermal E)
    (fun it => option_map celsius
                 (first_some (tz_CurrentTemperature it) (tz_Temperature it))).

Definition read_fan_rpm (E : Env) (st : state) : option float :=
  read_pinned E (sel_fan st) "WMI_FAN" (wmi_fan E)
    (fun it => option_map float_of_Z
                 (first_some (fan_Speed it) (fan_DesiredSpeed it))).

End SensorSelector.

(** ** Metrics *)

Module Metrics.
Import SensorSelector.

(** [_build_process_queries]: an item is [None] or a string. *)
Definition parse_query (raw : option string) : list (string * string) :=
  let s := strip (or_empty raw) in
  if String.eqb s "" then []
  else
    let '(disp, pat) := if str_in "=" s then split_once "=" s else (s, s) in
    let disp := strip disp in
    let pat := lower (strip pat) in
    if (String.eqb disp "" || String.eqb pat "")%bool then [] else [(disp, pat)].

Definition _build_process_queries (items : list (option string))
    : list (string * string) :=
  flat_map parse_query items.

Definition in_fan_range (rpm : float) : bool :=
  ((1.0 <=? rpm) && (rpm <? 20000.0))%float%bool.

Definition wmi_fan_step (vals : list float) (f : Win32Fan) : list float :=
  match first_some (fan_Speed f) (fan_DesiredSpeed f) with
  | Some sp =>
      let rpm := float_of_Z sp in
      if in_fan_range rpm then vals ++ [rpm] else vals
  | None => vals
  end.

Definition _cpu_fan_rpm_wmi (E : Env) : option float :=
  if negb (wmi_ok E) then None
  else
    match wmi_fan E with
    | Raise _ => None
    | Ok fans =>
        let vals := fold_left wmi_fan_step fans [] in
        match vals with
        | [] => None
        | _ :: _ => Some (sum vals / float_of_len vals)%float
        end
    end.

(** [-20.0 < celsius < 120.0 and celsius > 0.5] *)
Definition plausible_celsius (c : float) : bool :=
  ((-20.0 <? c) && (c <? 120.0) && (0.5 <? c))%float%bool.

Definition wmi_temp_step (vals : list float) (it : ThermalZone) : list float :=
  match first_some (tz_CurrentTemperature it) (tz_Temperature it) with
  | Some t => if plausible_celsius (celsius t) then vals ++ [celsius t] else vals
  | None => vals
  end.

(** A failure of the query gives no record; any other failure gives
    [None]. *)
Definition _cpu_package_temp_wmi (E : Env) : option float :=
  if negb (wmi_ok E) then None
  else
    let items := match wmi_thermal E with Ok l => l | Raise _ => [] end in
    let vals := fold_left wmi_temp_step items [] in
    match vals with
    | [] => None
    | _ :: _ =>
        match max_by (fun x => Ok x) vals with
        | Ok v => Some v
        | Raise _ => None
        end
    end.

Record cpu_stats_result := mkCpuStats {
  freq_mhz : option float;
  fan_rpm : option float;
  package_temp_c : option float
}.

(** [self.lhm and self.lhm.ok] *)
Definition lhm_ok (E : Env) : option LibreHMReader.t :=
  match lhm E with
  | Some r => if LibreHMReader.ok r then Some r else None
  | None => None
  end.

(** [psutil_cpu_freq] is what [psutil.cpu_freq()] gives: an exception,
    [None], or the current frequency. *)
Definition cpu_stats (E : Env) (st : state) (psutil_cpu_freq : exc (option float))
    : cpu_stats_result :=
  let freq_mhz :=
    match lhm_ok E with
    | Some r => LibreHMReader.cpu_effective_freq_mhz r
    | None => None
    end in
  let freq_mhz :=
    match freq_mhz with
    | Some v => Some v
    | None => match psutil_cpu_freq with Ok f => f | Raise _ => None end
    end in
  let package_temp_c := read_temp_c E st in
  let fan_rpm := read_fan_rpm E st in
  (* the fallback to the native readers: one [try] block for both *)
  let package_temp_c :=
    match package_temp_c, lhm_ok E with
    | None, Some r => LibreHMReader.cpu_package_temp_c r
    | _, _ => package_temp_c
    end in
  let fan_rpm :=
    match fan_rpm, lhm_ok E with
    | None, Some r =>
        match LibreHMReader.cpu_fan_rpm r with
        | Ok v => v
        | Raise _ => None
        end
    | _, _ => fan_rpm
    end in
  let fan_rpm :=
    match fan_rpm with
    | Some v => Some v
    | None => _cpu_fan_rpm_wmi E
    end in
  let package_temp_c :=
    match package_temp_c with
    | Some v => Some v
    | None => _cpu_package_temp_wmi E
    end in
  mkCpuStats freq_mhz fan_rpm package_temp_c.

(** *** Process detection *)

(** What [psutil.process_iter(attrs=["name", "exe"])] yields for a process,
    as far as [process_status] looks: the executable path of [proc.info],
    and what [cpu_percent] and [memory_info().rss] give when asked, a number
    or an exception. *)
Record Process := mkProcess {
  p_exe : option string;
  p_cpu_percent : exc float;
  p_rss : exc Z
}.

(** The dictionaries of the scan, keyed by display name, in insertion
    order. *)
Fixpoint lookup {V} (k : string) (d : list (string * V)) : option V :=
  match d with
  | [] => None
  | (k', v) :: r => if String.eqb k k' then Some v else lookup k r
  end.

Fixpoint store {V} (k : string) (v : V) (d : list (string * V)) : list (string * V) :=
  match d with
  | [] => [(k, v)]
  | (k', v') :: r => if String.eqb k k' then (k, v) :: r else (k', v') :: store k v r
  end.

(** [d.get(k, dflt)]; also [d[k]] where the code has just put the key. *)
Definition item {V} (dflt : V) (k : string) (d : list (string * V)) : V :=
  match lookup k d with
  | Some v => v
  | None => dflt
  end.

Record Agg := mkAgg {
  instances : Z;
  cpu_raw : float;
  mem : float
}.

Definition no_agg : Agg := mkAgg 0 0.0%float 0.0%float.

Inductive notice :=
| TooMany (disp pat : string) (cnt : Z) (samples : list string)
| Terminated (disp pat : string) (cnt : Z) (samples : list string).

Record Tally := mkTally {
  grouped : list (string * Agg);
  match_samples : list (string * list string);
  match_counts : list (string * Z);
  warn_flags : list (string * bool);
  hard_abort_item : option (string * string);
  logged : list notice
}.

Definition no_tally : Tally := mkTally [] [] [] [] None [].

(** The body of [if pat in pexe_l:], up to its [break]. *)
Definition record_hit (disp pat pexe : string) (proc : Process) (t : Tally) : Tally :=
  let '(grouped, match_samples, match_counts, warn_flags) :=
    match lookup disp (grouped t) with
    | Some _ => (grouped t, match_samples t, match_counts t, warn_flags t)
    | None => (store disp no_agg (grouped t), store disp [] (match_samples t),
               store disp 0 (match_counts t), store disp false (warn_flags t))
    end in
  let g := item no_agg disp grouped in
  let g := mkAgg (instances g + 1) (cpu_raw g) (mem g) in
  let match_counts := store disp (item 0 disp match_counts + 1) match_counts in
  let match_samples :=
    if (Z.of_nat (List.length (item [] disp match_samples)) <? 5)
    then store disp (item [] disp match_samples ++ [pexe])%list match_samples
    else match_samples in
  let g :=
    match p_cpu_percent proc with
    | Ok c => mkAgg (instances g) (cpu_raw g + c)%float (mem g)
    | Raise _ => g
    end in
  let g :=
    match p_rss proc with
    | Ok r => mkAgg (instances g) (cpu_raw g) (mem g + float_of_Z r)%float
    | Raise _ => g
    end in
  let grouped := store disp g grouped in
  let cnt := item 0 disp match_counts in
  let '(warn_flags, logged) :=
    if ((64 <? cnt) && negb (item false disp warn_flags))%bool
    then (store disp true warn_flags,
          TooMany disp pat cnt (item [] disp match_samples) :: logged t)
    else (warn_flags, logged t) in
  let '(hard_abort_item, logged) :=
    if 128 <? cnt
    then (Some (disp, pat),
          Terminated disp pat cnt (item [] disp match_samples) :: logged)
    else (hard_abort_item t, logged) in
  mkTally grouped match_samples match_counts warn_flags hard_abort_item logged.

(** [for disp, pat in queries:] with its [continue] and [break]. *)
Fixpoint first_hit (queries : list (string * string)) (pexe pexe_l : string)
    (proc : Process) (t : Tally) : Tally :=
  match queries with
  | [] => t
  | (disp, pat) :: rest =>
      if String.eqb pat "" then first_hit rest pexe pexe_l proc t
      else if str_in pat pexe_l then record_hit disp pat pexe proc t
      else first_hit rest pexe pexe_l proc t
  end.

(** The body of the loop over the processes. *)
Definition visit (queries : list (string * string)) (proc : Process) (t : Tally)
    : Tally :=
  let pexe := strip (or_empty (p_exe proc)) in
  if String.eqb pexe "" then t
  else first_hit queries pexe (lower pexe) proc t.

(** [for proc in psutil.process_iter(...)]: it stops at the first process
    it meets with [hard_abort_item] set. *)
Fixpoint scan (queries : list (string * string)) (procs : list Process) (t : Tally)
    : Tally :=
  match procs with
  | [] => t
  | proc :: rest =>
      match hard_abort_item t with
      | Some _ => t
      | None => scan queries rest (visit queries proc t)
      end
  end.

Record Row := mkRow {
  row_name : string;
  row_instances : Z;
  row_cpu_percent : float;
  row_mem_rss : Z
}.

(** [str(n)] for an integer. *)
Definition str_of_int (n : Z) : string := NilZero.string_of_int (Z.to_int n).

(** One dictionary of the result; [int(agg["mem"])] is the one conversion
    that can raise. *)
Definition row_for (t : Tally) (ncpu : Z) (disp name_display : string) : exc Row :=
  let agg := item no_agg disp (grouped t) in
  let cpu_norm :=
    if 0 <? ncpu then (cpu_raw agg / float_of_Z ncpu)%float else 0.0%float in
  m <- int_of_float (mem agg) ;;
  Ok (mkRow name_display (instances agg) cpu_norm m).

Fixpoint rows_for (t : Tally) (ncpu : Z) (queries : list (string * string))
    : exc (list Row) :=
  match queries with
  | [] => Ok []
  | (disp, pat) :: rest =>
      let cnt := item 0 disp (match_counts t) in
      let name_display :=
        if item false disp (warn_flags t)
        then (disp ++ " [匹配过多(" ++ str_of_int cnt ++ ")]")%string
        else disp in
      r <- row_for t ncpu disp name_display ;;
      rs <- rows_for t ncpu rest ;;
      Ok (r :: rs)
  end.

(** The attributes of a [Metrics] object that [process_status] reads, and
    what the two CPU counts of the host are. *)
Record Self := mkSelf {
  process_names : list string;
  process_queries : list (string * string);
  ncpu : Z;
  psutil_cpu_count : option Z;
  os_cpu_count : option Z
}.

(** [a or b] for an optional integer. *)
Definition or_int (a : option Z) (b : Z) : Z :=
  match a with
  | Some n => if n =? 0 then b else n
  | None => b
  end.

Definition process_status (self : Self) (procs : list Process) : exc (list Row) :=
  let queries :=
    match process_queries self with
    | _ :: _ => process_queries self
    | [] => _build_process_queries (map Some (process_names self))
    end in
  match queries with
  | [] => Ok []
  | _ :: _ =>
      let ncpu :=
        if ncpu self =? 0
        then Z.max 1 (or_int (psutil_cpu_count self) (or_int (os_cpu_count self) 1))
        else ncpu self in
      let t := scan queries procs no_tally in
      match hard_abort_item t with
      | Some (disp, pat) =>
          let cnt := item 0 disp (match_counts t) in
          let name_display :=
            (disp ++ " [匹配过多(" ++ str_of_int cnt ++ ") 已终止]")%string in
          r <- row_for t ncpu disp name_display ;;
          Ok [r]
      | None => rows_for t ncpu queries
      end
  end.

End Metrics.

(** * The vocabulary of the properties *)

(** What the statements below are written with: orders, substrings, the
    classes of candidates, the per-node readings, the observable steps of
    the selection procedure.  Nothing here is used by the embedding above. *)

Module Spec.
Import LibreHMReader SensorSelector.

Section FloatOrderNotions.

Open Scope float_scope.

(** [ordered v]: [v] is a number, not a NaN. *)
Definition ordered (v : float) : Prop := (v <=? v) = true.

End FloatOrderNotions.

Section SubstringNotions.

(** [k] occurs in [s]. *)
Definition contains (k s : string) : Prop :=
  exists pre post, s = pre ++ k ++ post.

(** [k] occurs in [s] when the case of letters is ignored. *)
Definition contains_ci (k s : string) : Prop :=
  contains (lower k) (lower s).

End SubstringNotions.

Section MaxByNotions.

Open Scope float_scope.

Open Scope list_scope.

(** Every element of [l] has a key, and the key is a number. *)
Definition keyed {A : Type} (key : A -> exc float) (l : list A) : Prop :=
  forall x, In x l -> exists k, key x = Ok k /\ ordered k.

(** [c] is an element of [l] whose key no key of [l] exceeds. *)
Definition greatest {A : Type} (key : A -> exc float) (l : list A) (c : A) : Prop :=
  In c l /\
  exists kc, key c = Ok kc /\
    forall y ky, In y l -> key y = Ok ky -> (ky <=? kc) = true.

End MaxByNotions.

Section AutoPickNotions.

Open Scope float_scope.

(** The candidate has a value [v] with [lo < v < hi]. *)
Definition value_in_open (lo hi : float) (c : Candidate) : Prop :=
  exists v, c_value c = Some v /\ (lo <? v) = true /\ (v <? hi) = true.

(** The candidate has a value [v] with [lo <= v < hi]. *)
Definition value_in_range (lo hi : float) (c : Candidate) : Prop :=
  exists v, c_value c = Some v /\ (lo <=? v) = true /\ (v <? hi) = true.

(** The display name contains one of the keywords, whatever the case. *)
Definition named_like (ks : list string) (c : Candidate) : Prop :=
  exists k, In k ks /\ contains_ci k (c_name c).

Definition value_le (y c : Candidate) : Prop :=
  exists vy vc, c_value y = Some vy /\ c_value c = Some vc /\ (vy <=? vc) = true.

(** [c] is a candidate of [l] with property [P] whose value no candidate of
    [l] with property [P] exceeds. *)
Definition maximal (P : Candidate -> Prop) (l : list Candidate) (c : Candidate) : Prop :=
  In c l /\ P c /\ forall y, In y l -> P y -> value_le y c.

Definition none (P : Candidate -> Prop) (l : list Candidate) : Prop :=
  forall y, In y l -> ~ P y.

Definition some (P : Candidate -> Prop) (l : list Candidate) : Prop :=
  exists y, In y l /\ P y.

(** The candidate classes of the temperature choice. *)
Definition cpu_temp (c : Candidate) : Prop :=
  c_type c = "LHM" /\ named_like ["package"; "tctl"; "tdie"; "cpu"] c
  /\ value_in_open 0.5 120.0 c.

Definition acpi_temp (c : Candidate) : Prop :=
  c_type c = "WMI_ACPI" /\ value_in_open 0.5 120.0 c.

(** The candidate classes of the fan choice. *)
Definition cpu_fan (c : Candidate) : Prop :=
  c_type c = "LHM" /\ named_like ["cpu"; "aio"; "pump"] c
  /\ value_in_range 1.0 20000.0 c.

Definition lhm_fan (c : Candidate) : Prop :=
  c_type c = "LHM" /\ value_in_range 1.0 20000.0 c.

Definition wmi_fan_cand (c : Candidate) : Prop :=
  c_type c = "WMI_FAN" /\ value_in_range 1.0 20000.0 c.

End AutoPickNotions.

Section GpuMemoryNotions.

(** The sensor is of the small-data kind, by its type or by its
    identifier. *)
Definition small_data (s : Sensor) : bool :=
  (str_in "smalldata" (lower (s_Identifier s))
   || String.eqb (lower (s_SensorType s)) "smalldata")%bool.

Definition named (label : string) (s : Sensor) : bool :=
  str_in label (lower (or_empty (s_Name s))).

(** The three kinds of reading, in the precedence of the [if]/[elif]
    chain. *)
Definition is_used (s : Sensor) : bool :=
  (small_data s && named "gpu memory used" s)%bool.

Definition is_total (s : Sensor) : bool :=
  (small_data s && negb (named "gpu memory used" s)
   && named "gpu memory total" s)%bool.

Definition is_d3d (s : Sensor) : bool :=
  (small_data s && negb (named "gpu memory used" s)
   && negb (named "gpu memory total" s)
   && named "d3d dedicated memory used" s)%bool.

(** The values of the sensors of one kind, in sensor order. *)
Definition readings (p : Sensor -> bool) (l : list Sensor) : list float :=
  flat_map (fun s => if p s then match s_Value s with Some v => [v] | None => [] end
                     else []) l.

Fixpoint last_opt (l : list float) : option float :=
  match l with
  | [] => None
  | x :: r => match last_opt r with Some y => Some y | None => Some x end
  end.

(** A node's reading of one kind: the latest one. *)
Definition reading (p : Sensor -> bool) (hw : Hardware) : option float :=
  last_opt (readings p (hw_Sensors hw)).

(** A node's used memory: its "GPU Memory Used" reading, its "D3D Dedicated
    Memory Used" reading when it has none. *)
Definition node_used (hw : Hardware) : option float :=
  match reading is_used hw with
  | Some u => Some u
  | None => reading is_d3d hw
  end.

Definition node_total (hw : Hardware) : option float := reading is_total hw.

(** Megabyte readings summed as bytes, an absent reading adding nothing. *)
Definition bytes_sum_from (start : float) (l : list (option float)) : float :=
  fold_left (fun acc r => match r with
                          | Some v => (acc + v * 1000000.0)%float
                          | None => acc
                          end) l start.

Definition bytes_sum (l : list (option float)) : float := bytes_sum_from 0.0 l.

Definition reports (hw : Hardware) : bool :=
  match node_used hw, node_total hw with
  | None, None => false
  | _, _ => true
  end.

Definition latest (p : Sensor -> bool) (l : list Sensor) (acc : option float) :=
  match last_opt (readings p l) with
  | Some v => Some v
  | None => acc
  end.

(** What one sensor does to the latest reading of a kind. *)
Definition update (p : Sensor -> bool) (s : Sensor) (acc : option float) :=
  if p s then match s_Value s with Some v => Some v | None => acc end else acc.

End GpuMemoryNotions.

Section ThroughputNotions.

Open Scope float_scope.

(** The sensor feeds one of the two sums of a throughput reader. *)
Definition feeds (pick1 pick2 : string -> bool) (s : Sensor) : bool :=
  (String.eqb (lower (s_SensorType s)) "throughput"
   && (pick1 (lower (or_empty (s_Name s))) || pick2 (lower (or_empty (s_Name s)))))%bool.

(** The node is one the reader looks at and one of its two sums is above
    zero. *)
Definition active (sel : Hardware -> bool) (pick1 pick2 : string -> bool)
    (hw : Hardware) : bool :=
  (sel hw && ((0 <? fst (rate_node pick1 pick2 hw))
              || (0 <? snd (rate_node pick1 pick2 hw))))%bool.

Definition float_sum_from (start : float) (l : list float) : float :=
  fold_left PrimFloat.add l start.

(** The result both readers give for the nodes that count. *)
Definition bits_of_nodes (pick1 pick2 : string -> bool) (nodes : list Hardware)
    : exc (option Z * option Z) :=
  match nodes with
  | [] => Ok (None, None)
  | _ :: _ =>
      a <- int_of_float
             (float_sum_from 0 (map (fun hw => fst (rate_node pick1 pick2 hw)) nodes) * 8) ;;
      b <- int_of_float
             (float_sum_from 0 (map (fun hw => snd (rate_node pick1 pick2 hw)) nodes) * 8) ;;
      Ok (Some a, Some b)
  end.

(** Every sensor of a node the reader looks at that feeds one of the sums
    reports 0. *)
Definition all_report_zero (sel : Hardware -> bool) (pick1 pick2 : string -> bool)
    (hws : list Hardware) : Prop :=
  forall hw s, In hw hws -> sel hw = true -> In s (hw_Sensors hw) ->
               feeds pick1 pick2 s = true -> s_Value s = Some 0.

End ThroughputNotions.

Section CpuFrequencyNotions.

Open Scope float_scope.

Open Scope list_scope.

(** [Some (sum / count)] of a list that is not empty. *)
Definition mean (vals : list float) : option float :=
  match vals with
  | [] => None
  | _ :: _ => Some (sum vals / float_of_len vals)
  end.






End CpuFrequencyNotions.

Section SelectionStoreNotions.

Open Scope list_scope.

(** The value of a field of the persisted object, [None] when the object
    lacks it. *)
Definition field (k : string) (kv : list (string * json)) : json :=
  match assoc k kv with
  | Some v => v
  | None => JNull
  end.

(** The state a load leaves when the file holds the object [kv]. *)
Definition adopted (kv : list (string * json)) (st : state) : state :=
  set_sel_fan (or_none (field "fan_source" kv))
              (set_sel_temp (or_none (field "temp_source" kv)) st).

(** The file is there and is not a JSON object: malformed, unreadable, or
    a JSON document of another shape. *)
Definition not_an_object (f : file) : Prop :=
  forall kv, f <> Document (JDict kv).

End SelectionStoreNotions.

Section ProcedureNotions.

Open Scope list_scope.

(** [st'] has the trace of [st] and possibly more. *)
Definition extends (st st' : state) : Prop :=
  exists evs, trace st' = evs ++ trace st.

(** The attribute a step of the procedure fills. *)
Definition attribute (q : quantity) : state -> json :=
  match q with Temperature => sel_temp | Fan => sel_fan end.

Definition other_attribute (q : quantity) : state -> json :=
  match q with Temperature => sel_fan | Fan => sel_temp end.

Definition setter (q : quantity) : json -> state -> state :=
  match q with Temperature => set_sel_temp | Fan => set_sel_fan end.

(** [v] was chosen among [cands]: it is one of them, picked by the
    operator, or what the automatic choice returned, and then the trace says
    so. *)
Definition chosen (q : quantity) (cands : list Candidate)
    (auto : list Candidate -> exc (option Candidate)) (v : json) (st' : state) : Prop :=
  (exists c, In c cands /\ v = to_dict c)
  \/ (exists pick, auto cands = Ok pick /\ v = opt_dict pick
                   /\ In (AutoPicked q pick) (trace st')).

(** A save was attempted. *)
Definition persisted (E : Env) (st' : state) : Prop :=
  (In (Wrote (config_path E)) (trace st') \/ In (WriteFailed (config_path E)) (trace st'))
  /\ (writable E (config_path E) = true ->
      files st' (config_path E) = Some (Document (config_of E st'))).

End ProcedureNotions.

Section PinnedReadNotions.

Open Scope list_scope.

(** The selection pins the native sensor with identifier [id]. *)
Definition pins_lhm (sel id : json) : Prop :=
  getitem sel "type" = Ok (JStr "LHM") /\ getitem sel "id" = Ok id.

(** The selection pins the record at position [idx] of the OS-management
    source of type [ty]. *)
Definition pins_wmi (ty : string) (sel : json) (idx : Z) : Prop :=
  getitem sel "type" = Ok (JStr ty) /\ stored_index sel = Ok idx.

(** The current enumeration has a sensor with that identifier. *)
Definition enumerated (E : Env) (id : json) : Prop :=
  exists hw s, In (hw, s) (_iter_lhm_sensors_recursive E) /\ id = JStr (s_Identifier s).

Definition in_range {A} (idx : Z) (l : list A) : Prop :=
  0 <= idx < Z.of_nat (List.length l).

End PinnedReadNotions.

Section FallbackReadersNotions.

Open Scope float_scope.

Open Scope list_scope.

(** The sensor's name contains one of the keywords, whatever the case. *)
Definition name_like (ks : list string) (s : Sensor) : Prop :=
  exists k, In k ks /\ contains_ci k (or_empty (s_Name s)).

(** [v] is the value of a sensor of type [ty], named like one of [ks], on
    a root node whose type is one of [hwts], and [lo <= v < hi]. *)
Definition root_reading (hwts : list string) (ty : string) (ks : list string)
    (lo hi : float) (self : t) (v : float) : Prop :=
  exists hws hw s,
    roots self = Some hws /\ In hw hws /\ In (hw_HardwareType hw) hwts
    /\ In s (hw_Sensors hw) /\ s_SensorType s = ty /\ name_like ks s
    /\ s_Value s = Some v /\ (lo <=? v) = true /\ (v <? hi) = true.

(** The readings [cpu_fan_rpm] chooses from. *)
Definition board_fan_reading : t -> float -> Prop :=
  root_reading ["Motherboard"; "SuperIO"; "Cooler"] "Fan" ["cpu"; "aio"; "pump"]
               1.0 20000.0.

(** The readings [cpu_package_temp_c] chooses from. *)
Definition package_temp_reading : t -> float -> Prop :=
  root_reading ["Cpu"] "Temperature" ["package"; "tctl"; "tdie"; "ccd"; "die"]
               0.0 120.0.

(** [v] is one of the readings [R] and none of them exceeds it. *)
Definition highest (R : float -> Prop) (v : float) : Prop :=
  R v /\ forall w, R w -> (w <=? v) = true.

End FallbackReadersNotions.

Section TextNotions.

(** [s] is empty or starts with a character that is not white space. *)
Definition starts_clean (s : string) : Prop :=
  match s with
  | EmptyString => True
  | String c _ => is_space c = false
  end.

End TextNotions.

Section CpuStatsNotions.

Import Metrics.

Open Scope float_scope.

Open Scope list_scope.

(** [v] is the Celsius reading of a thermal zone the OS management
    interface reports, and [0.5 < v < 120]. *)
Definition zone_reading (E : Env) (v : float) : Prop :=
  wmi_ok E = true
  /\ exists l it t,
       wmi_thermal E = Ok l /\ In it l
       /\ first_some (tz_CurrentTemperature it) (tz_Temperature it) = Some t
       /\ celsius t = v /\ (0.5 <? v) = true /\ (v <? 120.0) = true.

(** The native tier of [cpu_stats]: [cpu_package_temp_c] of an open
    backend. *)
Definition native_temp (E : Env) : option float :=
  match lhm_ok E with
  | Some r => LibreHMReader.cpu_package_temp_c r
  | None => None
  end.

End CpuStatsNotions.

Section EnumerationNotions.

Open Scope list_scope.

(** [n] is [hw] or one of the nodes below it. *)
Inductive in_tree (n : Hardware) : Hardware -> Prop :=
| in_tree_root : in_tree n n
| in_tree_sub (hw sub : Hardware) :
    In sub (hw_SubHardware hw) -> in_tree n sub -> in_tree n hw.

(** [s] is a sensor of a node of the tree of an open backend. *)
Definition native_sensor (E : Env) (node : Hardware) (s : Sensor) : Prop :=
  exists r hws root,
    lhm E = Some r /\ LibreHMReader.roots r = Some hws /\ In root hws
    /\ in_tree node root /\ In s (hw_Sensors node).

(** [it] is the record at position [i] of what a query of the OS
    management interface returns. *)
Definition wmi_record {A} (E : Env) (items : exc (list A)) (i : nat) (it : A) : Prop :=
  wmi_ok E = true /\ exists l, items = Ok l /\ nth_error l i = Some it.

End EnumerationNotions.

Section PickOrderNotions.

Open Scope float_scope.

Open Scope list_scope.

(** The value of [y] is strictly below the value of [c]. *)
Definition value_lt (y c : Candidate) : Prop :=
  exists vy vc, c_value y = Some vy /\ c_value c = Some vc /\ (vy <? vc) = true.

(** [c] stands in [l] after [pre], and every candidate with property [P]
    that stands before it has a strictly lower value. *)
Definition first_best (P : Candidate -> Prop) (l : list Candidate) (c : Candidate) : Prop :=
  exists pre post, l = pre ++ c :: post
                   /\ forall y, In y pre -> P y -> value_lt y c.

End PickOrderNotions.

Section OperatorChoiceNotions.

Open Scope list_scope.





End OperatorChoiceNotions.

Section ProcessStatusNotions.

Import Metrics.

Open Scope list_scope.

(** The path [process_status] matches against. *)
Definition exe_of (p : Process) : string := strip (or_empty (p_exe p)).

(** The query's pattern is not empty and occurs in the lower-cased path. *)
Definition matches (path_l : string) (q : string * string) : bool :=
  (negb (String.eqb (snd q) "") && str_in (snd q) path_l)%bool.

(** The query a process is attributed to: the first that matches its path;
    none when the path is missing or blank. *)
Definition owner (queries : list (string * string)) (p : Process)
    : option (string * string) :=
  if String.eqb (exe_of p) "" then None
  else find (matches (lower (exe_of p))) queries.

Definition owned_by (queries : list (string * string)) (disp : string) (p : Process)
    : bool :=
  match owner queries p with
  | Some (d, _) => String.eqb d disp
  | None => false
  end.

(** The processes attributed to the display name [disp], in the order of
    the iteration. *)
Definition owned (queries : list (string * string)) (disp : string)
    (procs : list Process) : list Process :=
  filter (owned_by queries disp) procs.

Definition cpu_step (a : float) (p : Process) : float :=
  match p_cpu_percent p with
  | Ok c => (a + c)%float
  | Raise _ => a
  end.

Definition mem_step (a : float) (p : Process) : float :=
  match p_rss p with
  | Ok r => (a + float_of_Z r)%float
  | Raise _ => a
  end.

(** Their number, and the sums of the CPU percentages and of the resident
    sizes that could be read, added up in that order. *)
Definition aggregate (ps : list Process) : Agg :=
  mkAgg (Z.of_nat (List.length ps)) (fold_left cpu_step ps 0.0%float)
        (fold_left mem_step ps 0.0%float).

(** The row of the result for the processes [ps] under the name [name]. *)
Definition expected_row (ncpu : Z) (name : string) (ps : list Process) : exc Row :=
  m <- int_of_float (mem (aggregate ps)) ;;
  Ok (mkRow name (instances (aggregate ps))
            (cpu_raw (aggregate ps) / float_of_Z ncpu)%float m).

(** The display name, marked when more than 64 processes matched. *)
Definition label (disp : string) (n : Z) : string :=
  if 64 <? n then (disp ++ " [匹配过多(" ++ str_of_int n ++ ")]")%string else disp.

Fixpoint collect {A B} (f : A -> exc B) (l : list A) : exc (list B) :=
  match l with
  | [] => Ok []
  | a :: r => b <- f a ;; bs <- collect f r ;; Ok (b :: bs)
  end.

(** No display name of [queries] has more than 128 of [procs]. *)
Definition bounded (queries : list (string * string)) (procs : list Process) : Prop :=
  forall q, In q queries -> (List.length (owned queries (fst q) procs) <= 128)%nat.

(** [v] when there is a process in [ps], no entry otherwise. *)
Definition present {A} (ps : list Process) (v : A) : option A :=
  match ps with
  | [] => None
  | _ :: _ => Some v
  end.

(** The four dictionaries hold, for every display name, the aggregate of
    the processes of [done] attributed to it. *)
Definition tallied (queries : list (string * string)) (done : list Process)
    (t : Tally) : Prop :=
  forall disp,
    let ps := owned queries disp done in
    lookup disp (grouped t) = present ps (aggregate ps)
    /\ lookup disp (match_counts t) = present ps (Z.of_nat (List.length ps))
    /\ lookup disp (match_samples t) = present ps (firstn 5 (map exe_of ps))
    /\ lookup disp (warn_flags t) = present ps (64 <? Z.of_nat (List.length ps)).

End ProcessStatusNotions.

Section CpuFanNotions.

Import Metrics.

Open Scope list_scope.

(** The native tier of [cpu_stats] for the fan: [cpu_fan_rpm] of an open
    backend. *)
Definition native_fan (E : Env) : option float :=
  match lhm_ok E with
  | Some r =>
      match LibreHMReader.cpu_fan_rpm r with
      | Ok v => v
      | Raise _ => None
      end
  | None => None
  end.

(** The speed a [Win32_Fan] record contributes: [Speed], or
    [DesiredSpeed] when that is missing, if it lies in [1, 20000). *)
Definition fan_speed (f : Win32Fan) : list float :=
  match first_some (fan_Speed f) (fan_DesiredSpeed f) with
  | Some sp => if in_fan_range (float_of_Z sp) then [float_of_Z sp] else []
  | None => []
  end.

(** The speeds the OS management interface contributes, in the order of
    its records. *)
Definition wmi_fan_speeds (E : Env) : list float :=
  if wmi_ok E then
    match wmi_fan E with
    | Ok fans => flat_map fan_speed fans
    | Raise _ => []
    end
  else [].

End CpuFanNotions.

End Spec.

(** * Sample backends, files and selections *)

Module Examples.
Import LibreHMReader SensorSelector Spec.

Section GpuMemoryData.

Open Scope float_scope.

(** Two GPU nodes reading 1000/2000 and 500/1000 megabytes, the second
    through its D3D sensor, and a node that is not a GPU. *)
Definition gpu_a : Hardware :=
  mkHardware "GpuNvidia" (Some "NVIDIA GeForce RTX 3080") "/gpu-nvidia/0"
    [mkSensor "SmallData" (Some "GPU Memory Used") "/gpu-nvidia/0/smalldata/1" (Some 1000);
     mkSensor "SmallData" (Some "GPU Memory Total") "/gpu-nvidia/0/smalldata/2" (Some 2000)]
    [].

Definition gpu_b : Hardware :=
  mkHardware "GpuAmd" (Some "AMD Radeon RX 6600") "/gpu-amd/0"
    [mkSensor "SmallData" (Some "GPU Memory Total") "/gpu-amd/0/smalldata/0" (Some 1000);
     mkSensor "SmallData" (Some "D3D Dedicated Memory Used") "/gpu-amd/0/smalldata/3" (Some 500)]
    [].

Definition board : Hardware :=
  mkHardware "Motherboard" (Some "B550") "/motherboard" [] [].

(** A GPU node with a used reading and no total reading. *)
Definition gpu_used_only : Hardware :=
  mkHardware "GpuIntel" (Some "Intel UHD Graphics") "/gpu-intel-integrated/0"
    [mkSensor "SmallData" (Some "D3D Dedicated Memory Used") "/gpu-intel-integrated/0/smalldata/0" (Some 256)]
    [].

End GpuMemoryData.

Section ThroughputData.

Open Scope float_scope.

(** An adapter and a disk whose throughput sensors all report 0, and an
    adapter uploading 125000 bytes per second. *)
Definition idle_nic : Hardware :=
  mkHardware "Network" (Some "Ethernet") "/nic/%7B1A2B%7D"
    [mkSensor "Data" (Some "Data Uploaded") "/nic/%7B1A2B%7D/data/2" (Some 12.5);
     mkSensor "Throughput" (Some "Upload Speed") "/nic/%7B1A2B%7D/throughput/7" (Some 0);
     mkSensor "Throughput" (Some "Download Speed") "/nic/%7B1A2B%7D/throughput/8" (Some 0)]
    [].

Definition idle_disk : Hardware :=
  mkHardware "Storage" (Some "Samsung SSD 980") "/nvme/0"
    [mkSensor "Throughput" (Some "Read Rate") "/nvme/0/throughput/54" (Some 0);
     mkSensor "Throughput" (Some "Write Rate") "/nvme/0/throughput/55" (Some 0)]
    [].

Definition busy_nic : Hardware :=
  mkHardware "Network" (Some "Wi-Fi") "/nic/%7B3C4D%7D"
    [mkSensor "Throughput" (Some "Upload Speed") "/nic/%7B3C4D%7D/throughput/7" (Some 125000);
     mkSensor "Throughput" (Some "Download Speed") "/nic/%7B3C4D%7D/throughput/8" (Some 0)]
    [].

Definition idle_backend : t := mk true (Some [idle_nic; idle_disk]).

End ThroughputData.

Section CpuFrequencyData.

Open Scope float_scope.

Open Scope list_scope.




End CpuFrequencyData.

Section SelectionStoreData.

Open Scope list_scope.

(** A candidate, a host without terminal, hardware backend or WMI, and a
    selector that has just started on given files. *)
Definition package_temp : Candidate :=
  mkCandidate "LHM" "/amdcpu/0/temperature/2" "LHM | Cpu | AMD Ryzen 7 5800X | CPU Package"
              (Some 55.0%float).

Definition headless : Env :=
  mkEnv None "LibreHM.config" false (Ok []) (Ok []) false "2025-01-01 00:00:00"
        (fun _ => true).

Definition no_files : string -> option file := fun _ => None.

Definition fresh (fs : string -> option file) (lines : list string) : state :=
  mkState JNull JNull fs lines [].

(** A configuration file holding the JSON document [[]]. *)
Definition array_file : string -> option file :=
  fun p => if String.eqb p "LibreHM.config" then Some (Document (JList [])) else None.

(** A configuration file whose [temp_source] is the empty object. *)
Definition empty_object_file : string -> option file :=
  fun p => if String.eqb p "LibreHM.config"
           then Some (Document (JDict [("temp_source", JDict []); ("fan_source", JNull)]))
           else None.

End SelectionStoreData.

Section ProcedureData.

Open Scope list_scope.

(** A configuration file cut short, and a host without terminal that has
    one CPU temperature sensor and one ACPI thermal zone. *)
Definition broken_file : string -> option file :=
  fun p => if String.eqb p "LibreHM.config"
           then Some (Malformed "{ temp_source: ") else None.

Definition hot_cpu : Hardware :=
  mkHardware "Cpu" (Some "AMD Ryzen 7 5800X") "/amdcpu/0"
    [mkSensor "Temperature" (Some "CPU Package") "/amdcpu/0/temperature/2" (Some 55.0%float)]
    [].

Definition headless_host : Env :=
  mkEnv (Some (LibreHMReader.mk true (Some [hot_cpu]))) "LibreHM.config" true
        (Ok [mkThermalZone (Some 3132) None "TZ0"]) (Ok [])
        false "2025-01-01 00:00:00" (fun _ => true).

End ProcedureData.

Section PinnedReadData.

Open Scope list_scope.

(** Two pinned selections, and a host that now has two thermal zones and
    no temperature or fan sensor. *)
Definition pinned_zone : json :=
  to_dict (mkCandidate "WMI_ACPI" "WMI:ACPI:2" "WMI | ACPI ThermalZone | idx=2 | TZ2"
                       (Some 41.0%float)).

Definition pinned_core : json :=
  to_dict (mkCandidate "LHM" "/amdcpu/0/temperature/2"
                       "LHM | Cpu | AMD Ryzen 7 5800X | Core (Tctl/Tdie)" (Some 55.0%float)).

Definition fanless_board : Hardware :=
  mkHardware "Motherboard" (Some "B550") "/motherboard"
    [mkSensor "Voltage" (Some "Vcore") "/lpc/nct6798d/voltage/0" (Some 1.25%float)] [].

Definition two_zones : Env :=
  mkEnv (Some (LibreHMReader.mk true (Some [fanless_board]))) "LibreHM.config" true
        (Ok [mkThermalZone (Some 3031) None "TZ0"; mkThermalZone (Some 3102) None "TZ1"])
        (Ok []) false "2025-01-01 00:00:00" (fun _ => true).

End PinnedReadData.

Section OperatorChoiceData.

Open Scope list_scope.


End OperatorChoiceData.

Section ProcessStatusData.

Import Metrics.

Open Scope list_scope.

(** A server watching its web server and its database. *)
Definition web_server : Self :=
  mkSelf ["nginx"; "db=\mysql\bin"] [("nginx", "nginx"); ("db", "\mysql\bin")]
         4 (Some 4) (Some 4).

Definition nginx_worker : Process :=
  mkProcess (Some "C:\nginx\NGINX.exe") (Ok 2.0%float) (Ok 1024).

Definition three_procs : list Process :=
  [nginx_worker;
   mkProcess None (Ok 50.0%float) (Ok 4096);
   mkProcess (Some " C:\MySQL\bin\mysqld.exe ") (Raise OSError) (Ok 2048);
   mkProcess (Some "C:\tools\nginx-mysql\sync.exe") (Ok 6.0%float) (Raise OSError)].

End ProcessStatusData.

End Examples.

(** * Properties *)

(** ** The order of binary64 numbers *)

Module FloatOrder.
Import Spec Examples.
Ltac sf_signs :=
  repeat match goal with
  | s : bool |- _ => destruct s
  end; simpl in *; try congruence.

Ltac sf_compare :=
  repeat match goal with
  | |- context [ (?a ?= ?b)%Z ] => destruct (Z.compare_spec a b)
  | H : context [ (?a ?= ?b)%Z ] |- _ => destruct (Z.compare_spec a b)
  | |- context [ PosDef.Pos.compare_cont Eq ?a ?b ] =>
      change (PosDef.Pos.compare_cont Eq a b) with (Pos.compare a b);
      destruct (Pos.compare_spec a b)
  | H : context [ PosDef.Pos.compare_cont Eq ?a ?b ] |- _ =>
      change (PosDef.Pos.compare_cont Eq a b) with (Pos.compare a b) in H;
      destruct (Pos.compare_spec a b)
  end; simpl in *; try congruence; try lia.

Ltac sf_order :=
  unfold SFltb, SFleb;
  repeat match goal with
  | x : spec_float |- _ => destruct x
  end; simpl; try congruence; sf_signs; sf_compare.

Lemma SFleb_ltb_trans x y z :
  SFleb x y = true -> SFltb y z = true -> SFltb x z = true.
Proof. sf_order. Qed.

Lemma SFleb_trans x y z :
  SFleb x y = true -> SFleb y z = true -> SFleb x z = true.
Proof. sf_order. Qed.

Lemma SFltb_false_leb x y :
  SFleb x x = true -> SFleb y y = true -> SFltb x y = false -> SFleb y x = true.
Proof. sf_order. Qed.

Lemma SFltb_leb x y : SFltb x y = true -> SFleb x y = true.
Proof. unfold SFltb, SFleb. destruct (SFcompare x y) as [[]|]; congruence. Qed.

Lemma SFltb_ordered_r x y : SFltb x y = true -> SFleb y y = true.
Proof. sf_order. Qed.

Lemma SFleb_ordered_r x y : SFleb x y = true -> SFleb y y = true.
Proof. sf_order. Qed.

Lemma SFleb_not_ltb x y : SFleb x y = true -> SFltb y x = false.
Proof. sf_order. Qed.

Lemma SFltb_not_leb x y : SFltb x y = true -> SFleb y x = false.
Proof. sf_order. Qed.

Open Scope float_scope.

Lemma leb_ltb_trans x y z : (x <=? y) = true -> (y <? z) = true -> (x <? z) = true.
Proof. rewrite !leb_spec, !ltb_spec. apply SFleb_ltb_trans. Qed.

Lemma leb_trans x y z : (x <=? y) = true -> (y <=? z) = true -> (x <=? z) = true.
Proof. rewrite !leb_spec. apply SFleb_trans. Qed.

Lemma ltb_false_leb x y :
  ordered x -> ordered y -> (x <? y) = false -> (y <=? x) = true.
Proof. unfold ordered. rewrite !leb_spec, !ltb_spec. apply SFltb_false_leb. Qed.

Lemma ltb_leb x y : (x <? y) = true -> (x <=? y) = true.
Proof. rewrite leb_spec, ltb_spec. apply SFltb_leb. Qed.

Lemma ltb_ordered_r x y : (x <? y) = true -> ordered y.
Proof. unfold ordered. rewrite leb_spec, ltb_spec. apply SFltb_ordered_r. Qed.

Lemma leb_ordered_r x y : (x <=? y) = true -> ordered y.
Proof. unfold ordered. rewrite !leb_spec. apply SFleb_ordered_r. Qed.

Lemma leb_not_ltb x y : (x <=? y) = true -> (y <? x) = false.
Proof. rewrite leb_spec, ltb_spec. apply SFleb_not_ltb. Qed.

Lemma ltb_not_leb x y : (x <? y) = true -> (y <=? x) = false.
Proof. rewrite leb_spec, ltb_spec. apply SFltb_not_leb. Qed.

End FloatOrder.

(** ** Substrings *)

Module Substring.
Import Spec Examples.
Lemma prefix_app k s : prefix k s = true <-> exists post, s = k ++ post.
Proof.
  revert s. induction k as [|c k IH]; intros [|d s]; simpl.
  - split; [intros _; now exists "" | reflexivity].
  - split; [intros _; now exists (String d s) | reflexivity].
  - split; [discriminate | intros [post H]; discriminate].
  - destruct (ascii_dec c d) as [->|ne].
    + rewrite IH. split; intros [post H]; exists post; congruence.
    + split; [discriminate | intros [post H]; congruence].
Qed.

Lemma str_in_nil k : str_in k "" = prefix k "".
Proof.
  change (str_in k "") with (if prefix k "" then true else false).
  now destruct (prefix k "").
Qed.

Lemma str_in_cons k d s :
  str_in k (String d s) = (prefix k (String d s) || str_in k s)%bool.
Proof.
  change (str_in k (String d s))
    with (if prefix k (String d s) then true else str_in k s).
  now destruct (prefix k (String d s)).
Qed.

Lemma str_in_contains k s : str_in k s = true <-> contains k s.
Proof.
  unfold contains. induction s as [|d s IH].
  - rewrite str_in_nil, prefix_app. split.
    + intros [post H]. now exists "", post.
    + intros [pre [post H]]. destruct pre; [|discriminate]. now exists post.
  - rewrite str_in_cons, orb_true_iff, prefix_app, IH. split.
    + intros [[post H]|[pre [post H]]].
      * now exists "", post.
      * exists (String d pre), post. simpl. now rewrite H.
    + intros [pre [post H]]. destruct pre as [|e pre]; simpl in H.
      * left. now exists post.
      * right. exists pre, post. congruence.
Qed.

Lemma any_in_contains ks s :
  any_in ks s = true <-> exists k, In k ks /\ contains k s.
Proof.
  unfold any_in. rewrite existsb_exists.
  split; intros [k [I H]]; exists k; split; auto; now apply str_in_contains.
Qed.

End Substring.

(** ** [max] with a key *)

Module MaxBy.
Import Spec Examples.
Import FloatOrder.
Open Scope float_scope.
Open Scope list_scope.

Section Keyed.
Context {A : Type} (key : A -> exc float).

Lemma max_loop_greatest l : forall seen best kb,
  key best = Ok kb -> ordered kb -> In best seen ->
  (forall y ky, In y seen -> key y = Ok ky -> (ky <=? kb) = true) ->
  keyed key l ->
  exists c, max_loop key best kb l = Ok c /\ greatest key (seen ++ l) c.
Proof.
  induction l as [|x r IH]; intros seen best kb Hk Ho Hin Hle Hl; simpl.
  - exists best. split; [reflexivity|]. rewrite app_nil_r.
    split; [assumption|]. exists kb. split; assumption.
  - destruct (Hl x (or_introl eq_refl)) as [kx [Hkx Hox]].
    rewrite Hkx. simpl.
    assert (Hr : keyed key r) by (intros y Hy; apply Hl; now right).
    replace (seen ++ x :: r) with ((seen ++ [x]) ++ r)
      by (now rewrite <- app_assoc).
    destruct (kb <? kx) eqn:C.
    + apply IH; auto.
      * apply in_or_app. right. now left.
      * intros y ky Hy Hky. apply in_app_or in Hy. destruct Hy as [Hy|[<-|[]]].
        -- apply ltb_leb. eapply leb_ltb_trans; [eapply Hle; eauto | exact C].
        -- rewrite Hkx in Hky. injection Hky as <-. exact Hox.
    + apply IH; auto.
      * apply in_or_app. now left.
      * intros y ky Hy Hky. apply in_app_or in Hy. destruct Hy as [Hy|[<-|[]]].
        -- eapply Hle; eauto.
        -- rewrite Hkx in Hky. injection Hky as <-.
           now apply ltb_false_leb.
Qed.

Lemma max_by_greatest l :
  l <> [] -> keyed key l -> exists c, max_by key l = Ok c /\ greatest key l c.
Proof.
  destruct l as [|x r]; [congruence|]. intros _ Hl. simpl.
  destruct (Hl x (or_introl eq_refl)) as [kx [Hkx Hox]].
  rewrite Hkx. simpl.
  apply (max_loop_greatest r [x] x kx); auto.
  - now left.
  - intros y ky [<-|[]] Hky. rewrite Hkx in Hky. injection Hky as <-. exact Hox.
  - intros y Hy. apply Hl. now right.
Qed.
End Keyed.

End MaxBy.

(** ** The automatic choice (AutoPicker) *)

Module AutoPick.
Import Spec Examples.
Import SensorSelector FloatOrder Substring MaxBy.
Open Scope float_scope.

Lemma okv_temp_iff c : okv_temp (c_value c) = true <-> value_in_open 0.5 120.0 c.
Proof.
  unfold okv_temp, value_in_open. destruct (c_value c) as [v|].
  - rewrite andb_true_iff. split.
    + intros [H1 H2]. now exists v.
    + intros [v' [E [H1 H2]]]. injection E as <-. now split.
  - split; [discriminate | intros [v [E _]]; discriminate].
Qed.

Lemma okv_fan_iff c : okv_fan (c_value c) = true <-> value_in_range 1.0 20000.0 c.
Proof.
  unfold okv_fan, value_in_range. destruct (c_value c) as [v|].
  - rewrite andb_true_iff. split.
    + intros [H1 H2]. now exists v.
    + intros [v' [E [H1 H2]]]. injection E as <-. now split.
  - split; [discriminate | intros [v [E _]]; discriminate].
Qed.

Lemma any_in_named_like ks c :
  (forall k, In k ks -> lower k = k) ->
  any_in ks (lower (c_name c)) = true <-> named_like ks c.
Proof.
  intros Hl. rewrite any_in_contains. unfold named_like, contains_ci.
  split; intros [k [I H]]; exists k; (split; [assumption|]).
  - now rewrite (Hl k I).
  - now rewrite (Hl k I) in H.
Qed.

Ltac lowercase_keywords :=
  let k := fresh "k" in let H := fresh "H" in
  intros k H; simpl in H;
  repeat (destruct H as [<-|H]; [reflexivity|]); destruct H.

Lemma is_cpu_like_iff c : is_cpu_like c = true <-> cpu_temp c.
Proof.
  unfold is_cpu_like, cpu_temp, cpu_keywords.
  rewrite !andb_true_iff, String.eqb_eq, okv_temp_iff, any_in_named_like.
  - tauto.
  - lowercase_keywords.
Qed.

Lemma is_acpi_iff c : is_acpi c = true <-> acpi_temp c.
Proof.
  unfold is_acpi, acpi_temp.
  rewrite !andb_true_iff, String.eqb_eq, okv_temp_iff. tauto.
Qed.

Lemma is_pri_iff c : is_pri c = true <-> cpu_fan c.
Proof.
  unfold is_pri, cpu_fan, fan_keywords.
  rewrite !andb_true_iff, String.eqb_eq, okv_fan_iff, any_in_named_like.
  - tauto.
  - lowercase_keywords.
Qed.

Lemma is_lhm_any_iff c : is_lhm_any c = true <-> lhm_fan c.
Proof.
  unfold is_lhm_any, lhm_fan.
  rewrite !andb_true_iff, String.eqb_eq, okv_fan_iff. tauto.
Qed.

Lemma is_wmi_fan_iff c : is_wmi_fan c = true <-> wmi_fan_cand c.
Proof.
  unfold is_wmi_fan, wmi_fan_cand.
  rewrite !andb_true_iff, String.eqb_eq, okv_fan_iff. tauto.
Qed.

Lemma open_ordered lo hi c :
  value_in_open lo hi c -> exists v, c_value c = Some v /\ ordered v.
Proof.
  intros [v [E [H _]]]. exists v. split; [assumption|]. eapply ltb_ordered_r; eauto.
Qed.

Lemma range_ordered lo hi c :
  value_in_range lo hi c -> exists v, c_value c = Some v /\ ordered v.
Proof.
  intros [v [E [H _]]]. exists v. split; [assumption|]. eapply leb_ordered_r; eauto.
Qed.

(** What one tier of a picker does: [max] over the filtered list when it is
    not empty. *)
Lemma tier (f : Candidate -> bool) (P : Candidate -> Prop) (l : list Candidate) :
  (forall c, f c = true <-> P c) ->
  (forall c, P c -> exists v, c_value c = Some v /\ ordered v) ->
  match filter f l with
  | [] => none P l
  | _ :: _ => exists c, max_by value_key (filter f l) = Ok c /\ maximal P l c
  end.
Proof.
  intros Hf Hv. destruct (filter f l) as [|x r] eqn:F.
  - intros y Hy Py. apply Hf in Py.
    assert (In y (filter f l)) by (apply filter_In; auto).
    rewrite F in H. destruct H.
  - rewrite <- F.
    destruct (max_by_greatest value_key (filter f l)) as [c [Hc [Hin [kc [Hkc Hmax]]]]].
    + rewrite F. discriminate.
    + intros y Hy. apply filter_In in Hy. destruct Hy as [_ Hy].
      apply Hf, Hv in Hy. destruct Hy as [v [E O]].
      exists v. unfold value_key. rewrite E. auto.
    + exists c. split; [assumption|].
      apply filter_In in Hin. destruct Hin as [Hin Hfc].
      split; [assumption|]. split; [now apply Hf|].
      intros y Hy Py.
      destruct (Hv y Py) as [vy [Ey _]].
      unfold value_key in Hkc. destruct (c_value c) as [vc|] eqn:Ec; [|discriminate].
      injection Hkc as <-.
      exists vy, vc. repeat split; auto.
      apply (Hmax y vy).
      * apply filter_In. split; [assumption | now apply Hf].
      * unfold value_key. now rewrite Ey.
Qed.

Lemma auto_pick_temp_total l : exists r, _auto_pick_temp l = Ok r.
Proof.
  unfold _auto_pick_temp.
  pose proof (tier is_cpu_like cpu_temp l is_cpu_like_iff) as T1.
  pose proof (tier is_acpi acpi_temp l is_acpi_iff) as T2.
  destruct (filter is_cpu_like l) as [|x1 r1].
  - destruct (filter is_acpi l) as [|x2 r2]; [now eexists|].
    destruct T2 as [c [-> _]]; [|now eexists].
    intros c [_ H]. eapply open_ordered; eauto.
  - destruct T1 as [c [-> _]]; [|now eexists].
    intros c [_ [_ H]]. eapply open_ordered; eauto.
Qed.

Lemma auto_pick_fan_total l : exists r, _auto_pick_fan l = Ok r.
Proof.
  unfold _auto_pick_fan.
  pose proof (tier is_pri cpu_fan l is_pri_iff) as T1.
  pose proof (tier is_lhm_any lhm_fan l is_lhm_any_iff) as T2.
  pose proof (tier is_wmi_fan wmi_fan_cand l is_wmi_fan_iff) as T3.
  destruct (filter is_pri l) as [|x1 r1].
  - destruct (filter is_lhm_any l) as [|x2 r2].
    + destruct (filter is_wmi_fan l) as [|x3 r3]; [now eexists|].
      destruct T3 as [c [-> _]]; [|now eexists].
      intros c [_ H]. eapply range_ordered; eauto.
    + destruct T2 as [c [-> _]]; [|now eexists].
      intros c [_ H]. eapply range_ordered; eauto.
  - destruct T1 as [c [-> _]]; [|now eexists].
    intros c [_ [_ H]]. eapply range_ordered; eauto.
Qed.

(** C1. For every temperature candidate list, [_auto_pick_temp] returns a
    candidate of maximal value among the "LHM" candidates whose display name
    contains, whatever the case, "package", "tctl", "tdie" or "cpu" and whose
    value lies strictly between 0.5 and 120.0; when there is none, a
    candidate of maximal value among the "WMI_ACPI" candidates with a value
    strictly between 0.5 and 120.0; when there is none either, [None].  It
    never raises. *)
Theorem auto_pick_temp_tiers (temps : list Candidate) :
  (some cpu_temp temps ->
     exists c, _auto_pick_temp temps = Ok (Some c) /\ maximal cpu_temp temps c)
  /\ (none cpu_temp temps -> some acpi_temp temps ->
     exists c, _auto_pick_temp temps = Ok (Some c) /\ maximal acpi_temp temps c)
  /\ (none cpu_temp temps -> none acpi_temp temps ->
     _auto_pick_temp temps = Ok None).
Proof.
  unfold _auto_pick_temp.
  pose proof (tier is_cpu_like cpu_temp temps is_cpu_like_iff) as T1.
  pose proof (tier is_acpi acpi_temp temps is_acpi_iff) as T2.
  destruct (filter is_cpu_like temps) as [|x1 r1].
  - assert (N1 : none cpu_temp temps).
    { apply T1. intros c [_ [_ H]]. eapply open_ordered; eauto. }
    split; [intros [y [Hy Py]]; now destruct (N1 y Hy)|].
    destruct (filter is_acpi temps) as [|x2 r2].
    + assert (N2 : none acpi_temp temps).
      { apply T2. intros c [_ H]. eapply open_ordered; eauto. }
      split; [intros _ [y [Hy Py]]; now destruct (N2 y Hy) | reflexivity].
    + destruct T2 as [c [Hc Hm]].
      { intros c [_ H]. eapply open_ordered; eauto. }
      split.
      * intros _ _. exists c. rewrite Hc. auto.
      * intros _ N2. destruct Hm as [Hin [Pc _]]. now destruct (N2 c Hin).
  - destruct T1 as [c [Hc Hm]].
    { intros c [_ [_ H]]. eapply open_ordered; eauto. }
    split; [intros _; exists c; rewrite Hc; auto|].
    destruct Hm as [Hin [Pc _]].
    split; intros N1; now destruct (N1 c Hin).
Qed.

(** The spec's example: of two qualifying CPU candidates valued 45.0 and
    72.0 the one valued 72.0 is chosen, whatever their order and whatever
    else an ACPI zone reports. *)
Example auto_pick_temp_hottest :
  let a := mkCandidate "LHM" "/amdcpu/0/temperature/0" "LHM | Cpu | Ryzen | Core #1" (Some 45.0) in
  let b := mkCandidate "LHM" "/amdcpu/0/temperature/1" "LHM | Cpu | Ryzen | CPU Package" (Some 72.0) in
  let z := mkCandidate "WMI_ACPI" "WMI:ACPI:0" "WMI | ACPI ThermalZone | idx=0 | TZ0" (Some 90.0) in
  _auto_pick_temp [a; b; z] = Ok (Some b) /\ _auto_pick_temp [z; b; a] = Ok (Some b).
Proof. split; vm_compute; reflexivity. Qed.

(** A fan example: a pump at 2800 RPM is preferred to a faster case fan,
    and a stopped CPU fan does not qualify. *)
Example auto_pick_fan_pump :
  let a := mkCandidate "LHM" "/lpc/nct6798d/fan/0" "LHM | SuperIO | Nuvoton NCT6798D | CPU Fan" (Some 0.0) in
  let b := mkCandidate "LHM" "/lpc/nct6798d/fan/1" "LHM | SuperIO | Nuvoton NCT6798D | Fan #2" (Some 3100.0) in
  let c := mkCandidate "LHM" "/lpc/nct6798d/fan/5" "LHM | SuperIO | Nuvoton NCT6798D | AIO Pump" (Some 2800.0) in
  _auto_pick_fan [a; b; c] = Ok (Some c) /\ _auto_pick_fan [a; b] = Ok (Some b)
  /\ _auto_pick_fan [a] = Ok None.
Proof. repeat split; vm_compute; reflexivity. Qed.

(** C5. For every fan candidate list, [_auto_pick_fan] returns a candidate
    of maximal value among the "LHM" candidates named like "cpu", "aio" or
    "pump" with a value in [1.0, 20000.0); failing that, among the "LHM"
    candidates with a value in that range; failing that, among the "WMI_FAN"
    candidates with a value in that range; failing that, [None].  What it
    returns never has a value below 1.0 nor one of 20000.0 or more. *)
Theorem auto_pick_fan_tiers (fans : list Candidate) :
  (some cpu_fan fans ->
     exists c, _auto_pick_fan fans = Ok (Some c) /\ maximal cpu_fan fans c)
  /\ (none cpu_fan fans -> some lhm_fan fans ->
     exists c, _auto_pick_fan fans = Ok (Some c) /\ maximal lhm_fan fans c)
  /\ (none cpu_fan fans -> none lhm_fan fans -> some wmi_fan_cand fans ->
     exists c, _auto_pick_fan fans = Ok (Some c) /\ maximal wmi_fan_cand fans c)
  /\ (none cpu_fan fans -> none lhm_fan fans -> none wmi_fan_cand fans ->
     _auto_pick_fan fans = Ok None)
  /\ (forall c, _auto_pick_fan fans = Ok (Some c) ->
     exists v, c_value c = Some v
               /\ (v <? 1.0) = false /\ (20000.0 <=? v) = false).
Proof.
  assert (R1 : forall c, cpu_fan c -> exists v, c_value c = Some v /\ ordered v)
    by (intros c [_ [_ H]]; eapply range_ordered; eauto).
  assert (R2 : forall c, lhm_fan c -> exists v, c_value c = Some v /\ ordered v)
    by (intros c [_ H]; eapply range_ordered; eauto).
  assert (R3 : forall c, wmi_fan_cand c -> exists v, c_value c = Some v /\ ordered v)
    by (intros c [_ H]; eapply range_ordered; eauto).
  assert (B : forall c, value_in_range 1.0 20000.0 c ->
                exists v, c_value c = Some v
                          /\ (v <? 1.0) = false /\ (20000.0 <=? v) = false).
  { intros c [v [E [H1 H2]]]. exists v. split; [assumption|].
    split; [now apply leb_not_ltb | now apply ltb_not_leb]. }
  unfold _auto_pick_fan.
  pose proof (tier is_pri cpu_fan fans is_pri_iff R1) as T1.
  pose proof (tier is_lhm_any lhm_fan fans is_lhm_any_iff R2) as T2.
  pose proof (tier is_wmi_fan wmi_fan_cand fans is_wmi_fan_iff R3) as T3.
  destruct (filter is_pri fans) as [|x1 r1].
  - split; [intros [y [Hy Py]]; now destruct (T1 y Hy)|].
    destruct (filter is_lhm_any fans) as [|x2 r2].
    + split; [intros _ [y [Hy Py]]; now destruct (T2 y Hy)|].
      destruct (filter is_wmi_fan fans) as [|x3 r3].
      * split; [intros _ _ [y [Hy Py]]; now destruct (T3 y Hy)|].
        split; [reflexivity | discriminate].
      * destruct T3 as [c [Hc Hm]]. rewrite Hc. simpl.
        split; [intros _ _ _; exists c; auto|].
        split; [intros _ _ N; destruct Hm as [Hin [Pc _]]; now destruct (N c Hin)|].
        intros c' E. injection E as <-. apply B. apply Hm.
    + destruct T2 as [c [Hc Hm]]. rewrite Hc. simpl.
      split; [intros _ _; exists c; auto|].
      split; [intros _ N; destruct Hm as [Hin [Pc _]]; now destruct (N c Hin)|].
      split; [intros _ N; destruct Hm as [Hin [Pc _]]; now destruct (N c Hin)|].
      intros c' E. injection E as <-. apply B. apply Hm.
  - destruct T1 as [c [Hc Hm]]. rewrite Hc. simpl.
    split; [intros _; exists c; auto|].
    split; [intros N; destruct Hm as [Hin [Pc _]]; now destruct (N c Hin)|].
    split; [intros N; destruct Hm as [Hin [Pc _]]; now destruct (N c Hin)|].
    split; [intros N; destruct Hm as [Hin [Pc _]]; now destruct (N c Hin)|].
    intros c' E. injection E as <-. apply B. apply Hm.
Qed.

End AutoPick.

(** ** GPU memory *)

Module GpuMemory.
Import Spec Examples.
Import LibreHMReader FloatOrder.

Lemma gpu_sensor_step_update s u t d :
  gpu_sensor_step (u, t, d) s
  = (update is_used s u, update is_total s t, update is_d3d s d).
Proof.
  unfold gpu_sensor_step, update, is_used, is_total, is_d3d, small_data, named.
  destruct (str_in "smalldata" (lower (s_Identifier s))
            || String.eqb (lower (s_SensorType s)) "smalldata")%bool;
    [|reflexivity].
  destruct (s_Value s) as [v|];
    destruct (str_in "gpu memory used" _), (str_in "gpu memory total" _),
      (str_in "d3d dedicated memory used" _); reflexivity.
Qed.

Lemma latest_cons p s l acc : latest p (s :: l) acc = latest p l (update p s acc).
Proof.
  unfold latest, update, readings. cbn [flat_map].
  destruct (p s); [|reflexivity].
  destruct (s_Value s) as [v|]; [|reflexivity].
  cbn [app last_opt].
  now destruct (last_opt _).
Qed.

Lemma gpu_sensor_fold l : forall u t d,
  fold_left gpu_sensor_step l (u, t, d)
  = (latest is_used l u, latest is_total l t, latest is_d3d l d).
Proof.
  induction l as [|s l IH]; intros u t d; [reflexivity|].
  cbn [fold_left]. now rewrite gpu_sensor_step_update, IH, !latest_cons.
Qed.

Lemma gpu_node_readings hw : gpu_node hw = (node_used hw, node_total hw).
Proof.
  unfold gpu_node. rewrite gpu_sensor_fold.
  unfold latest, node_used, node_total, reading.
  destruct (last_opt (readings is_used (hw_Sensors hw)));
    destruct (last_opt (readings is_d3d (hw_Sensors hw)));
    destruct (last_opt (readings is_total (hw_Sensors hw))); reflexivity.
Qed.

Lemma gpu_scan_from l : forall acc,
  fold_left gpu_hw_step l acc
  = mkGpuAcc (bytes_sum_from (g_used acc) (map node_used (filter is_gpu l)))
             (bytes_sum_from (g_total acc) (map node_total (filter is_gpu l)))
             (g_has_any acc || existsb reports (filter is_gpu l)).
Proof.
  induction l as [|hw l IH]; intros [u t h].
  - simpl. now rewrite orb_false_r.
  - cbn [fold_left filter]. rewrite IH. unfold gpu_hw_step.
    destruct (is_gpu hw); cbn [negb]; [|reflexivity].
    rewrite gpu_node_readings. cbn [map existsb]. unfold reports, bytes_sum_from.
    destruct (node_used hw), (node_total hw); cbn;
      rewrite ?orb_true_r, ?orb_false_r; reflexivity.
Qed.

(** The accumulators after the loop over the roots. *)
Lemma gpu_scan_sums hws :
  gpu_scan hws
  = mkGpuAcc (bytes_sum (map node_used (filter is_gpu hws)))
             (bytes_sum (map node_total (filter is_gpu hws)))
             (existsb reports (filter is_gpu hws)).
Proof. unfold gpu_scan. now rewrite gpu_scan_from. Qed.

Open Scope float_scope.

Lemma Prim2SF_infinity x s : Prim2SF x = S754_infinity s -> s = false -> x = infinity.
Proof.
  intros E ->. rewrite <- (SF2Prim_Prim2SF x), E. reflexivity.
Qed.

(** [int] of a float that is not below zero: an integer that is not below
    zero, or [OverflowError] on the float [inf]. *)
Lemma int_of_nonneg x :
  (0 <=? x) = true ->
  (exists z, int_of_float x = Ok z /\ (0 <= z)%Z)
  \/ (int_of_float x = Raise OverflowError /\ x = infinity).
Proof.
  rewrite leb_spec. change (Prim2SF 0) with (S754_zero false).
  unfold int_of_float. intros H.
  destruct (Prim2SF x) as [s|s| |s m e] eqn:E.
  - left. exists 0%Z. split; [reflexivity | lia].
  - destruct s; [discriminate|]. right. split; [reflexivity|].
    now apply (Prim2SF_infinity x false).
  - discriminate.
  - destruct s; [discriminate|]. left. eexists. split; [reflexivity|].
    apply Z.shiftl_nonneg. lia.
Qed.

Lemma bytes_sum_absent (l : list (option float)) start :
  (forall r, In r l -> r = None) -> bytes_sum_from start l = start.
Proof.
  revert start. induction l as [|r l IH]; intros start H; [reflexivity|].
  cbn. rewrite (H r (or_introl eq_refl)). apply IH. intros r' Hr. apply H. now right.
Qed.

Lemma all_absent {A} (f : A -> option float) (l : list A) :
  (forall g, In g l -> f g = None) -> forall r, In r (map f l) -> r = None.
Proof.
  intros H r Hr. apply in_map_iff in Hr. destruct Hr as [g [<- Hg]]. now apply H.
Qed.

(** The result in terms of the per-node readings. *)
Lemma gpu_mem_by_nodes (self : t) (hws : list Hardware) :
  roots self = Some hws ->
  gpu_mem_used_total_bytes self
  = if existsb reports (filter is_gpu hws)
    then gpu_result (mkGpuAcc (bytes_sum (map node_used (filter is_gpu hws)))
                              (bytes_sum (map node_total (filter is_gpu hws))) true)
    else Ok (None, None).
Proof.
  intros R. unfold gpu_mem_used_total_bytes. rewrite R, gpu_scan_sums.
  cbn [g_has_any]. now destruct (existsb reports (filter is_gpu hws)).
Qed.

(** C8. [gpu_mem_used_total_bytes] adds up, over the GPU nodes, each node's
    "GPU Memory Used" reading (its "D3D Dedicated Memory Used" reading when
    it has none) and each node's "GPU Memory Total" reading, every reading
    multiplied by 1,000,000; two GPU nodes reading 1000/2000 and 500/1000
    give (1,500,000,000, 3,000,000,000). *)
Theorem gpu_mem_sums_nodes (self : t) (hws : list Hardware) :
  roots self = Some hws ->
  let gpus := filter is_gpu hws in
  gpu_mem_used_total_bytes self
  = (if existsb reports gpus
     then gpu_result (mkGpuAcc (bytes_sum (map node_used gpus))
                               (bytes_sum (map node_total gpus)) true)
     else Ok (None, None))
  /\ (forall g1 g2, gpus = [g1; g2] ->
       node_used g1 = Some 1000 -> node_total g1 = Some 2000 ->
       node_used g2 = Some 500 -> node_total g2 = Some 1000 ->
       gpu_mem_used_total_bytes self = Ok (Some 1500000000%Z, Some 3000000000%Z)).
Proof.
  intros R gpus. split; [now apply gpu_mem_by_nodes|].
  intros g1 g2 G U1 T1 U2 T2.
  rewrite (gpu_mem_by_nodes self hws R). fold gpus. rewrite G.
  unfold reports. cbn [existsb map]. rewrite U1, T1, U2, T2.
  vm_compute. reflexivity.
Qed.

Lemma gpu_mem_sums_nodes_witness :
  gpu_mem_used_total_bytes (mk true (Some [gpu_a; board; gpu_b]))
  = Ok (Some 1500000000%Z, Some 3000000000%Z).
Proof.
  apply (proj2 (gpu_mem_sums_nodes (mk true (Some [gpu_a; board; gpu_b]))
                                   [gpu_a; board; gpu_b] eq_refl) gpu_a gpu_b);
    reflexivity.
Defined.

(** C10. Whenever some GPU node contributes a reading, every result of
    [gpu_mem_used_total_bytes] has its used component present and not
    negative, and 0 when no node has a used reading; its total component is
    absent whenever the summed total is not above zero, in particular when
    no node has a total reading, and present otherwise.  There is a result
    unless one of the two sums is the float [inf], on which [int], called
    outside the [try] block, raises [OverflowError]. *)
Theorem gpu_mem_used_present (self : t) (hws : list Hardware) :
  roots self = Some hws ->
  let gpus := filter is_gpu hws in
  let used := bytes_sum (map node_used gpus) in
  let total := bytes_sum (map node_total gpus) in
  existsb reports gpus = true ->
  (used <> infinity -> total <> infinity ->
     exists r, gpu_mem_used_total_bytes self = Ok r)
  /\ (forall e, gpu_mem_used_total_bytes self = Raise e ->
        e = OverflowError /\ (used = infinity \/ total = infinity))
  /\ (forall r, gpu_mem_used_total_bytes self = Ok r ->
        exists u,
          fst r = Some u
          /\ (0 <= u)%Z
          /\ ((0 <=? used) = true -> int_of_float used = Ok u)
          /\ ((0 <? total) = false -> snd r = None)
          /\ ((0 <? total) = true ->
                exists z, snd r = Some z /\ int_of_float total = Ok z)
          /\ ((forall g, In g gpus -> node_total g = None) -> snd r = None)
          /\ ((forall g, In g gpus -> node_used g = None) -> u = 0%Z)).
Proof.
  intros R gpus used total Hany.
  rewrite (gpu_mem_by_nodes self hws R). fold gpus used total. rewrite Hany.
  unfold gpu_result. cbn [g_used g_total].
  assert (Hu0 : (forall g, In g gpus -> node_used g = None) -> used = 0).
  { intros H. apply bytes_sum_absent. now apply all_absent. }
  assert (Ht0 : (forall g, In g gpus -> node_total g = None) -> (0 <? total) = false).
  { intros H. unfold total, bytes_sum.
    rewrite bytes_sum_absent by now apply all_absent. reflexivity. }
  assert (U : (exists u, (if 0 <=? used then int_of_float used else Ok 0%Z) = Ok u
                         /\ (0 <= u)%Z
                         /\ ((0 <=? used) = true -> int_of_float used = Ok u)
                         /\ (used = 0 -> u = 0%Z))
              \/ ((if 0 <=? used then int_of_float used else Ok 0%Z) = Raise OverflowError
                  /\ used = infinity)).
  { destruct (0 <=? used) eqn:C.
    - destruct (int_of_nonneg used C) as [[z [Ez Hz]]|[Ez Hz]]; [left|right; auto].
      exists z. repeat split; auto.
      intros E0. rewrite E0 in Ez. vm_compute in Ez. congruence.
    - left. exists 0%Z. repeat split; auto; [lia | discriminate]. }
  assert (T : (0 <? total) = true ->
              (exists z, int_of_float total = Ok z)
              \/ (int_of_float total = Raise OverflowError /\ total = infinity)).
  { intros C. destruct (int_of_nonneg total (ltb_leb _ _ C)) as [[z [Ez _]]|H];
      [left; now exists z | now right]. }
  destruct U as [[u [Eu [Hpos [Hint Hzero]]]]|[Eu Hinf]]; rewrite Eu; cbn [bind].
  2: { split; [intros N; now destruct N|].
       split; [intros e H; injection H as <-; auto | discriminate]. }
  destruct (0 <? total) eqn:C.
  - destruct (T eq_refl) as [[z Ez]|[Ez Hinf]]; rewrite Ez; cbn [bind].
    + split; [intros _ _; now eexists|]. split; [discriminate|].
      intros r H. injection H as <-. exists u. cbn [fst snd].
      repeat split; auto; try discriminate.
      * intros _. now exists z.
      * intros H. discriminate (Ht0 H).
    + split; [intros _ N; now destruct N|].
      split; [intros e H; injection H as <-; auto | discriminate].
  - cbn [bind]. split; [intros _ _; now eexists|]. split; [discriminate|].
    intros r H. injection H as <-. exists u. cbn [fst snd].
    repeat split; auto. discriminate.
Qed.

Lemma gpu_mem_used_present_witness :
  exists r u,
    gpu_mem_used_total_bytes (mk true (Some [gpu_used_only])) = Ok r
    /\ fst r = Some u /\ (0 <= u)%Z /\ snd r = None.
Proof.
  destruct (gpu_mem_used_present (mk true (Some [gpu_used_only])) [gpu_used_only]
              eq_refl eq_refl) as [Returns [_ Shape]].
  destruct Returns as [r Hr]; [vm_compute; discriminate | vm_compute; discriminate |].
  destruct (Shape r Hr) as [u [Hu [Pos [_ [_ [_ [NoTotal _]]]]]]].
  exists r, u. repeat split; auto.
  apply NoTotal. intros g [<-|[]]. reflexivity.
Defined.

End GpuMemory.

(** ** Network and disk throughput *)

Module Throughput.
Import Spec Examples.
Import LibreHMReader.
Open Scope float_scope.

Lemma rate_scan_from sel pick1 pick2 l : forall acc,
  fold_left (rate_hw_step sel pick1 pick2) l acc
  = mkRateAcc
      (float_sum_from (r_first acc)
         (map (fun hw => fst (rate_node pick1 pick2 hw)) (filter (active sel pick1 pick2) l)))
      (float_sum_from (r_second acc)
         (map (fun hw => snd (rate_node pick1 pick2 hw)) (filter (active sel pick1 pick2) l)))
      (r_has_any acc || existsb (fun _ => true) (filter (active sel pick1 pick2) l)).
Proof.
  induction l as [|hw l IH]; intros [a b h].
  - unfold float_sum_from. cbn. rewrite orb_false_r. reflexivity.
  - cbn [fold_left filter]. rewrite IH. unfold rate_hw_step, active.
    destruct (sel hw); cbn [negb andb]; [|reflexivity].
    destruct (rate_node pick1 pick2 hw) as [x y] eqn:N. cbn [fst snd].
    destruct ((0 <? x) || (0 <? y))%bool; [|reflexivity].
    unfold float_sum_from.
    cbn [map fold_left existsb r_first r_second r_has_any].
    rewrite N. cbn [fst snd]. now rewrite orb_true_r.
Qed.

Lemma rate_result_scan sel pick1 pick2 hws :
  rate_result (rate_scan sel pick1 pick2 hws)
  = bits_of_nodes pick1 pick2 (filter (active sel pick1 pick2) hws).
Proof.
  unfold rate_scan. rewrite rate_scan_from. unfold rate_result, bits_of_nodes.
  cbn [r_has_any r_first r_second orb].
  destruct (filter (active sel pick1 pick2) hws); reflexivity.
Qed.

Lemma rate_node_zero pick1 pick2 hw :
  (forall s, In s (hw_Sensors hw) -> feeds pick1 pick2 s = true -> s_Value s = Some 0) ->
  rate_node pick1 pick2 hw = (0, 0).
Proof.
  unfold rate_node. induction (hw_Sensors hw) as [|s l IH]; intros H; [reflexivity|].
  cbn [fold_left].
  assert (E : rate_sensor_step pick1 pick2 (0, 0) s = (0, 0)).
  { specialize (H s (or_introl eq_refl)). unfold feeds in H.
    unfold rate_sensor_step.
    destruct (String.eqb (lower (s_SensorType s)) "throughput"); [|reflexivity].
    destruct (pick1 _).
    - rewrite (H eq_refl). reflexivity.
    - destruct (pick2 _); [|reflexivity]. rewrite (H eq_refl). reflexivity. }
  rewrite E. apply IH. intros s' Hs'. apply H. now right.
Qed.

Lemma no_active_when_zero sel pick1 pick2 hws :
  all_report_zero sel pick1 pick2 hws -> filter (active sel pick1 pick2) hws = [].
Proof.
  intros H.
  assert (G : forall l, (forall hw, In hw l -> In hw hws) ->
                        filter (active sel pick1 pick2) l = []).
  { induction l as [|hw l IH]; intros Hl; [reflexivity|].
    cbn [filter]. unfold active at 1.
    destruct (sel hw) eqn:S.
    - rewrite (rate_node_zero pick1 pick2 hw).
      + cbn. apply IH. intros x Hx. apply Hl. now right.
      + intros s Hs Hf. apply (H hw s); auto. apply Hl. now left.
    - cbn. apply IH. intros x Hx. apply Hl. now right. }
  apply G. auto.
Qed.

(** C4, as the code has it.  Both throughput readers return
    [(None, None)] exactly when no node they look at has a sum above zero,
    so a backend all of whose throughput sensors report 0 gives
    [(None, None)]; otherwise both components are present, eight times the
    sums over the nodes that have a sum above zero. *)
Theorem throughput_absent_without_activity (self : t) (hws : list Hardware) :
  roots self = Some hws ->
  let nics := filter (active is_network (str_in "upload") (str_in "download")) hws in
  let disks := filter (active is_storage is_read_rate is_write_rate) hws in
  nic_up_down_bps self = bits_of_nodes (str_in "upload") (str_in "download") nics
  /\ storage_read_write_bps self = bits_of_nodes is_read_rate is_write_rate disks
  /\ (all_report_zero is_network (str_in "upload") (str_in "download") hws ->
      nic_up_down_bps self = Ok (None, None))
  /\ (all_report_zero is_storage is_read_rate is_write_rate hws ->
      storage_read_write_bps self = Ok (None, None)).
Proof.
  intros R nics disks. unfold nic_up_down_bps, storage_read_write_bps.
  rewrite R, !rate_result_scan. fold nics disks.
  repeat split; intros Z; unfold nics, disks; now rewrite (no_active_when_zero _ _ _ _ Z).
Qed.

(** C4, as stated, fails: the backend has upload, download, read-rate and
    write-rate sensors, all found and all reporting 0, and both readers
    return [(None, None)], not [(0, 0)]. *)
Lemma throughput_zero_is_absent :
  feeds (str_in "upload") (str_in "download")
        (mkSensor "Throughput" (Some "Upload Speed") "/nic/%7B1A2B%7D/throughput/7" (Some 0)) = true
  /\ In (mkSensor "Throughput" (Some "Upload Speed") "/nic/%7B1A2B%7D/throughput/7" (Some 0))
        (hw_Sensors idle_nic)
  /\ nic_up_down_bps idle_backend = Ok (None, None)
  /\ nic_up_down_bps idle_backend <> Ok (Some 0%Z, Some 0%Z)
  /\ storage_read_write_bps idle_backend = Ok (None, None)
  /\ storage_read_write_bps idle_backend <> Ok (Some 0%Z, Some 0%Z).
Proof.
  repeat split; try (vm_compute; reflexivity); try (vm_compute; discriminate).
  simpl. auto.
Qed.

Lemma throughput_absent_without_activity_witness :
  nic_up_down_bps idle_backend = Ok (None, None)
  /\ nic_up_down_bps (mk true (Some [idle_nic; busy_nic])) = Ok (Some 1000000%Z, Some 0%Z).
Proof.
  split.
  - apply (throughput_absent_without_activity idle_backend [idle_nic; idle_disk] eq_refl).
    intros hw s [<-|[<-|[]]] S Hs F; try discriminate S;
      simpl in Hs; repeat (destruct Hs as [<-|Hs]; [try reflexivity; discriminate F|]);
      destruct Hs.
  - rewrite (proj1 (throughput_absent_without_activity
                      (mk true (Some [idle_nic; busy_nic])) [idle_nic; busy_nic] eq_refl)).
    vm_compute. reflexivity.
Defined.

End Throughput.

(** ** CPU frequency *)

Module CpuFrequency.
Import Spec Examples.
Import LibreHMReader.
Open Scope float_scope.
Open Scope list_scope.





End CpuFrequency.

(** ** The persisted selection *)

Module SelectionStore.
Import Spec Examples.
Import SensorSelector.
Open Scope list_scope.

Lemma or_none_opt_dict c : or_none (opt_dict c) = opt_dict c.
Proof. destruct c; reflexivity. Qed.

Lemma load_object E st kv :
  files st (config_path E) = Some (Document (JDict kv)) ->
  _load_config E st = (true, adopted kv st).
Proof. intros F. unfold _load_config. rewrite F. reflexivity. Qed.

Lemma load_absent E st :
  files st (config_path E) = None -> _load_config E st = (false, st).
Proof. intros F. unfold _load_config. now rewrite F. Qed.

Lemma load_failed E st f :
  files st (config_path E) = Some f -> not_an_object f ->
  _load_config E st = (false, emit (LoadFailed (config_path E)) st).
Proof.
  intros F N. unfold _load_config. rewrite F.
  destruct f as [j| |]; try reflexivity.
  destruct j; try reflexivity. now destruct (N kv).
Qed.

Lemma saved_file E st :
  writable E (config_path E) = true ->
  files (_save_config E st) (config_path E) = Some (Document (config_of E st)).
Proof.
  intros W. unfold _save_config. rewrite W. cbn. now rewrite String.eqb_refl.
Qed.

(** C2. For every pair of selections, each a candidate dictionary or
    [None]: [_save_config] followed by [_load_config] on the same path, by
    this selector or by one that starts later on the same files, succeeds
    and yields the same pair.  This is so whenever the path can be written;
    when it cannot, [_save_config] logs the failure and changes no file. *)
Theorem save_then_load_roundtrip (E : Env) (st later : state)
    (temp fan : option Candidate) :
  let saved := _save_config E (set_sel_fan (opt_dict fan)
                                 (set_sel_temp (opt_dict temp) st)) in
  files later = files saved ->
  (writable E (config_path E) = true ->
     fst (_load_config E later) = true
     /\ sel_temp (snd (_load_config E later)) = opt_dict temp
     /\ sel_fan (snd (_load_config E later)) = opt_dict fan)
  /\ (writable E (config_path E) = false ->
      files saved = files st /\ In (WriteFailed (config_path E)) (trace saved)).
Proof.
  intros saved F. split; intros W.
  - rewrite (load_object E later
               [("temp_source", opt_dict temp); ("fan_source", opt_dict fan);
                ("created_at", JStr (now E))]).
    + unfold adopted, field. cbn. now rewrite !or_none_opt_dict.
    + rewrite F. unfold saved. rewrite saved_file by assumption. reflexivity.
  - unfold saved, _save_config. rewrite W. cbn. auto.
Qed.

Lemma save_then_load_roundtrip_witness :
  let saved := _save_config headless
                 (set_sel_fan JNull (set_sel_temp (to_dict package_temp) (fresh no_files []))) in
  fst (_load_config headless (fresh (files saved) [])) = true
  /\ sel_temp (snd (_load_config headless (fresh (files saved) []))) = to_dict package_temp
  /\ sel_fan (snd (_load_config headless (fresh (files saved) []))) = JNull.
Proof.
  exact (proj1 (save_then_load_roundtrip headless (fresh no_files [])
           (fresh (files (_save_config headless
                            (set_sel_fan JNull
                               (set_sel_temp (to_dict package_temp) (fresh no_files []))))) [])
           (Some package_temp) None eq_refl) eq_refl).
Defined.

(** C3, as the code has it.  When the persisted file exists and holds a
    JSON object, [ensure_selection] adopts its [temp_source] and
    [fan_source] (a field that is null, missing or otherwise false in
    Python's sense becoming [None], any other value taken as it is) and does
    nothing else: no enumeration, no prompt, no automatic choice, no write.
    The selection procedure runs when the file is absent, and also when it
    is there without being a JSON object. *)
Theorem ensure_selection_by_file (E : Env) (st : state) :
  (forall kv, files st (config_path E) = Some (Document (JDict kv)) ->
     ensure_selection E st = (Ok tt, adopted kv st)
     /\ sel_temp (adopted kv st) = or_none (field "temp_source" kv)
     /\ sel_fan (adopted kv st) = or_none (field "fan_source" kv)
     /\ (truthy (field "temp_source" kv) = true ->
         sel_temp (adopted kv st) = field "temp_source" kv)
     /\ (truthy (field "fan_source" kv) = true ->
         sel_fan (adopted kv st) = field "fan_source" kv)
     /\ trace (adopted kv st) = trace st
     /\ stdin (adopted kv st) = stdin st
     /\ files (adopted kv st) = files st)
  /\ (files st (config_path E) = None ->
      ensure_selection E st = selection_procedure E st)
  /\ (forall f, files st (config_path E) = Some f -> not_an_object f ->
      ensure_selection E st
      = selection_procedure E (emit (LoadFailed (config_path E)) st)).
Proof.
  split; [|split].
  - intros kv F. unfold ensure_selection. rewrite (load_object E st kv F).
    repeat split; unfold adopted, or_none; cbn; intros T; now rewrite T.
  - intros F. unfold ensure_selection. now rewrite (load_absent E st F).
  - intros f F N. unfold ensure_selection. now rewrite (load_failed E st f F N).
Qed.

(** C3, as stated, fails: the file exists and parses as JSON (the empty
    array), and [ensure_selection] enumerates, chooses automatically and
    writes the file.  Besides, a [temp_source] that is the empty object, not
    null, is adopted as [None]. *)
Lemma json_array_reruns_selection :
  sel_temp (snd (ensure_selection headless (fresh empty_object_file []))) = JNull
  /\
  files (fresh array_file []) (config_path headless) = Some (Document (JList []))
  /\ json_load (Document (JList [])) = Ok (JList [])
  /\ fst (ensure_selection headless (fresh array_file [])) = Ok tt
  /\ trace (snd (ensure_selection headless (fresh array_file [])))
     = [Wrote "LibreHM.config";
        LoggedChoice Fan; AutoPicked Fan None; Shown Fan [] false; Enumerated Fan [];
        LoggedChoice Temperature; AutoPicked Temperature None;
        Shown Temperature [] false; Enumerated Temperature [];
        LoadFailed "LibreHM.config"]
  /\ files (snd (ensure_selection headless (fresh array_file []))) "LibreHM.config"
     = Some (Document (JDict [("temp_source", JNull); ("fan_source", JNull);
                              ("created_at", JStr "2025-01-01 00:00:00")])).
Proof. repeat split. Qed.

Lemma ensure_selection_by_file_witness :
  let saved := _save_config headless
                 (set_sel_fan JNull (set_sel_temp (to_dict package_temp) (fresh no_files []))) in
  ensure_selection headless (fresh (files saved) [])
  = (Ok tt, mkState (to_dict package_temp) JNull (files saved) [] []).
Proof.
  exact (proj1 (proj1 (ensure_selection_by_file headless
           (fresh (files (_save_config headless
                            (set_sel_fan JNull
                               (set_sel_temp (to_dict package_temp) (fresh no_files []))))) []))
           [("temp_source", to_dict package_temp); ("fan_source", JNull);
            ("created_at", JStr "2025-01-01 00:00:00")] eq_refl)).
Defined.

End SelectionStore.

(** ** Operator input *)

Module Input.
Import Spec Examples.
Lemma digit_not_space c : is_digit c = true -> is_space c = false.
Proof.
  destruct c as [[] [] [] [] [] [] [] []]; vm_compute; congruence.
Qed.

Lemma digit_not_sign c : is_digit c = true -> c <> "-"%char /\ c <> "+"%char.
Proof.
  destruct c as [[] [] [] [] [] [] [] []]; vm_compute; intros H; split; congruence.
Qed.

Lemma lstrip_digits s : all_digits s = true -> lstrip s = s.
Proof.
  destruct s as [|c r]; [reflexivity|]. cbn. intros H.
  apply andb_true_iff in H. destruct H as [H _].
  now rewrite (digit_not_space c H).
Qed.

Lemma rstrip_digits s : all_digits s = true -> rstrip s = s.
Proof.
  induction s as [|c r IH]; [reflexivity|]. cbn. intros H.
  apply andb_true_iff in H. destruct H as [Hc Hr].
  rewrite (IH Hr). destruct r; [|reflexivity].
  now rewrite (digit_not_space c Hc).
Qed.

Lemma digits_value_some s : forall acc b,
  all_digits s = true -> (s <> "" \/ b = true) -> exists z, digits_value acc b s = Some z.
Proof.
  induction s as [|c r IH]; intros acc b H N.
  - destruct N as [N|N]; [congruence|]. subst b. now exists acc.
  - cbn in H. apply andb_true_iff in H. destruct H as [Hc Hr].
    cbn. rewrite Hc. apply IH; auto.
Qed.

(** [int] accepts what [isdigit] accepts. *)
Lemma int_of_digits s : isdigit s = true -> exists z, int_of_str s = Ok z.
Proof.
  unfold isdigit, int_of_str, strip. destruct s as [|c r]; [discriminate|].
  intros H. rewrite (lstrip_digits _ H), (rstrip_digits _ H).
  destruct (digits_value_some (String c r) 0 false H) as [z Hz];
    [left; discriminate|].
  assert (Hc : is_digit c = true) by (cbn in H; now apply andb_true_iff in H).
  destruct (digit_not_sign c Hc) as [N1 N2].
  exists z.
  destruct c as [[] [] [] [] [] [] [] []]; try (cbn in Hc; discriminate);
    try congruence; now rewrite Hz.
Qed.

End Input.

(** ** The selection procedure *)

Module Procedure.
Import Spec Examples.
Import SensorSelector.
Open Scope list_scope.

Lemma extends_refl st : extends st st.
Proof. now exists []. Qed.

Lemma extends_trans a b c : extends a b -> extends b c -> extends a c.
Proof.
  intros [e1 H1] [e2 H2]. exists (e2 ++ e1). now rewrite H2, H1, app_assoc.
Qed.

Lemma extends_emit e st : extends st (emit e st).
Proof. now exists [e]. Qed.

Lemma extends_In e a b : extends a b -> In e (trace a) -> In e (trace b).
Proof. intros [evs H] I. rewrite H. apply in_or_app. now right. Qed.

Lemma choose_spec q cands lines : forall st,
  extends st (snd (choose q cands lines st))
  /\ files (snd (choose q cands lines st)) = files st
  /\ sel_temp (snd (choose q cands lines st)) = sel_temp st
  /\ sel_fan (snd (choose q cands lines st)) = sel_fan st
  /\ match fst (choose q cands lines st) with
     | Ok (Some c) => In c cands
     | Ok None => True
     | Raise e => e = EOFError
     end.
Proof.
  induction lines as [|line rest IH]; intros st; cbn [choose].
  - cbn. repeat split; auto. now exists [Prompted q].
  - set (st1 := emit (Prompted q) (set_stdin rest st)).
    assert (X : extends st st1) by (now exists [Prompted q]).
    assert (Retry : let r := choose q cands rest (emit Rejected st1) in
              extends st (snd r) /\ files (snd r) = files st
              /\ sel_temp (snd r) = sel_temp st /\ sel_fan (snd r) = sel_fan st
              /\ match fst r with
                 | Ok (Some c) => In c cands
                 | Ok None => True
                 | Raise e => e = EOFError
                 end).
    { destruct (IH (emit Rejected st1)) as [H1 [H2 [H3 [H4 H5]]]].
      repeat split; auto.
      eapply extends_trans; [|exact H1].
      eapply extends_trans; [exact X | apply extends_emit]. }
    destruct (String.eqb (strip line) ""); [cbn; auto|].
    destruct (isdigit (strip line)) eqn:D; [|exact Retry].
    destruct (Input.int_of_digits _ D) as [n Hn]. rewrite Hn.
    destruct ((0 <=? n) && (n <? Z.of_nat (Datatypes.length cands)))%bool eqn:R;
      [|exact Retry].
    apply andb_true_iff in R. destruct R as [R1 R2].
    apply Z.leb_le in R1. apply Z.ltb_lt in R2.
    destruct (nth_error cands (Z.to_nat n)) as [c|] eqn:N.
    + cbn. repeat split; auto. eapply nth_error_In; eauto.
    + apply nth_error_None in N. lia.
Qed.

Lemma setter_facts q v st :
  trace (setter q v st) = trace st
  /\ files (setter q v st) = files st
  /\ other_attribute q (setter q v st) = other_attribute q st
  /\ attribute q (setter q v st) = v.
Proof. now destruct q. Qed.

Lemma emit_facts q e st :
  files (emit e st) = files st
  /\ other_attribute q (emit e st) = other_attribute q st
  /\ attribute q (emit e st) = attribute q st.
Proof. now destruct q. Qed.

(** The automatic branch of a step. *)
Lemma auto_step E q cands auto st st1 pick :
  auto cands = Ok pick -> extends st st1 -> files st1 = files st ->
  other_attribute q st1 = other_attribute q st ->
  let st2 := emit (AutoPicked q pick) (setter q (opt_dict pick) st1) in
  let st3 := if is_tty E then st2 else emit (LoggedChoice q) st2 in
  extends st st3 /\ files st3 = files st
  /\ other_attribute q st3 = other_attribute q st
  /\ chosen q cands auto (attribute q st3) st3.
Proof.
  intros Hp X F O st2 st3.
  destruct (setter_facts q (opt_dict pick) st1) as [S1 [S2 [S3 S4]]].
  assert (X2 : extends st st2).
  { destruct X as [evs Hevs]. exists (AutoPicked q pick :: evs).
    cbn. now rewrite S1, Hevs. }
  assert (I2 : In (AutoPicked q pick) (trace st2)) by now left.
  assert (F2 : files st2 = files st) by (cbn; congruence).
  assert (O2 : other_attribute q st2 = other_attribute q st)
    by (unfold st2; destruct (emit_facts q (AutoPicked q pick)
                                (setter q (opt_dict pick) st1)) as [_ [-> _]];
        congruence).
  assert (A2 : attribute q st2 = opt_dict pick)
    by (unfold st2; destruct (emit_facts q (AutoPicked q pick)
                                (setter q (opt_dict pick) st1)) as [_ [_ ->]];
        assumption).
  unfold st3. destruct (is_tty E).
  - repeat split; auto. right. exists pick. auto.
  - destruct (emit_facts q (LoggedChoice q) st2) as [E1 [E2 E3]].
    split; [eapply extends_trans; [exact X2 | apply extends_emit]|].
    split; [congruence|]. split; [congruence|].
    right. exists pick. rewrite E3. repeat split; auto. now right.
Qed.

Lemma negotiate_spec E q cands auto st :
  (exists r, auto cands = Ok r) ->
  let res := negotiate E q cands auto (setter q) st in
  (fst res = Ok tt \/ fst res = Raise EOFError)
  /\ (is_tty E = false -> fst res = Ok tt)
  /\ extends st (snd res)
  /\ files (snd res) = files st
  /\ other_attribute q (snd res) = other_attribute q st
  /\ (fst res = Ok tt -> chosen q cands auto (attribute q (snd res)) (snd res)).
Proof.
  intros [pick Hpick]. unfold negotiate.
  set (st0 := setter q JNull (emit (Shown q cands (is_tty E)) st)).
  destruct (setter_facts q JNull (emit (Shown q cands (is_tty E)) st)) as [S1 [S2 [S3 _]]].
  destruct (emit_facts q (Shown q cands (is_tty E)) st) as [E1 [E2 _]].
  fold st0 in S1, S2, S3.
  assert (X0 : extends st st0) by (exists [Shown q cands (is_tty E)]; now rewrite S1).
  assert (F0 : files st0 = files st) by congruence.
  assert (O0 : other_attribute q st0 = other_attribute q st) by congruence.
  assert (Auto : forall st1, extends st st1 -> files st1 = files st ->
            other_attribute q st1 = other_attribute q st ->
            let res :=
              match auto cands with
              | Raise e => (Raise e, st1)
              | Ok pick =>
                  let st := emit (AutoPicked q pick) (setter q (opt_dict pick) st1) in
                  (Ok tt, if is_tty E then st else emit (LoggedChoice q) st)
              end in
            (fst res = Ok tt \/ fst res = Raise EOFError)
            /\ (is_tty E = false -> fst res = Ok tt)
            /\ extends st (snd res)
            /\ files (snd res) = files st
            /\ other_attribute q (snd res) = other_attribute q st
            /\ (fst res = Ok tt -> chosen q cands auto (attribute q (snd res)) (snd res))).
  { intros st1 X1 F1 O1. rewrite Hpick. cbn [fst snd].
    destruct (auto_step E q cands auto st st1 pick Hpick X1 F1 O1) as [H1 [H2 [H3 H4]]].
    repeat split; auto. }
  destruct (is_tty E) eqn:T.
  2: { exact (Auto st0 X0 F0 O0). }
  destruct cands as [|c0 cs] eqn:C.
  { exact (Auto st0 X0 F0 O0). }
  rewrite <- C in *.
  destruct (choose_spec q cands (stdin st0) st0) as [H1 [H2 [H3 [H4 H5]]]].
  assert (X1 : extends st (snd (choose q cands (stdin st0) st0)))
    by (eapply extends_trans; eauto).
  assert (O1 : other_attribute q (snd (choose q cands (stdin st0) st0))
               = other_attribute q st)
    by (rewrite <- O0; clear - H3 H4; destruct q; [exact H4 | exact H3]).
  destruct (choose q cands (stdin st0) st0) as [[[c|]|e] st1]; cbn [fst snd] in *.
  - destruct (setter_facts q (to_dict c) st1) as [U1 [U2 [U3 U4]]].
    split; [auto|]. split; [discriminate|].
    split; [destruct X1 as [evs Hevs]; exists evs; congruence|].
    split; [congruence|]. split; [congruence|].
    intros _. left. exists c. auto.
  - apply (Auto st1); auto. congruence.
  - rename H5 into He. subst e. split; [auto|]. split; [discriminate|].
    split; [assumption|]. split; [congruence|]. split; [assumption | discriminate].
Qed.

Lemma save_spec E st :
  persisted E (_save_config E st)
  /\ extends st (_save_config E st)
  /\ sel_temp (_save_config E st) = sel_temp st
  /\ sel_fan (_save_config E st) = sel_fan st.
Proof.
  unfold persisted, _save_config, config_of.
  destruct (writable E (config_path E)); cbn.
  - rewrite String.eqb_refl. repeat split; auto. now exists [Wrote (config_path E)].
  - repeat split; auto; try discriminate. now exists [WriteFailed (config_path E)].
Qed.

(** What a run of the selection procedure does. *)
Lemma selection_procedure_spec E st :
  let res := selection_procedure E st in
  In (Enumerated Temperature (list_temp_candidates E)) (trace (snd res))
  /\ (fst res = Ok tt \/ fst res = Raise EOFError)
  /\ (is_tty E = false -> fst res = Ok tt)
  /\ (fst res = Ok tt ->
      In (Enumerated Fan (list_fan_candidates E)) (trace (snd res))
      /\ chosen Temperature (list_temp_candidates E) _auto_pick_temp
                (sel_temp (snd res)) (snd res)
      /\ chosen Fan (list_fan_candidates E) _auto_pick_fan (sel_fan (snd res)) (snd res)
      /\ persisted E (snd res)).
Proof.
  unfold selection_procedure.
  set (temps := list_temp_candidates E). set (fans := list_fan_candidates E).
  set (st0 := emit (Enumerated Temperature temps) st).
  destruct (negotiate_spec E Temperature temps _auto_pick_temp st0
              (AutoPick.auto_pick_temp_total temps)) as [A1 [A2 [A3 [A4 [A5 A6]]]]].
  cbn [setter attribute other_attribute] in *.
  destruct (negotiate E Temperature temps _auto_pick_temp set_sel_temp st0)
    as [[[]|e] st1]; cbn [fst snd] in *.
  2: { destruct A1 as [A1|A1]; [discriminate|]. injection A1 as ->.
       split; [eapply extends_In; [exact A3 | now left]|].
       split; [auto|]. split; [exact A2 | discriminate]. }
  set (st2 := emit (Enumerated Fan fans) st1).
  destruct (negotiate_spec E Fan fans _auto_pick_fan st2
              (AutoPick.auto_pick_fan_total fans)) as [B1 [B2 [B3 [B4 [B5 B6]]]]].
  cbn [setter attribute other_attribute] in *.
  assert (X12 : extends st1 st2) by apply extends_emit.
  destruct (negotiate E Fan fans _auto_pick_fan set_sel_fan st2)
    as [[[]|e] st3]; cbn [fst snd] in *.
  2: { destruct B1 as [B1|B1]; [discriminate|]. injection B1 as ->.
       split; [eapply extends_In; [exact B3|];
               eapply extends_In; [exact X12|];
               eapply extends_In; [exact A3 | now left]|].
       split; [auto|]. split; [exact B2 | discriminate]. }
  destruct (save_spec E st3) as [S1 [S2 [S3 S4]]].
  assert (X03 : extends st0 st3)
    by (eapply extends_trans; [exact A3|]; eapply extends_trans; eauto).
  split; [eapply extends_In; [exact S2|]; eapply extends_In; [exact X03 | now left]|].
  split; [auto|]. split; [auto|]. intros _.
  split; [eapply extends_In; [exact S2|]; eapply extends_In; [exact B3 | now left]|].
  split.
  { rewrite S3. change (sel_temp st2) with (sel_temp st1) in B5. rewrite B5.
    destruct (A6 eq_refl) as [[c [Hc Hv]]|[pick [Hp [Hv Hin]]]].
    - left. now exists c.
    - right. exists pick. repeat split; auto.
      eapply extends_In; [exact S2|]. eapply extends_In; [exact B3|].
      eapply extends_In; [exact X12 | exact Hin]. }
  split; [|exact S1].
  rewrite S4.
  destruct (B6 eq_refl) as [[c [Hc Hv]]|[pick [Hp [Hv Hin]]]].
  - left. now exists c.
  - right. exists pick. repeat split; auto. eapply extends_In; [exact S2 | exact Hin].
Qed.



End Procedure.

(** ** Reading the pinned sources *)

Module PinnedRead.
Import Spec Examples.
Import SensorSelector.
Open Scope list_scope.

Lemma eq_str_true x s : eq_str x s = true -> x = JStr s.
Proof.
  destruct x; cbn; try discriminate. intros H. apply String.eqb_eq in H. congruence.
Qed.

Lemma read_lhm_missing E id : ~ enumerated E id -> _read_lhm_by_id E id = None.
Proof.
  intros N. unfold _read_lhm_by_id.
  destruct (find _ _) as [[hw s]|] eqn:F; [|reflexivity].
  apply find_some in F. destruct F as [I H]. apply eq_str_true in H.
  destruct N. now exists hw, s.
Qed.

Lemma read_pinned_lhm_missing {A} E sel wmi_type (items : exc (list A)) reading id :
  pins_lhm sel id -> ~ enumerated E id ->
  read_pinned E sel wmi_type items reading = None.
Proof.
  intros [T I] N. unfold read_pinned.
  destruct sel; try discriminate T.
  rewrite T. cbn [bind eq_str]. cbn [String.eqb Ascii.eqb Bool.eqb].
  rewrite I. cbn [bind]. now apply read_lhm_missing.
Qed.

Lemma read_pinned_wmi_out_of_range {A} E sel wmi_type (items : exc (list A)) reading idx l :
  wmi_type <> "LHM" ->
  pins_wmi wmi_type sel idx -> items = Ok l -> ~ in_range idx l ->
  read_pinned E sel wmi_type items reading = None.
Proof.
  intros NL [T I] L N. unfold read_pinned.
  destruct sel; try discriminate T.
  rewrite T. cbn [bind eq_str].
  apply String.eqb_neq in NL. rewrite NL, String.eqb_refl.
  destruct (wmi_ok E); [|reflexivity]. cbn [andb].
  rewrite I, L. cbn [bind].
  destruct ((0 <=? idx) && (idx <? Z.of_nat (Datatypes.length l)))%bool eqn:R;
    [|reflexivity].
  apply andb_true_iff in R. destruct R as [R1 R2].
  apply Z.leb_le in R1. apply Z.ltb_lt in R2. destruct N. split; assumption.
Qed.

(** C7. For every pinned selection: when it pins a native sensor and the
    current enumeration has no sensor with that identifier, or when it pins
    an OS-management record and the stored index is outside the current
    record list (an empty list included), [read_temp_c] and [read_fan_rpm]
    return [None].  Both are functions of the selection and of the current
    surroundings only: there is no cache to read from, and they assign
    neither attribute. *)
Theorem pinned_missing_reads_absent (E : Env) (st : state) :
  (forall id, pins_lhm (sel_temp st) id -> ~ enumerated E id ->
     read_temp_c E st = None)
  /\ (forall idx l, pins_wmi "WMI_ACPI" (sel_temp st) idx ->
        wmi_thermal E = Ok l -> ~ in_range idx l -> read_temp_c E st = None)
  /\ (forall id, pins_lhm (sel_fan st) id -> ~ enumerated E id ->
        read_fan_rpm E st = None)
  /\ (forall idx l, pins_wmi "WMI_FAN" (sel_fan st) idx ->
        wmi_fan E = Ok l -> ~ in_range idx l -> read_fan_rpm E st = None).
Proof.
  unfold read_temp_c, read_fan_rpm. repeat split.
  - intros id P N. eapply read_pinned_lhm_missing; eauto.
  - intros idx l P L N. eapply read_pinned_wmi_out_of_range; eauto. discriminate.
  - intros id P N. eapply read_pinned_lhm_missing; eauto.
  - intros idx l P L N. eapply read_pinned_wmi_out_of_range; eauto. discriminate.
Qed.

Lemma pinned_missing_reads_absent_witness :
  read_temp_c two_zones (mkState pinned_zone pinned_core (fun _ => None) [] []) = None
  /\ read_fan_rpm two_zones (mkState pinned_zone pinned_core (fun _ => None) [] []) = None.
Proof.
  split.
  - apply (proj1 (proj2 (pinned_missing_reads_absent two_zones
                           (mkState pinned_zone pinned_core (fun _ => None) [] [])))
             2 [mkThermalZone (Some 3031) None "TZ0"; mkThermalZone (Some 3102) None "TZ1"]).
    + split; reflexivity.
    + reflexivity.
    + unfold in_range. cbn. lia.
  - apply (proj1 (proj2 (proj2 (pinned_missing_reads_absent two_zones
                           (mkState pinned_zone pinned_core (fun _ => None) [] []))))
             (JStr "/amdcpu/0/temperature/2")).
    + split; reflexivity.
    + intros [hw [s [I H]]]. cbn in I. destruct I as [I|[]].
      injection I as <- <-. discriminate H.
Defined.

End PinnedRead.

(** ** The fallback readers of the native backend *)

Module FallbackReaders.
Import Spec Examples.
Import LibreHMReader FloatOrder Substring MaxBy.
Open Scope float_scope.
Open Scope list_scope.

(** A loop that appends to a list collects what each step appends. *)
Lemma collect_fold {A} (step : list float -> A -> list float) (P : A -> float -> Prop) :
  (forall acc a, exists new, step acc a = acc ++ new /\ forall v, In v new <-> P a v) ->
  forall l acc, exists out,
    fold_left step l acc = acc ++ out
    /\ forall v, In v out <-> exists a, In a l /\ P a v.
Proof.
  intros H. induction l as [|a l IH]; intros acc; cbn [fold_left].
  - exists []. rewrite app_nil_r. split; [reflexivity|].
    intros v. split; [intros [] | intros [a [[] _]]].
  - destruct (H acc a) as [new [-> Hn]].
    destruct (IH (acc ++ new)) as [out [-> Ho]].
    exists (new ++ out). rewrite app_assoc. split; [reflexivity|].
    intros v. rewrite in_app_iff, Hn, Ho. split.
    + intros [P'|[b [I P']]].
      * exists a. split; [now left | assumption].
      * exists b. split; [now right | assumption].
    + intros [b [[<-|I] P']]; [now left | right; now exists b].
Qed.

Lemma any_in_name_like ks s :
  (forall k, In k ks -> lower k = k) ->
  any_in ks (lower (or_empty (s_Name s))) = true <-> name_like ks s.
Proof.
  intros Hl. rewrite any_in_contains. unfold name_like, contains_ci.
  split; intros [k [I H]]; exists k; (split; [assumption|]).
  - now rewrite (Hl k I).
  - now rewrite (Hl k I) in H.
Qed.

(** [max] of a list of numbers that is not empty. *)
Lemma max_of_numbers (l : list float) :
  l <> [] -> (forall x, In x l -> ordered x) ->
  exists v, max_by (fun x => Ok x) l = Ok v /\ In v l
            /\ forall w, In w l -> (w <=? v) = true.
Proof.
  intros N O.
  destruct (max_by_greatest (fun x => Ok x) l N) as [v [E [I [k [Hk M]]]]].
  - intros x Hx. exists x. split; [reflexivity | now apply O].
  - injection Hk as <-. exists v. split; [exact E|]. split; [exact I|].
    intros w Hw. exact (M w w Hw eq_refl).
Qed.

Lemma highest_or_none (l : list float) (R : float -> Prop) :
  (forall v, In v l <-> R v) -> (forall v, R v -> ordered v) ->
  match l with
  | [] => forall v, ~ R v
  | _ :: _ => exists v, max_by (fun x => Ok x) l = Ok v /\ highest R v
  end.
Proof.
  intros H O. destruct l as [|x r] eqn:L.
  - intros v Rv. now apply H in Rv.
  - rewrite <- L in *.
    destruct (max_of_numbers l) as [v [E [I M]]].
    + rewrite L. discriminate.
    + intros y Hy. apply O. now apply H.
    + exists v. split; [exact E|]. split; [now apply H|].
      intros w Rw. apply M. now apply H.
Qed.

Lemma cpu_fan_sensor_collects acc s :
  exists new, cpu_fan_sensor_step acc s = acc ++ new
    /\ forall v, In v new <->
         (s_SensorType s = "Fan" /\ name_like ["cpu"; "aio"; "pump"] s
          /\ s_Value s = Some v /\ (1.0 <=? v) = true /\ (v <? 20000.0) = true).
Proof.
  unfold cpu_fan_sensor_step.
  destruct (String.eqb (s_SensorType s) "Fan") eqn:T.
  2: { apply String.eqb_neq in T.
       exists []. rewrite app_nil_r. split; [reflexivity|].
       intros v. split; [intros [] | intros [H _]; congruence]. }
  apply String.eqb_eq in T.
  destruct (any_in _ _) eqn:K.
  2: { exists []. rewrite app_nil_r. split; [reflexivity|].
       intros v. split; [intros [] | intros [_ [H _]]].
       apply any_in_name_like in H; [congruence|].
       intros k I. simpl in I. repeat (destruct I as [<-|I]; [reflexivity|]). destruct I. }
  apply any_in_name_like in K;
    [|intros k I; simpl in I; repeat (destruct I as [<-|I]; [reflexivity|]); destruct I].
  destruct (s_Value s) as [val|].
  2: { exists []. rewrite app_nil_r. split; [reflexivity|].
       intros v. split; [intros [] | intros [_ [_ [H _]]]; discriminate]. }
  destruct ((1.0 <=? val) && (val <? 20000.0))%bool eqn:R.
  - apply andb_true_iff in R. destruct R as [R1 R2].
    exists [val]. split; [reflexivity|]. intros v. split.
    + intros [<-|[]]. auto.
    + intros [_ [_ [E _]]]. injection E as <-. now left.
  - exists []. rewrite app_nil_r. split; [reflexivity|].
    intros v. split; [intros [] | intros [_ [_ [E [R1 R2]]]]].
    injection E as <-. rewrite R1, R2 in R. discriminate.
Qed.

Lemma cpu_temp_sensor_collects acc s :
  exists new, cpu_temp_sensor_step acc s = acc ++ new
    /\ forall v, In v new <->
         (s_SensorType s = "Temperature"
          /\ name_like ["package"; "tctl"; "tdie"; "ccd"; "die"] s
          /\ s_Value s = Some v /\ (0.0 <=? v) = true /\ (v <? 120.0) = true).
Proof.
  unfold cpu_temp_sensor_step.
  destruct (String.eqb (s_SensorType s) "Temperature") eqn:T.
  2: { apply String.eqb_neq in T.
       exists []. rewrite app_nil_r. split; [reflexivity|].
       intros v. split; [intros [] | intros [H _]; congruence]. }
  apply String.eqb_eq in T.
  destruct (any_in _ _) eqn:K.
  2: { exists []. rewrite app_nil_r. split; [reflexivity|].
       intros v. split; [intros [] | intros [_ [H _]]].
       apply any_in_name_like in H; [congruence|].
       intros k I. simpl in I. repeat (destruct I as [<-|I]; [reflexivity|]). destruct I. }
  apply any_in_name_like in K;
    [|intros k I; simpl in I; repeat (destruct I as [<-|I]; [reflexivity|]); destruct I].
  destruct (s_Value s) as [val|].
  2: { exists []. rewrite app_nil_r. split; [reflexivity|].
       intros v. split; [intros [] | intros [_ [_ [H _]]]; discriminate]. }
  destruct ((0.0 <=? val) && (val <? 120.0))%bool eqn:R.
  - apply andb_true_iff in R. destruct R as [R1 R2].
    exists [val]. split; [reflexivity|]. intros v. split.
    + intros [<-|[]]. auto.
    + intros [_ [_ [E _]]]. injection E as <-. now left.
  - exists []. rewrite app_nil_r. split; [reflexivity|].
    intros v. split; [intros [] | intros [_ [_ [E [R1 R2]]]]].
    injection E as <-. rewrite R1, R2 in R. discriminate.
Qed.

Lemma cpu_fan_hw_collects acc hw :
  exists new, cpu_fan_hw_step acc hw = acc ++ new
    /\ forall v, In v new <->
         (In (hw_HardwareType hw) ["Motherboard"; "SuperIO"; "Cooler"]
          /\ exists s, In s (hw_Sensors hw)
               /\ s_SensorType s = "Fan" /\ name_like ["cpu"; "aio"; "pump"] s
               /\ s_Value s = Some v /\ (1.0 <=? v) = true /\ (v <? 20000.0) = true).
Proof.
  unfold cpu_fan_hw_step.
  destruct (collect_fold cpu_fan_sensor_step _ cpu_fan_sensor_collects (hw_Sensors hw) acc)
    as [out [E Ho]].
  destruct (String.eqb (hw_HardwareType hw) "Motherboard") eqn:M.
  - apply String.eqb_eq in M. rewrite M. cbn [String.eqb Ascii.eqb Bool.eqb orb].
    exists out. split; [exact E|]. intros v. rewrite Ho. cbn [In]. intuition.
  - apply String.eqb_neq in M.
    destruct (String.eqb (hw_HardwareType hw) "SuperIO" ||
              String.eqb (hw_HardwareType hw) "Cooler")%bool eqn:S.
    + apply orb_true_iff in S. rewrite !String.eqb_eq in S.
      exists out. split; [exact E|]. intros v. rewrite Ho. cbn [In]. intuition.
    + apply orb_false_iff in S. rewrite !String.eqb_neq in S. destruct S as [S1 S2].
      exists []. rewrite app_nil_r. split; [reflexivity|].
      intros v. split; [intros [] | intros [I _]]. cbn [In] in I.
      intuition congruence.
Qed.

Lemma cpu_temp_hw_collects acc hw :
  exists new, cpu_temp_hw_step acc hw = acc ++ new
    /\ forall v, In v new <->
         (In (hw_HardwareType hw) ["Cpu"]
          /\ exists s, In s (hw_Sensors hw)
               /\ s_SensorType s = "Temperature"
               /\ name_like ["package"; "tctl"; "tdie"; "ccd"; "die"] s
               /\ s_Value s = Some v /\ (0.0 <=? v) = true /\ (v <? 120.0) = true).
Proof.
  unfold cpu_temp_hw_step.
  destruct (collect_fold cpu_temp_sensor_step _ cpu_temp_sensor_collects (hw_Sensors hw) acc)
    as [out [E Ho]].
  destruct (String.eqb (hw_HardwareType hw) "Cpu") eqn:M.
  - apply String.eqb_eq in M.
    exists out. split; [exact E|]. intros v. rewrite Ho. cbn [In]. intuition.
  - apply String.eqb_neq in M.
    exists []. rewrite app_nil_r. split; [reflexivity|].
    intros v. split; [intros [] | intros [I _]]. cbn [In] in I.
    intuition congruence.
Qed.

Lemma root_reading_ordered hwts ty ks lo hi self v :
  root_reading hwts ty ks lo hi self v -> ordered v.
Proof.
  intros [hws [hw [s [_ [_ [_ [_ [_ [_ [_ [H _]]]]]]]]]]]. eapply leb_ordered_r; eauto.
Qed.

Lemma cpu_fan_rpm_cases (self : t) :
  (cpu_fan_rpm self = Ok None /\ forall v, ~ board_fan_reading self v)
  \/ (exists v, cpu_fan_rpm self = Ok (Some v) /\ highest (board_fan_reading self) v).
Proof.
  unfold cpu_fan_rpm. destruct (roots self) as [hws|] eqn:R.
  2: { left. split; [reflexivity|].
       intros v [hws [hw [s [H _]]]]. unfold roots in *. congruence. }
  destruct (collect_fold cpu_fan_hw_step _ cpu_fan_hw_collects hws []) as [out [E Ho]].
  rewrite E. cbn [app].
  assert (M : forall v, In v out <-> board_fan_reading self v).
  { intros v. rewrite Ho. unfold board_fan_reading, root_reading. split.
    - intros [hw [I [T [s H]]]]. exists hws, hw, s. intuition.
    - intros [hws' [hw [s [R' H]]]]. rewrite R in R'. injection R' as <-.
      exists hw. intuition. now exists s. }
  pose proof (highest_or_none out _ M
                (fun v H => root_reading_ordered _ _ _ _ _ _ _ H)) as H.
  destruct out as [|x r].
  - left. split; [reflexivity | exact H].
  - right. destruct H as [v [-> Hv]]. now exists v.
Qed.

Lemma cpu_package_temp_cases (self : t) :
  (cpu_package_temp_c self = None /\ forall v, ~ package_temp_reading self v)
  \/ (exists v, cpu_package_temp_c self = Some v
                /\ highest (package_temp_reading self) v).
Proof.
  unfold cpu_package_temp_c. destruct (roots self) as [hws|] eqn:R.
  2: { left. split; [reflexivity|].
       intros v [hws [hw [s [H _]]]]. unfold roots in *. congruence. }
  destruct (collect_fold cpu_temp_hw_step _ cpu_temp_hw_collects hws []) as [out [E Ho]].
  rewrite E. cbn [app].
  assert (M : forall v, In v out <-> package_temp_reading self v).
  { intros v. rewrite Ho. unfold package_temp_reading, root_reading. split.
    - intros [hw [I [T [s H]]]]. exists hws, hw, s. intuition.
    - intros [hws' [hw [s [R' H]]]]. rewrite R in R'. injection R' as <-.
      exists hw. intuition. now exists s. }
  pose proof (highest_or_none out _ M
                (fun v H => root_reading_ordered _ _ _ _ _ _ _ H)) as H.
  destruct out as [|x r].
  - left. split; [reflexivity | exact H].
  - right. destruct H as [v [-> Hv]]. now exists v.
Qed.

(** X1. [cpu_fan_rpm] never raises.  It returns the highest value among
    the Fan sensors, named like "cpu", "aio" or "pump" whatever the case,
    that sit directly on a root node of type Motherboard, SuperIO or Cooler
    and read at least 1.0 and less than 20000.0; it returns [None] exactly
    when there is no such sensor, in particular when the backend is not
    open. *)
Theorem cpu_fan_rpm_highest (self : t) :
  (cpu_fan_rpm self = Ok None /\ forall v, ~ board_fan_reading self v)
  \/ (exists v, cpu_fan_rpm self = Ok (Some v) /\ highest (board_fan_reading self) v).
Proof. apply cpu_fan_rpm_cases. Qed.

(** X2. [cpu_package_temp_c] returns the highest value among the
    Temperature sensors, named like "package", "tctl", "tdie", "ccd" or
    "die" whatever the case, that sit directly on a root node of type Cpu
    and read at least 0.0 and less than 120.0; it returns [None] exactly
    when there is no such sensor. *)
Theorem cpu_package_temp_highest (self : t) :
  (cpu_package_temp_c self = None /\ forall v, ~ package_temp_reading self v)
  \/ (exists v, cpu_package_temp_c self = Some v
                /\ highest (package_temp_reading self) v).
Proof. apply cpu_package_temp_cases. Qed.

End FallbackReaders.

(** ** Whitespace and case *)

Module Text.
Import Spec Examples.
Lemma space_lower c : is_space (lower_char c) = is_space c.
Proof. destruct c as [[] [] [] [] [] [] [] []]; reflexivity. Qed.

Lemma lower_char_idem c : lower_char (lower_char c) = lower_char c.
Proof. destruct c as [[] [] [] [] [] [] [] []]; reflexivity. Qed.

Lemma lower_idem s : lower (lower s) = lower s.
Proof. induction s as [|c r IH]; cbn; [reflexivity|]. now rewrite lower_char_idem, IH. Qed.

Lemma lstrip_lower s : lstrip (lower s) = lower (lstrip s).
Proof.
  induction s as [|c r IH]; cbn; [reflexivity|].
  rewrite space_lower. destruct (is_space c); [exact IH | reflexivity].
Qed.

Lemma rstrip_lower s : rstrip (lower s) = lower (rstrip s).
Proof.
  induction s as [|c r IH]; cbn; [reflexivity|].
  rewrite IH, space_lower.
  destruct (rstrip r); cbn; [now destruct (is_space c) | reflexivity].
Qed.

Lemma strip_lower s : strip (lower s) = lower (strip s).
Proof. unfold strip. now rewrite lstrip_lower, rstrip_lower. Qed.

Lemma lstrip_starts_clean s : starts_clean (lstrip s).
Proof.
  induction s as [|c r IH]; cbn; [exact I|].
  destruct (is_space c) eqn:S; [exact IH | exact S].
Qed.

Lemma rstrip_starts_clean s : starts_clean s -> starts_clean (rstrip s).
Proof.
  destruct s as [|c r]; cbn; [auto|]. intros S.
  destruct (rstrip r); [rewrite S|]; exact S.
Qed.

Lemma lstrip_clean s : starts_clean s -> lstrip s = s.
Proof. destruct s as [|c r]; cbn; [auto|]. now intros ->. Qed.

Lemma rstrip_idem s : rstrip (rstrip s) = rstrip s.
Proof.
  induction s as [|c r IH]; cbn; [reflexivity|].
  destruct (rstrip r) as [|d w] eqn:R.
  - destruct (is_space c) eqn:S; cbn; [reflexivity | now rewrite S].
  - cbn [rstrip]. cbn [rstrip] in IH. now rewrite IH.
Qed.

Lemma strip_idem s : strip (strip s) = strip s.
Proof.
  unfold strip.
  rewrite (lstrip_clean (rstrip (lstrip s))).
  - apply rstrip_idem.
  - apply rstrip_starts_clean, lstrip_starts_clean.
Qed.

End Text.

(** ** Process queries *)

Module ProcessQueries.
Import Spec Examples.
Import Metrics Text.
Open Scope list_scope.

(** X5. Every query [_build_process_queries] returns has a display name
    and a pattern that are not empty and carry no surrounding white space,
    and the pattern is in lower case; so the [if not pat: continue] guard of
    [process_status] never fires on them. *)
Theorem process_queries_clean (items : list (option string)) (disp pat : string) :
  In (disp, pat) (_build_process_queries items) ->
  disp <> "" /\ pat <> "" /\ strip disp = disp /\ strip pat = pat /\ lower pat = pat.
Proof.
  unfold _build_process_queries. rewrite in_flat_map.
  intros [raw [_ H]]. unfold parse_query in H.
  destruct (String.eqb (strip (or_empty raw)) ""); [destruct H|].
  destruct (if str_in "=" (strip (or_empty raw))
            then split_once "=" (strip (or_empty raw))
            else (strip (or_empty raw), strip (or_empty raw))) as [d p].
  destruct (String.eqb (strip d) "") eqn:D; [destruct H|].
  destruct (String.eqb (lower (strip p)) "") eqn:P; [destruct H|].
  cbn in H. destruct H as [H|[]]. injection H as <- <-.
  apply String.eqb_neq in D, P.
  repeat split; auto.
  - apply strip_idem.
  - now rewrite strip_lower, strip_idem.
  - apply lower_idem.
Qed.

Lemma process_queries_clean_witness :
  "Java" <> "" /\ "\java\" <> "" /\ strip "Java" = "Java"
  /\ strip "\java\" = "\java\" /\ lower "\java\" = "\java\".
Proof.
  apply (process_queries_clean [Some " Nginx = nginx.exe"; None; Some "  ";
                                Some " = x"; Some "Java=\Java\ "]).
  vm_compute. auto.
Defined.

(** X6. An item without "=" that is not blank gives exactly one query:
    the item without its surrounding white space as display name, and the
    same in lower case as pattern. *)
Theorem plain_item_is_its_own_name (s : string) :
  str_in "=" (strip s) = false -> strip s <> "" ->
  parse_query (Some s) = [(strip s, lower (strip s))].
Proof.
  intros N E. unfold parse_query, or_empty.
  assert (S : strip (if String.eqb s "" then "" else s) = strip s)
    by (destruct (String.eqb s "") eqn:Q; [apply String.eqb_eq in Q; now subst | reflexivity]).
  rewrite S, N. apply String.eqb_neq in E. rewrite E, !strip_idem, E. cbn [orb].
  destruct (String.eqb (lower (strip s)) "") eqn:L; [|reflexivity].
  apply String.eqb_eq in L. apply String.eqb_neq in E.
  destruct (strip s); [congruence | discriminate L].
Qed.

Lemma plain_item_is_its_own_name_witness :
  _build_process_queries [Some "  MariaDB  "] = [("MariaDB", "mariadb")].
Proof.
  unfold _build_process_queries. cbn [flat_map].
  rewrite (plain_item_is_its_own_name "  MariaDB  ");
    [reflexivity | reflexivity | discriminate].
Defined.

End ProcessQueries.

(** ** The fallback tiers of [cpu_stats] *)

Module CpuStats.
Import Spec Examples.
Import SensorSelector Metrics FloatOrder FallbackReaders.
Open Scope float_scope.
Open Scope list_scope.

Lemma plausible_celsius_iff c :
  plausible_celsius c = true <-> (0.5 <? c) = true /\ (c <? 120.0) = true.
Proof.
  unfold plausible_celsius. rewrite !andb_true_iff. split; [tauto|].
  intros [L H]. repeat split; auto.
  apply (leb_ltb_trans (-20.0) 0.5 c); [reflexivity | exact L].
Qed.

Lemma wmi_temp_collects acc it :
  exists new, wmi_temp_step acc it = acc ++ new
    /\ forall v, In v new <->
         (exists t, first_some (tz_CurrentTemperature it) (tz_Temperature it) = Some t
                    /\ celsius t = v /\ (0.5 <? v) = true /\ (v <? 120.0) = true).
Proof.
  unfold wmi_temp_step.
  destruct (first_some _ _) as [t|].
  2: { exists []. rewrite app_nil_r. split; [reflexivity|].
       intros v. split; [intros [] | intros [t [H _]]; discriminate]. }
  destruct (plausible_celsius (celsius t)) eqn:P.
  - apply plausible_celsius_iff in P. exists [celsius t]. split; [reflexivity|].
    intros v. split.
    + intros [<-|[]]. exists t. tauto.
    + intros [t' [E [<- _]]]. injection E as <-. now left.
  - exists []. rewrite app_nil_r. split; [reflexivity|].
    intros v. split; [intros [] | intros [t' [E [<- H]]]].
    injection E as <-. apply plausible_celsius_iff in H. congruence.
Qed.

Lemma cpu_package_temp_wmi_cases (E : Env) :
  (_cpu_package_temp_wmi E = None /\ forall v, ~ zone_reading E v)
  \/ (exists v, _cpu_package_temp_wmi E = Some v /\ highest (zone_reading E) v).
Proof.
  unfold _cpu_package_temp_wmi. destruct (wmi_ok E) eqn:W; cbn [negb].
  2: { left. split; [reflexivity|]. intros v [H _]. congruence. }
  set (items := match wmi_thermal E with Ok l => l | Raise _ => [] end).
  destruct (collect_fold wmi_temp_step _ wmi_temp_collects items []) as [out [Eo Ho]].
  rewrite Eo. cbn [app].
  assert (M : forall v, In v out <-> zone_reading E v).
  { intros v. rewrite Ho. unfold zone_reading, items. split.
    - intros [it [I [t H]]]. split; [exact W|].
      destruct (wmi_thermal E) as [l|e]; [|destruct I]. exists l, it, t. tauto.
    - intros [_ [l [it [t [L [I H]]]]]]. rewrite L. exists it. split; [exact I|].
      now exists t. }
  assert (O : forall v, zone_reading E v -> ordered v).
  { intros v [_ [l [it [t [_ [_ [_ [_ [H _]]]]]]]]]. eapply ltb_ordered_r; eauto. }
  pose proof (highest_or_none out _ M O) as H.
  destruct out as [|x r].
  - left. split; [reflexivity | exact H].
  - right. destruct H as [v [-> Hv]]. now exists v.
Qed.

(** X3. [_cpu_package_temp_wmi] returns the highest Celsius reading of a
    thermal zone that lies strictly between 0.5 and 120.0, and [None]
    exactly when no zone has such a reading (or the OS management interface
    is unavailable or its query fails).  The lower bound of -20 in the
    source excludes nothing the bound 0.5 does not. *)
Theorem cpu_package_temp_wmi_highest (E : Env) :
  (_cpu_package_temp_wmi E = None /\ forall v, ~ zone_reading E v)
  \/ (exists v, _cpu_package_temp_wmi E = Some v /\ highest (zone_reading E) v).
Proof. apply cpu_package_temp_wmi_cases. Qed.

Lemma native_temp_in_range E v :
  native_temp E = Some v -> (0.0 <=? v) = true /\ (v <? 120.0) = true.
Proof.
  unfold native_temp. destruct (lhm_ok E) as [r|]; [|discriminate].
  intros H. destruct (cpu_package_temp_cases r) as [[N _]|[w [S [R _]]]]; [congruence|].
  rewrite S in H. injection H as <-.
  destruct R as [hws [hw [s R]]]. tauto.
Qed.

Lemma wmi_temp_in_range E v :
  _cpu_package_temp_wmi E = Some v -> (0.0 <=? v) = true /\ (v <? 120.0) = true.
Proof.
  intros H. destruct (cpu_package_temp_wmi_cases E) as [[N _]|[w [S [R _]]]]; [congruence|].
  rewrite S in H. injection H as <-.
  destruct R as [_ [l [it [t [_ [_ [_ [_ [L U]]]]]]]]].
  split; [|exact U]. apply ltb_leb.
  apply (leb_ltb_trans 0.0 0.5 w); [reflexivity | exact L].
Qed.

(** X4. The temperature [cpu_stats] reports is the pinned source's reading
    whenever that reading is present, whatever its value; otherwise the
    native reader's, otherwise the ACPI one's.  It is [None] only when all
    three are, and a temperature that does not come from the pinned source
    lies in [0.0, 120.0). *)
Theorem cpu_stats_temperature_tiers (E : Env) (st : state) (fq : exc (option float)) :
  (forall v, read_temp_c E st = Some v ->
     package_temp_c (cpu_stats E st fq) = Some v)
  /\ (read_temp_c E st = None ->
      forall v, native_temp E = Some v -> package_temp_c (cpu_stats E st fq) = Some v)
  /\ (read_temp_c E st = None -> native_temp E = None ->
      package_temp_c (cpu_stats E st fq) = _cpu_package_temp_wmi E)
  /\ (read_temp_c E st = None ->
      forall v, package_temp_c (cpu_stats E st fq) = Some v ->
                (0.0 <=? v) = true /\ (v <? 120.0) = true).
Proof.
  unfold cpu_stats, native_temp. cbn [package_temp_c].
  destruct (read_temp_c E st) as [p|].
  - split; [intros v H; now destruct (lhm_ok E)|].
    repeat split; discriminate.
  - split; [discriminate|].
    split; [intros _ v H; destruct (lhm_ok E); [now rewrite H | discriminate]|].
    split; [intros _ H; destruct (lhm_ok E); now rewrite ?H|].
    intros _ v H.
    destruct (lhm_ok E) as [r|] eqn:L.
    + destruct (LibreHMReader.cpu_package_temp_c r) as [w|] eqn:C.
      * injection H as <-. apply (native_temp_in_range E).
        unfold native_temp. now rewrite L.
      * now apply (wmi_temp_in_range E).
    + now apply (wmi_temp_in_range E).
Qed.

End CpuStats.

(** ** Decimal positions *)

Module Positions.
Import Spec Examples.
Import Input.

Lemma digits_of_uint (d : Decimal.uint) : all_digits (NilEmpty.string_of_uint d) = true.
Proof. induction d; cbn; auto. Qed.

Lemma digits_value_digit (c : ascii) (k a : nat) (b : bool) (s : string) :
  is_digit c = true -> digit_val c = Z.of_nat k ->
  digits_value (Z.of_nat a) b (String c s)
  = digits_value (Z.of_nat (k + 10 * a)) true s.
Proof.
  intros D V. cbn [digits_value]. rewrite D, V. f_equal. lia.
Qed.

Lemma digits_value_of_uint (d : Decimal.uint) : forall (a : nat) (b : bool),
  d <> Decimal.Nil \/ b = true ->
  digits_value (Z.of_nat a) b (NilEmpty.string_of_uint d)
  = Some (Z.of_nat (Nat.of_uint_acc d a)).
Proof.
  induction d; intros a b H;
    cbn [NilEmpty.string_of_uint Nat.of_uint_acc];
    rewrite ?Nat.tail_mul_spec.
  - destruct H as [H| ->]; [congruence | reflexivity].
  - rewrite (digits_value_digit "0" 0) by reflexivity. apply IHd. now right.
  - rewrite (digits_value_digit "1" 1) by reflexivity. apply IHd. now right.
  - rewrite (digits_value_digit "2" 2) by reflexivity. apply IHd. now right.
  - rewrite (digits_value_digit "3" 3) by reflexivity. apply IHd. now right.
  - rewrite (digits_value_digit "4" 4) by reflexivity. apply IHd. now right.
  - rewrite (digits_value_digit "5" 5) by reflexivity. apply IHd. now right.
  - rewrite (digits_value_digit "6" 6) by reflexivity. apply IHd. now right.
  - rewrite (digits_value_digit "7" 7) by reflexivity. apply IHd. now right.
  - rewrite (digits_value_digit "8" 8) by reflexivity. apply IHd. now right.
  - rewrite (digits_value_digit "9" 9) by reflexivity. apply IHd. now right.
Qed.

Lemma str_of_nat_digits n : all_digits (str_of_nat n) = true /\ str_of_nat n <> "".
Proof.
  unfold str_of_nat, NilZero.string_of_uint.
  destruct (Nat.to_uint n) as [|u|u|u|u|u|u|u|u|u|u];
    (split; [|discriminate]);
    first [reflexivity
          | exact (digits_of_uint (Decimal.D0 u)) | exact (digits_of_uint (Decimal.D1 u))
          | exact (digits_of_uint (Decimal.D2 u)) | exact (digits_of_uint (Decimal.D3 u))
          | exact (digits_of_uint (Decimal.D4 u)) | exact (digits_of_uint (Decimal.D5 u))
          | exact (digits_of_uint (Decimal.D6 u)) | exact (digits_of_uint (Decimal.D7 u))
          | exact (digits_of_uint (Decimal.D8 u)) | exact (digits_of_uint (Decimal.D9 u))].
Qed.

Lemma digits_value_str_of_nat n :
  digits_value 0 false (str_of_nat n) = Some (Z.of_nat n).
Proof.
  unfold str_of_nat, NilZero.string_of_uint.
  pose proof (Unsigned.of_to n) as OT. unfold Nat.of_uint in OT.
  destruct (Nat.to_uint n) as [|u|u|u|u|u|u|u|u|u|u].
  - cbn in OT. subst n. reflexivity.
  - rewrite <- OT. apply (digits_value_of_uint _ 0%nat false). left. discriminate.
  - rewrite <- OT. apply (digits_value_of_uint _ 0%nat false). left. discriminate.
  - rewrite <- OT. apply (digits_value_of_uint _ 0%nat false). left. discriminate.
  - rewrite <- OT. apply (digits_value_of_uint _ 0%nat false). left. discriminate.
  - rewrite <- OT. apply (digits_value_of_uint _ 0%nat false). left. discriminate.
  - rewrite <- OT. apply (digits_value_of_uint _ 0%nat false). left. discriminate.
  - rewrite <- OT. apply (digits_value_of_uint _ 0%nat false). left. discriminate.
  - rewrite <- OT. apply (digits_value_of_uint _ 0%nat false). left. discriminate.
  - rewrite <- OT. apply (digits_value_of_uint _ 0%nat false). left. discriminate.
  - rewrite <- OT. apply (digits_value_of_uint _ 0%nat false). left. discriminate.
Qed.

(** [int(str(n))] is [n]. *)
Lemma int_of_str_of_nat n : int_of_str (str_of_nat n) = Ok (Z.of_nat n).
Proof.
  destruct (str_of_nat_digits n) as [D N].
  pose proof (digits_value_str_of_nat n) as V.
  unfold int_of_str, strip. rewrite (lstrip_digits _ D), (rstrip_digits _ D).
  destruct (str_of_nat n) as [|c r] eqn:S; [congruence|].
  assert (Hc : is_digit c = true) by (cbn in D; now apply andb_true_iff in D).
  destruct (digit_not_sign c Hc) as [N1 N2].
  destruct c as [[] [] [] [] [] [] [] []]; try (cbn in Hc; discriminate);
    try congruence; now rewrite V.
Qed.

Lemma digits_no_colon s : all_digits s = true -> str_in ":" s = false.
Proof.
  induction s as [|c r IH]; [reflexivity|]. cbn [all_digits]. intros H.
  apply andb_true_iff in H. destruct H as [Hc Hr].
  rewrite Substring.str_in_cons, (IH Hr), orb_false_r.
  destruct c as [[] [] [] [] [] [] [] []]; try (cbn in Hc; discriminate); reflexivity.
Qed.

Lemma last_segment_digits s : all_digits s = true -> last_segment ":" s = s.
Proof.
  destruct s as [|c r]; [reflexivity|]. intros H. cbn [last_segment].
  pose proof (digits_no_colon _ H) as N.
  cbn [all_digits] in H. apply andb_true_iff in H. destruct H as [Hc Hr].
  rewrite (digits_no_colon _ Hr).
  destruct c as [[] [] [] [] [] [] [] []]; try (cbn in Hc; discriminate); reflexivity.
Qed.

End Positions.

(** ** The hardware tree and the candidates *)

Module Enumeration.
Import Spec Examples.
Import SensorSelector.
Open Scope list_scope.

Lemma hardware_tree_ind (P : Hardware -> Prop) :
  (forall hw, (forall sub, In sub (hw_SubHardware hw) -> P sub) -> P hw) ->
  forall hw, P hw.
Proof.
  intros H. fix IH 1. intros [ty name id sensors subs]. apply H. cbn.
  induction subs as [|s r IHr]; intros sub;
    [intros [] | intros [<-|I]; [apply IH | now apply IHr]].
Qed.

Lemma walk_unfold hw : walk hw = hw :: flat_map walk (hw_SubHardware hw).
Proof. now destruct hw. Qed.

Lemma walk_in_tree n hw : In n (walk hw) <-> in_tree n hw.
Proof.
  split.
  - revert hw. apply (hardware_tree_ind (fun hw => In n (walk hw) -> in_tree n hw)).
    intros hw IH. rewrite walk_unfold. intros [<-|I]; [constructor|].
    apply in_flat_map in I. destruct I as [sub [Hs Hn]].
    apply (in_tree_sub n hw sub Hs). now apply IH.
  - induction 1 as [|hw sub Hs _ IH]; rewrite walk_unfold; [now left|].
    right. apply in_flat_map. now exists sub.
Qed.

Lemma iter_native E node s :
  In (node, s) (_iter_lhm_sensors_recursive E) <-> native_sensor E node s.
Proof.
  unfold _iter_lhm_sensors_recursive, native_sensor.
  destruct (lhm E) as [r|].
  2: { split; [intros [] | intros [r [hws [root [H _]]]]; discriminate]. }
  destruct (LibreHMReader.roots r) as [hws|] eqn:R.
  2: { split; [intros [] | intros [r' [hws [root [H [H' _]]]]]].
       injection H as <-. congruence. }
  rewrite in_flat_map. split.
  - intros [n [Hn Hs]]. apply in_map_iff in Hs. destruct Hs as [s' [Eq Hs]].
    injection Eq as <- <-.
    apply in_flat_map in Hn. destruct Hn as [root [Hr Hw]].
    exists r, hws, root. repeat split; auto. now apply walk_in_tree.
  - intros [r' [hws' [root [H1 [H2 [Hr [Ht Hs]]]]]]].
    injection H1 as <-. rewrite R in H2. injection H2 as <-.
    exists node. split.
    + apply in_flat_map. exists root. split; [assumption | now apply walk_in_tree].
    + apply in_map_iff. now exists s.
Qed.





End Enumeration.

(** ** Reading back a pinned candidate *)

Module PinThenRead.
Import Spec Examples.
Import SensorSelector Enumeration Positions PinnedRead.
Open Scope list_scope.

Lemma last_segment_after (sep : ascii) (d : string) : forall p,
  last_segment sep (p ++ String sep d) = last_segment sep d.
Proof.
  induction p as [|c p IH]; cbn [append last_segment].
  - now rewrite Ascii.eqb_refl.
  - rewrite IH.
    assert (S : str_in (String sep "") (p ++ String sep d) = true).
    { apply Substring.str_in_contains. now exists p, d. }
    rewrite S. now destruct (Ascii.eqb c sep).
Qed.

Lemma stored_index_thermal i it :
  stored_index (to_dict (thermal_candidate i it)) = Ok (Z.of_nat i).
Proof.
  unfold stored_index. cbn [to_dict thermal_candidate c_id getitem assoc String.eqb
                            Ascii.eqb Bool.eqb bind].
  change ("WMI:ACPI:" ++ str_of_nat i)%string
    with ("WMI:ACPI" ++ String ":" (str_of_nat i))%string.
  rewrite last_segment_after, last_segment_digits by apply str_of_nat_digits.
  apply int_of_str_of_nat.
Qed.

Lemma stored_index_fan i it :
  stored_index (to_dict (fan_candidate i it)) = Ok (Z.of_nat i).
Proof.
  unfold stored_index. cbn [to_dict fan_candidate c_id getitem assoc String.eqb
                            Ascii.eqb Bool.eqb bind].
  change ("WMI:FAN:" ++ str_of_nat i)%string
    with ("WMI:FAN" ++ String ":" (str_of_nat i))%string.
  rewrite last_segment_after, last_segment_digits by apply str_of_nat_digits.
  apply int_of_str_of_nat.
Qed.

Lemma read_pinned_record {A} E (items : exc (list A)) reading ty c l i it :
  ty <> "LHM" -> c_type c = ty -> stored_index (to_dict c) = Ok (Z.of_nat i) ->
  wmi_ok E = true -> items = Ok l -> nth_error l i = Some it ->
  read_pinned E (to_dict c) ty items reading = reading it.
Proof.
  intros NL T S W L N. unfold read_pinned.
  cbn [to_dict getitem assoc String.eqb Ascii.eqb Bool.eqb bind eq_str].
  rewrite T. apply String.eqb_neq in NL. rewrite NL, String.eqb_refl, W. cbn [andb].
  change (JDict _) with (to_dict c). rewrite S, L. cbn [bind].
  assert (R : (i < Datatypes.length l)%nat) by (apply nth_error_Some; congruence).
  replace ((0 <=? Z.of_nat i) && (Z.of_nat i <? Z.of_nat (Datatypes.length l)))%bool
    with true
    by (symmetry; apply andb_true_iff; split; [apply Z.leb_le | apply Z.ltb_lt]; lia).
  now rewrite Nat2Z.id, N.
Qed.

Lemma read_pinned_native {A} E (items : exc (list A)) reading ty node s :
  native_sensor E node s ->
  (forall node' s', native_sensor E node' s' ->
     s_Identifier s' = s_Identifier s -> s_Value s' = s_Value s) ->
  read_pinned E (to_dict (lhm_candidate node s)) ty items reading = s_Value s.
Proof.
  intros N U. unfold read_pinned.
  cbn [to_dict lhm_candidate c_type c_id getitem assoc String.eqb Ascii.eqb Bool.eqb
       bind eq_str].
  unfold _read_lhm_by_id.
  destruct (find _ _) as [[node' s']|] eqn:F.
  - apply find_some in F. destruct F as [I H]. cbn [eq_str] in H.
    apply String.eqb_eq in H. apply iter_native in I. now apply (U node' s').
  - apply iter_native in N.
    pose proof (find_none _ _ F (node, s) N) as H. cbn [eq_str] in H.
    now rewrite String.eqb_refl in H.
Qed.

(** X8. A native candidate that was pinned reads back: with the selection
    set to the candidate of a sensor of the tree, [read_temp_c] and
    [read_fan_rpm] return the current value of that sensor, provided every
    sensor of the tree that carries the same identifier has the same value
    (the read takes the first sensor with the identifier, of whatever
    kind). *)
Theorem pinned_native_reads_back (E : Env) (st : state) (node : Hardware) (s : Sensor) :
  native_sensor E node s ->
  (forall node' s', native_sensor E node' s' ->
     s_Identifier s' = s_Identifier s -> s_Value s' = s_Value s) ->
  (sel_temp st = to_dict (lhm_candidate node s) -> read_temp_c E st = s_Value s)
  /\ (sel_fan st = to_dict (lhm_candidate node s) -> read_fan_rpm E st = s_Value s).
Proof.
  intros N U. unfold read_temp_c, read_fan_rpm.
  split; intros ->; now apply read_pinned_native.
Qed.

(** X9. An OS-management candidate that was pinned reads back: with the
    selection set to the candidate built for the record at position [i],
    [read_temp_c] and [read_fan_rpm] return the reading of the record now at
    position [i], that is the candidate's own value as long as the records
    have not changed.  The position survives the trip through the
    identifier "WMI:ACPI:i" or "WMI:FAN:i". *)
Theorem pinned_record_reads_back (E : Env) (st : state) (i : nat) :
  wmi_ok E = true ->
  (forall l it, wmi_thermal E = Ok l -> nth_error l i = Some it ->
     sel_temp st = to_dict (thermal_candidate i it) ->
     read_temp_c E st = c_value (thermal_candidate i it))
  /\ (forall l it, wmi_fan E = Ok l -> nth_error l i = Some it ->
        sel_fan st = to_dict (fan_candidate i it) ->
        read_fan_rpm E st = c_value (fan_candidate i it)).
Proof.
  intros W. unfold read_temp_c, read_fan_rpm. split; intros l it L N ->.
  - rewrite (read_pinned_record E _ _ "WMI_ACPI" _ l i it); auto.
    + discriminate.
    + apply stored_index_thermal.
  - rewrite (read_pinned_record E _ _ "WMI_FAN" _ l i it); auto.
    + discriminate.
    + apply stored_index_fan.
Qed.

Lemma pinned_native_reads_back_witness :
  read_temp_c headless_host
    (mkState (to_dict (lhm_candidate hot_cpu
                (mkSensor "Temperature" (Some "CPU Package") "/amdcpu/0/temperature/2"
                          (Some 55.0%float))))
             JNull no_files [] [])
  = Some 55.0%float.
Proof.
  apply (pinned_native_reads_back headless_host _ hot_cpu
           (mkSensor "Temperature" (Some "CPU Package") "/amdcpu/0/temperature/2"
                     (Some 55.0%float))).
  - apply iter_native. cbn. now left.
  - intros node' s' N _. apply iter_native in N. cbn in N.
    destruct N as [N|[]]. now injection N as <- <-.
  - reflexivity.
Defined.

Lemma pinned_record_reads_back_witness :
  read_temp_c two_zones
    (mkState (to_dict (thermal_candidate 1 (mkThermalZone (Some 3102) None "TZ1")))
             JNull no_files [] [])
  = Some (celsius 3102).
Proof.
  apply (proj1 (pinned_record_reads_back two_zones _ 1 eq_refl)
           [mkThermalZone (Some 3031) None "TZ0"; mkThermalZone (Some 3102) None "TZ1"]
           (mkThermalZone (Some 3102) None "TZ1")); reflexivity.
Defined.

(** X10. A pinned read never makes a value up: whatever [read_temp_c] or
    [read_fan_rpm] returns is the current value of a sensor of the tree
    whose identifier is the pinned one, or the current reading of the record
    at the pinned position of the OS management interface. *)
Theorem pinned_read_is_current (E : Env) (st : state) (v : float) :
  (read_temp_c E st = Some v ->
     (exists id node s, pins_lhm (sel_temp st) id /\ native_sensor E node s
                        /\ id = JStr (s_Identifier s) /\ s_Value s = Some v)
     \/ (exists idx it, pins_wmi "WMI_ACPI" (sel_temp st) idx /\ (0 <= idx)%Z
                        /\ wmi_record E (wmi_thermal E) (Z.to_nat idx) it
                        /\ option_map celsius
                             (first_some (tz_CurrentTemperature it) (tz_Temperature it))
                           = Some v))
  /\ (read_fan_rpm E st = Some v ->
        (exists id node s, pins_lhm (sel_fan st) id /\ native_sensor E node s
                           /\ id = JStr (s_Identifier s) /\ s_Value s = Some v)
        \/ (exists idx it, pins_wmi "WMI_FAN" (sel_fan st) idx /\ (0 <= idx)%Z
                           /\ wmi_record E (wmi_fan E) (Z.to_nat idx) it
                           /\ option_map float_of_Z
                                (first_some (fan_Speed it) (fan_DesiredSpeed it))
                              = Some v)).
Proof.
  assert (G : forall A (items : exc (list A)) reading ty sel,
            ty <> "LHM" ->
            read_pinned E sel ty items reading = Some v ->
            (exists id node s, pins_lhm sel id /\ native_sensor E node s
                               /\ id = JStr (s_Identifier s) /\ s_Value s = Some v)
            \/ (exists idx it, pins_wmi ty sel idx /\ (0 <= idx)%Z
                               /\ wmi_record E items (Z.to_nat idx) it
                               /\ reading it = Some v)).
  { intros A items reading ty sel NL. unfold read_pinned.
    destruct (getitem sel "type") as [t|e] eqn:T.
    2: { destruct sel; discriminate. }
    assert (NN : sel <> JNull) by (intros ->; discriminate T).
    cbn [bind].
    destruct (eq_str t "LHM") eqn:L.
    - apply eq_str_true in L. subst t.
      destruct (getitem sel "id") as [id|e] eqn:I; cbn [bind].
      2: { destruct sel; discriminate. }
      intros H. left.
      assert (H' : _read_lhm_by_id E id = Some v) by (destruct sel; congruence).
      unfold _read_lhm_by_id in H'.
      destruct (find _ _) as [[node s]|] eqn:F; [|discriminate].
      apply find_some in F. destruct F as [In' Q]. apply eq_str_true in Q.
      exists id, node, s. repeat split; auto. now apply iter_native.
    - destruct (eq_str t ty) eqn:Ty; cbn [andb].
      2: { destruct sel; discriminate. }
      apply eq_str_true in Ty. subst t.
      destruct (wmi_ok E) eqn:W.
      2: { destruct sel; discriminate. }
      destruct (stored_index sel) as [idx|e] eqn:S; cbn [bind].
      2: { destruct sel; discriminate. }
      destruct items as [l|e]; cbn [bind].
      2: { destruct sel; discriminate. }
      destruct ((0 <=? idx)%Z && (idx <? Z.of_nat (Datatypes.length l))%Z)%bool eqn:R.
      2: { destruct sel; discriminate. }
      apply andb_true_iff in R. destruct R as [R1 _]. apply Z.leb_le in R1.
      destruct (nth_error l (Z.to_nat idx)) as [it|] eqn:N.
      2: { destruct sel; discriminate. }
      intros H. right. exists idx, it.
      split; [now split|]. split; [exact R1|].
      split; [split; [exact W | now exists l]|].
      destruct sel; congruence. }
  unfold read_temp_c, read_fan_rpm. split; apply G; discriminate.
Qed.

End PinThenRead.

(** ** Ties and bounds of the automatic choice *)

Module PickOrder.
Import Spec Examples.
Import SensorSelector FloatOrder MaxBy AutoPick.
Open Scope float_scope.
Open Scope list_scope.

Lemma ltb_trans x y z : (x <? y) = true -> (y <? z) = true -> (x <? z) = true.
Proof. intros H. apply leb_ltb_trans. now apply ltb_leb. Qed.

Lemma max_loop_first {A} (key : A -> exc float) (l : list A) :
  forall pre best mid kb,
    key best = Ok kb -> ordered kb ->
    (forall y ky, In y pre -> key y = Ok ky -> (ky <? kb) = true) ->
    (forall y ky, In y mid -> key y = Ok ky -> (ky <=? kb) = true) ->
    keyed key l ->
    exists c kc pre' post',
      max_loop key best kb l = Ok c /\ key c = Ok kc
      /\ pre ++ best :: mid ++ l = pre' ++ c :: post'
      /\ forall y ky, In y pre' -> key y = Ok ky -> (ky <? kc) = true.
Proof.
  induction l as [|x r IH]; intros pre best mid kb Hk Ho Hp Hm Hl; cbn [max_loop].
  - exists best, kb, pre, mid. rewrite app_nil_r. auto.
  - destruct (Hl x (or_introl eq_refl)) as [kx [Hkx Hox]].
    assert (Hr : keyed key r) by (intros y Hy; apply Hl; now right).
    rewrite Hkx. cbn [bind].
    destruct (kb <? kx) eqn:C.
    + assert (Hp' : forall y ky, In y (pre ++ best :: mid) -> key y = Ok ky ->
                                 (ky <? kx) = true).
      { intros y ky Hy Hky. apply in_app_or in Hy. destruct Hy as [Hy|[<-|Hy]].
        - eapply ltb_trans; [eapply Hp; eauto | exact C].
        - rewrite Hk in Hky. injection Hky as <-. exact C.
        - eapply leb_ltb_trans; [eapply Hm; eauto | exact C]. }
      assert (Hm' : forall y ky, In y (@nil A) -> key y = Ok ky -> (ky <=? kx) = true)
        by (intros y ky []).
      destruct (IH (pre ++ best :: mid) x [] kx Hkx Hox Hp' Hm' Hr)
        as [c [kc [p [q [E1 [E2 [E3 E4]]]]]]].
      exists c, kc, p, q. repeat split; auto.
      rewrite <- E3. cbn [app]. now rewrite <- !app_assoc.
    + assert (Hm' : forall y ky, In y (mid ++ [x]) -> key y = Ok ky ->
                                 (ky <=? kb) = true).
      { intros y ky Hy Hky. apply in_app_or in Hy. destruct Hy as [Hy|[<-|[]]].
        - eapply Hm; eauto.
        - rewrite Hkx in Hky. injection Hky as <-. now apply ltb_false_leb. }
      destruct (IH pre best (mid ++ [x]) kb Hk Ho Hp Hm' Hr)
        as [c [kc [p [q [E1 [E2 [E3 E4]]]]]]].
      exists c, kc, p, q. repeat split; auto.
      rewrite <- E3. now rewrite <- !app_assoc.
Qed.

Lemma max_by_first {A} (key : A -> exc float) (l : list A) :
  l <> [] -> keyed key l ->
  exists c kc pre post,
    max_by key l = Ok c /\ key c = Ok kc /\ l = pre ++ c :: post
    /\ forall y ky, In y pre -> key y = Ok ky -> (ky <? kc) = true.
Proof.
  destruct l as [|x r]; [congruence|]. intros _ Hl. cbn [max_by].
  destruct (Hl x (or_introl eq_refl)) as [kx [Hkx Hox]].
  rewrite Hkx. cbn [bind].
  assert (Hn : forall y ky, In y (@nil A) -> key y = Ok ky -> (ky <? kx) = true)
    by (intros y ky []).
  assert (Hn' : forall y ky, In y (@nil A) -> key y = Ok ky -> (ky <=? kx) = true)
    by (intros y ky []).
  assert (Hr : keyed key r) by (intros y Hy; apply Hl; now right).
  destruct (max_loop_first key r [] x [] kx Hkx Hox Hn Hn' Hr)
    as [c [kc [p [q [E1 [E2 [E3 E4]]]]]]].
  exists c, kc, p, q. auto.
Qed.

Lemma filter_split {A} (f : A -> bool) (l : list A) : forall a c b,
  filter f l = a ++ c :: b ->
  exists pre post, l = pre ++ c :: post /\ filter f pre = a.
Proof.
  induction l as [|x r IH]; intros a c b H; cbn [filter] in H.
  - destruct a; discriminate.
  - destruct (f x) eqn:F.
    + destruct a as [|a0 a'].
      * injection H as <- _. now exists [], r.
      * injection H as <- H. destruct (IH _ _ _ H) as [p [q [-> <-]]].
        exists (x :: p), q. cbn [filter]. now rewrite F.
    + destruct (IH _ _ _ H) as [p [q [-> <-]]].
      exists (x :: p), q. cbn [filter]. now rewrite F.
Qed.

(** One tier of a picker takes the first of the best. *)
Lemma tier_first (f : Candidate -> bool) (P : Candidate -> Prop) (l : list Candidate) :
  (forall c, f c = true <-> P c) ->
  (forall c, P c -> exists v, c_value c = Some v /\ ordered v) ->
  filter f l <> [] ->
  exists c, max_by value_key (filter f l) = Ok c /\ P c /\ first_best P l c.
Proof.
  intros Hf Hv N.
  destruct (max_by_first value_key (filter f l) N) as [c [kc [a [b [E1 [E2 [E3 E4]]]]]]].
  - intros y Hy. apply filter_In in Hy. destruct Hy as [_ Hy].
    apply Hf, Hv in Hy. destruct Hy as [v [E O]].
    exists v. unfold value_key. rewrite E. auto.
  - exists c. split; [exact E1|].
    assert (Pc : P c).
    { apply Hf. assert (I : In c (filter f l)) by (rewrite E3; apply in_elt).
      now apply filter_In in I. }
    split; [exact Pc|].
    destruct (filter_split f l a c b E3) as [pre [post [-> Fa]]].
    exists pre, post. split; [reflexivity|].
    intros y Hy Py. destruct (Hv y Py) as [vy [Ey _]].
    unfold value_key in E2. destruct (c_value c) as [vc|] eqn:Ec; [|discriminate].
    injection E2 as <-. exists vy, vc. repeat split; auto.
    apply (E4 y vy).
    + rewrite <- Fa. apply filter_In. split; [assumption | now apply Hf].
    + unfold value_key. now rewrite Ey.
Qed.

(** X11. What [_auto_pick_temp] returns is one of the candidates it was
    given, and its value is neither 0.5 or less nor 120.0 or more. *)
Theorem auto_pick_temp_in_bounds (temps : list Candidate) (c : Candidate) :
  _auto_pick_temp temps = Ok (Some c) ->
  In c temps
  /\ exists v, c_value c = Some v /\ (v <=? 0.5) = false /\ (120.0 <=? v) = false.
Proof.
  assert (B : forall c, value_in_open 0.5 120.0 c ->
                exists v, c_value c = Some v
                          /\ (v <=? 0.5) = false /\ (120.0 <=? v) = false).
  { intros c' [v [E [H1 H2]]]. exists v. split; [assumption|].
    split; now apply ltb_not_leb. }
  unfold _auto_pick_temp.
  pose proof (tier is_cpu_like cpu_temp temps is_cpu_like_iff) as T1.
  pose proof (tier is_acpi acpi_temp temps is_acpi_iff) as T2.
  destruct (filter is_cpu_like temps) as [|x1 r1].
  - destruct (filter is_acpi temps) as [|x2 r2]; [discriminate|].
    destruct T2 as [c' [-> [I [[_ V] _]]]].
    { intros c' [_ H]. eapply open_ordered; eauto. }
    intros H. injection H as <-. split; [exact I | now apply B].
  - destruct T1 as [c' [-> [I [[_ [_ V]] _]]]].
    { intros c' [_ [_ H]]. eapply open_ordered; eauto. }
    intros H. injection H as <-. split; [exact I | now apply B].
Qed.

Lemma auto_pick_temp_in_bounds_witness :
  In package_temp [package_temp]
  /\ exists v, c_value package_temp = Some v
               /\ (v <=? 0.5) = false /\ (120.0 <=? v) = false.
Proof. apply (auto_pick_temp_in_bounds [package_temp] package_temp). reflexivity. Defined.

(** X12. Ties go to the candidate listed first: what [_auto_pick_temp]
    returns stands in the list after candidates of its own tier of strictly
    lower value only, and so does what [_auto_pick_fan] returns. *)
Theorem auto_pick_prefers_first (cands : list Candidate) (c : Candidate) :
  (_auto_pick_temp cands = Ok (Some c) ->
     (cpu_temp c /\ first_best cpu_temp cands c)
     \/ (none cpu_temp cands /\ acpi_temp c /\ first_best acpi_temp cands c))
  /\ (_auto_pick_fan cands = Ok (Some c) ->
        (cpu_fan c /\ first_best cpu_fan cands c)
        \/ (none cpu_fan cands /\ lhm_fan c /\ first_best lhm_fan cands c)
        \/ (none cpu_fan cands /\ none lhm_fan cands
            /\ wmi_fan_cand c /\ first_best wmi_fan_cand cands c)).
Proof.
  assert (R1 : forall c, cpu_temp c -> exists v, c_value c = Some v /\ ordered v)
    by (intros c' [_ [_ H]]; eapply open_ordered; eauto).
  assert (R2 : forall c, acpi_temp c -> exists v, c_value c = Some v /\ ordered v)
    by (intros c' [_ H]; eapply open_ordered; eauto).
  assert (R3 : forall c, cpu_fan c -> exists v, c_value c = Some v /\ ordered v)
    by (intros c' [_ [_ H]]; eapply range_ordered; eauto).
  assert (R4 : forall c, lhm_fan c -> exists v, c_value c = Some v /\ ordered v)
    by (intros c' [_ H]; eapply range_ordered; eauto).
  assert (R5 : forall c, wmi_fan_cand c -> exists v, c_value c = Some v /\ ordered v)
    by (intros c' [_ H]; eapply range_ordered; eauto).
  split.
  - unfold _auto_pick_temp.
    pose proof (tier is_cpu_like cpu_temp cands is_cpu_like_iff R1) as N1.
    pose proof (tier_first is_cpu_like cpu_temp cands is_cpu_like_iff R1) as T1.
    pose proof (tier_first is_acpi acpi_temp cands is_acpi_iff R2) as T2.
    destruct (filter is_cpu_like cands) as [|x1 r1].
    + destruct (filter is_acpi cands) as [|x2 r2]; [discriminate|].
      destruct T2 as [c' [-> H]]; [discriminate|].
      intros E. injection E as <-. right. tauto.
    + destruct T1 as [c' [-> H]]; [discriminate|].
      intros E. injection E as <-. now left.
  - unfold _auto_pick_fan.
    pose proof (tier is_pri cpu_fan cands is_pri_iff R3) as N1.
    pose proof (tier is_lhm_any lhm_fan cands is_lhm_any_iff R4) as N2.
    pose proof (tier_first is_pri cpu_fan cands is_pri_iff R3) as T1.
    pose proof (tier_first is_lhm_any lhm_fan cands is_lhm_any_iff R4) as T2.
    pose proof (tier_first is_wmi_fan wmi_fan_cand cands is_wmi_fan_iff R5) as T3.
    destruct (filter is_pri cands) as [|x1 r1].
    + destruct (filter is_lhm_any cands) as [|x2 r2].
      * destruct (filter is_wmi_fan cands) as [|x3 r3]; [discriminate|].
        destruct T3 as [c' [-> H]]; [discriminate|].
        intros E. injection E as <-. right. right. tauto.
      * destruct T2 as [c' [-> H]]; [discriminate|].
        intros E. injection E as <-. right. left. tauto.
    + destruct T1 as [c' [-> H]]; [discriminate|].
      intros E. injection E as <-. now left.
Qed.

End PickOrder.

(** ** The operator's choice and the next start *)

Module OperatorChoice.
Import Spec Examples.
Import SensorSelector Procedure SelectionStore.
Open Scope list_scope.









End OperatorChoice.

Module Restart.
Import Spec Examples.
Import SensorSelector Procedure SelectionStore.
Open Scope list_scope.

Lemma chosen_is_kept q cands auto v st : chosen q cands auto v st -> or_none v = v.
Proof.
  intros [[c [_ ->]]|[pick [_ [-> _]]]]; [reflexivity | apply or_none_opt_dict].
Qed.

Lemma ensure_selection_reselects E st :
  fst (_load_config E st) = false ->
  ensure_selection E st = selection_procedure E (snd (_load_config E st)).
Proof.
  unfold ensure_selection. destruct (_load_config E st) as [[|] st1]; cbn;
    [discriminate | reflexivity].
Qed.

(** X14. When [ensure_selection] could not load a selection, completed
    the selection procedure and the path can be written, the next start on
    the files it left returns at once: it adopts exactly the two selections
    of the first run and neither enumerates, prompts nor writes. *)
Theorem restart_adopts_selection (E : Env) (st later : state) :
  fst (_load_config E st) = false ->
  writable E (config_path E) = true ->
  fst (ensure_selection E st) = Ok tt ->
  files later = files (snd (ensure_selection E st)) ->
  ensure_selection E later
  = (Ok tt, set_sel_fan (sel_fan (snd (ensure_selection E st)))
              (set_sel_temp (sel_temp (snd (ensure_selection E st))) later)).
Proof.
  intros L W R F.
  rewrite (ensure_selection_reselects E st L) in *.
  destruct (selection_procedure_spec E (snd (_load_config E st))) as [_ [_ [_ S]]].
  destruct (S R) as [_ [Ct [Cf [_ P]]]]. specialize (P W).
  set (st1 := snd (selection_procedure E (snd (_load_config E st)))) in *.
  unfold ensure_selection.
  rewrite (load_object E later
             [("temp_source", sel_temp st1); ("fan_source", sel_fan st1);
              ("created_at", JStr (now E))])
    by (rewrite F; exact P).
  unfold adopted, field. cbn [assoc String.eqb Ascii.eqb Bool.eqb].
  cbn.
  now rewrite (chosen_is_kept _ _ _ _ _ Ct), (chosen_is_kept _ _ _ _ _ Cf).
Qed.

Lemma restart_adopts_selection_witness :
  let first := snd (ensure_selection headless_host (fresh broken_file [])) in
  ensure_selection headless_host (fresh (files first) [])
  = (Ok tt, set_sel_fan (sel_fan first) (set_sel_temp (sel_temp first)
                                           (fresh (files first) []))).
Proof.
  exact (restart_adopts_selection headless_host (fresh broken_file [])
           (fresh (files (snd (ensure_selection headless_host (fresh broken_file [])))) [])
           eq_refl eq_refl eq_refl eq_refl).
Defined.

End Restart.

(** ** Process detection *)

Module ProcessStatus.
Import Spec Examples.
Import Metrics.
Open Scope list_scope.

Lemma lookup_store_eq {V} k (v : V) d : lookup k (store k v d) = Some v.
Proof.
  induction d as [|[k' v'] d IH]; cbn.
  - now rewrite String.eqb_refl.
  - destruct (String.eqb k k') eqn:E; cbn; [now rewrite String.eqb_refl|].
    now rewrite E.
Qed.

Lemma lookup_store_neq {V} k k' (v : V) d :
  k <> k' -> lookup k (store k' v d) = lookup k d.
Proof.
  intros N. apply String.eqb_neq in N.
  induction d as [|[k2 v2] d IH]; cbn.
  - now rewrite N.
  - destruct (String.eqb k' k2) eqn:E; cbn.
    + apply String.eqb_eq in E. subst k2. now rewrite N.
    + destruct (String.eqb k k2); [reflexivity | exact IH].
Qed.

Lemma item_store_eq {V} (dflt : V) k v d : item dflt k (store k v d) = v.
Proof. unfold item. now rewrite lookup_store_eq. Qed.

Lemma first_hit_find queries pexe pexe_l p t :
  first_hit queries pexe pexe_l p t
  = match find (matches pexe_l) queries with
    | Some (d, pat) => record_hit d pat pexe p t
    | None => t
    end.
Proof.
  induction queries as [|[d pat] qs IH]; cbn [first_hit find]; [reflexivity|].
  unfold matches at 1. cbn [snd].
  destruct (String.eqb pat ""); cbn [negb andb]; [exact IH|].
  destruct (str_in pat pexe_l); [reflexivity | exact IH].
Qed.

Lemma visit_owner queries p t :
  visit queries p t
  = match owner queries p with
    | Some (d, pat) => record_hit d pat (exe_of p) p t
    | None => t
    end.
Proof.
  unfold visit, owner. fold (exe_of p).
  destruct (String.eqb (exe_of p) ""); [reflexivity | apply first_hit_find].
Qed.

Lemma owned_snoc queries disp done p :
  owned queries disp (done ++ [p])
  = owned queries disp done ++ (if owned_by queries disp p then [p] else []).
Proof. unfold owned. rewrite filter_app. reflexivity. Qed.

Lemma firstn_snoc {A} n (l : list A) x :
  firstn n (l ++ [x])
  = if (Z.of_nat (List.length (firstn n l)) <? Z.of_nat n)
    then firstn n l ++ [x] else firstn n l.
Proof.
  revert l. induction n as [|n IH]; intros l.
  - reflexivity.
  - destruct l as [|a l].
    + cbn [firstn app List.length]. rewrite firstn_nil.
      destruct (Z.ltb_spec (Z.of_nat 0) (Z.of_nat (S n))); [reflexivity | lia].
    + cbn [firstn app List.length]. rewrite IH.
      destruct (Z.ltb_spec (Z.of_nat (List.length (firstn n l))) (Z.of_nat n));
        destruct (Z.ltb_spec (Z.of_nat (S (List.length (firstn n l)))) (Z.of_nat (S n)));
        try reflexivity; lia.
Qed.

(** What a hit does to the dictionaries, once the entries of the display
    name are there. *)
Lemma record_hit_fields d pat pexe p t G S C W g c s w :
  match lookup d (grouped t) with
  | Some _ => (grouped t, match_samples t, match_counts t, warn_flags t)
  | None => (store d no_agg (grouped t), store d [] (match_samples t),
             store d 0 (match_counts t), store d false (warn_flags t))
  end = (G, S, C, W) ->
  lookup d G = Some g -> lookup d C = Some c ->
  lookup d S = Some s -> lookup d W = Some w ->
  let t' := record_hit d pat pexe p t in
  grouped t' = store d (mkAgg (instances g + 1) (cpu_step (cpu_raw g) p)
                              (mem_step (mem g) p)) G
  /\ match_counts t' = store d (c + 1) C
  /\ match_samples t'
     = (if Z.of_nat (List.length s) <? 5 then store d (s ++ [pexe]) S else S)
  /\ warn_flags t' = (if ((64 <? c + 1) && negb w)%bool then store d true W else W)
  /\ hard_abort_item t' = (if 128 <? c + 1 then Some (d, pat) else hard_abort_item t).
Proof.
  intros EQ HG HC HS HW. unfold record_hit. rewrite EQ.
  cbv beta iota zeta. unfold item.
  rewrite ?lookup_store_eq, ?HG, ?HC, ?HS, ?HW.
  rewrite ?lookup_store_eq, ?HG, ?HC, ?HS, ?HW.
  unfold cpu_step, mem_step.
  destruct (p_cpu_percent p); destruct (p_rss p);
    destruct (Z.of_nat (Datatypes.length s) <? 5);
    destruct (64 <? c + 1); destruct w; destruct (128 <? c + 1);
    cbn; repeat split; reflexivity.
Qed.

Lemma present_snoc {A} ps p (v : A) : present (ps ++ [p]) v = Some v.
Proof. now destruct ps. Qed.

Lemma aggregate_snoc ps p :
  aggregate (ps ++ [p])
  = mkAgg (instances (aggregate ps) + 1) (cpu_step (cpu_raw (aggregate ps)) p)
          (mem_step (mem (aggregate ps)) p).
Proof.
  unfold aggregate. rewrite length_app, !fold_left_app. cbn.
  f_equal. lia.
Qed.

Lemma owned_by_owner queries p d pat d' :
  owner queries p = Some (d, pat) -> owned_by queries d' p = String.eqb d d'.
Proof. intros O. unfold owned_by. now rewrite O. Qed.

(** A hit keeps the dictionaries in step with the processes seen, and
    sets the abort mark exactly when it is the display name's 129th. *)
Lemma record_hit_tallied queries done p d pat t :
  tallied queries done t -> owner queries p = Some (d, pat) ->
  tallied queries (done ++ [p]) (record_hit d pat (exe_of p) p t)
  /\ hard_abort_item (record_hit d pat (exe_of p) p t)
     = (if 128 <? Z.of_nat (List.length (owned queries d (done ++ [p])))
        then Some (d, pat) else hard_abort_item t).
Proof.
  intros T O. set (ps := owned queries d done).
  assert (A : exists G S C W,
    match lookup d (grouped t) with
    | Some _ => (grouped t, match_samples t, match_counts t, warn_flags t)
    | None => (store d no_agg (grouped t), store d [] (match_samples t),
               store d 0 (match_counts t), store d false (warn_flags t))
    end = (G, S, C, W)
    /\ lookup d G = Some (aggregate ps)
    /\ lookup d C = Some (Z.of_nat (List.length ps))
    /\ lookup d S = Some (firstn 5 (map exe_of ps))
    /\ lookup d W = Some (64 <? Z.of_nat (List.length ps))
    /\ forall d', d' <> d ->
         lookup d' G = lookup d' (grouped t)
         /\ lookup d' C = lookup d' (match_counts t)
         /\ lookup d' S = lookup d' (match_samples t)
         /\ lookup d' W = lookup d' (warn_flags t)).
  { destruct (T d) as [HG [HC [HS HW]]]. fold ps in HG, HC, HS, HW. rewrite HG.
    destruct ps as [|x ps']; cbn [present] in *.
    - exists (store d no_agg (grouped t)), (store d [] (match_samples t)),
             (store d 0 (match_counts t)), (store d false (warn_flags t)).
      rewrite !lookup_store_eq. repeat split; try reflexivity;
        now apply lookup_store_neq.
    - exists (grouped t), (match_samples t), (match_counts t), (warn_flags t).
      repeat split; assumption. }
  destruct A as (G & S & C & W & EQ & HG & HC & HS & HW & Other).
  destruct (record_hit_fields d pat (exe_of p) p t G S C W _ _ _ _ EQ HG HC HS HW)
    as [FG [FC [FS [FW FA]]]].
  split.
  - intros d'. cbv zeta. rewrite owned_snoc, (owned_by_owner _ _ _ _ d' O).
    rewrite FG, FC, FS, FW.
    destruct (String.eqb_spec d d') as [<-|N].
    + fold ps. rewrite !present_snoc, !lookup_store_eq. split; [|split; [|split]].
      * now rewrite aggregate_snoc.
      * f_equal. rewrite length_app. cbn. lia.
      * rewrite map_app. cbn [map]. rewrite firstn_snoc.
        change (Z.of_nat 5) with 5.
        destruct (Z.of_nat (Datatypes.length (firstn 5 (map exe_of ps))) <? 5);
          [apply lookup_store_eq | exact HS].
      * rewrite length_app. cbn [Datatypes.length].
        replace (Z.of_nat (Datatypes.length ps + 1)) with (Z.of_nat (Datatypes.length ps) + 1)
          by lia.
        destruct (Z.ltb_spec 64 (Z.of_nat (Datatypes.length ps) + 1));
          destruct (Z.ltb_spec 64 (Z.of_nat (Datatypes.length ps)));
          cbn [negb andb]; rewrite ?lookup_store_eq, ?HW; try reflexivity;
          try lia.
    + rewrite app_nil_r.
      assert (N' : d' <> d) by congruence.
      destruct (Other d' N') as [OG [OC [OS OW]]].
      destruct (T d') as [TG [TC [TS TW]]].
      rewrite !(lookup_store_neq d' d) by exact N'.
      split; [congruence|]. split; [congruence|]. split.
      * destruct (Z.of_nat (Datatypes.length (firstn 5 (map exe_of ps))) <? 5);
          rewrite ?(lookup_store_neq d' d) by exact N'; congruence.
      * destruct ((64 <? Z.of_nat (Datatypes.length ps) + 1)
                  && negb (64 <? Z.of_nat (Datatypes.length ps)))%bool;
          rewrite ?(lookup_store_neq d' d) by exact N'; congruence.
  - rewrite FA, owned_snoc, (owned_by_owner _ _ _ _ d O), String.eqb_refl.
    fold ps. rewrite length_app. cbn [Datatypes.length].
    now replace (Z.of_nat (Datatypes.length ps + 1)) with (Z.of_nat (Datatypes.length ps) + 1)
      by lia.
Qed.

Lemma visit_tallied queries done p t :
  tallied queries done t ->
  tallied queries (done ++ [p]) (visit queries p t)
  /\ hard_abort_item (visit queries p t)
     = match owner queries p with
       | Some (d, pat) =>
           if 128 <? Z.of_nat (List.length (owned queries d (done ++ [p])))
           then Some (d, pat) else hard_abort_item t
       | None => hard_abort_item t
       end.
Proof.
  intros T. rewrite visit_owner. destruct (owner queries p) as [[d pat]|] eqn:O.
  - now apply record_hit_tallied.
  - split; [|reflexivity]. intros d'. cbv zeta. rewrite owned_snoc.
    unfold owned_by. rewrite O, app_nil_r. apply T.
Qed.

Lemma owner_in queries p d pat : owner queries p = Some (d, pat) -> In (d, pat) queries.
Proof.
  unfold owner. destruct (String.eqb (exe_of p) ""); [discriminate|].
  intros H. now apply find_some in H.
Qed.

Lemma owned_prefix queries d l1 l2 :
  (List.length (owned queries d l1) <= List.length (owned queries d (l1 ++ l2)))%nat.
Proof. unfold owned. rewrite filter_app, length_app. lia. Qed.

Lemma tallied_start queries : tallied queries [] no_tally.
Proof. intros d. cbn. auto. Qed.

(** While no display name exceeds 128, the scan goes through every
    process. *)
Lemma scan_bounded queries rest : forall done t,
  tallied queries done t -> hard_abort_item t = None ->
  bounded queries (done ++ rest) ->
  tallied queries (done ++ rest) (scan queries rest t)
  /\ hard_abort_item (scan queries rest t) = None.
Proof.
  induction rest as [|p rest IH]; intros done t T A B.
  - rewrite app_nil_r. auto.
  - cbn [scan]. rewrite A.
    destruct (visit_tallied queries done p t T) as [T' A'].
    replace (done ++ p :: rest) with ((done ++ [p]) ++ rest) in *
      by (rewrite <- app_assoc; reflexivity).
    apply IH; [exact T' | | exact B].
    rewrite A'. destruct (owner queries p) as [[d pat]|] eqn:O; [|exact A].
    pose proof (B (d, pat) (owner_in _ _ _ _ O)) as Bd. cbn [fst] in Bd.
    pose proof (owned_prefix queries d (done ++ [p]) rest) as Pd.
    destruct (Z.ltb_spec 128 (Z.of_nat (Datatypes.length (owned queries d (done ++ [p])))));
      [lia | exact A].
Qed.

Lemma scan_aborted queries l t q : hard_abort_item t = Some q -> scan queries l t = t.
Proof. intros A. destruct l; cbn [scan]; [reflexivity | now rewrite A]. Qed.

Lemma scan_app queries l1 : forall l2 t,
  scan queries (l1 ++ l2) t = scan queries l2 (scan queries l1 t).
Proof.
  induction l1 as [|p l1 IH]; intros l2 t; [reflexivity|].
  cbn [app scan]. destruct (hard_abort_item t) as [q|] eqn:A.
  - symmetry. now apply scan_aborted with q.
  - apply IH.
Qed.

(** The 129th process of a display name ends the scan. *)
Lemma scan_flooded queries before p after d pat :
  bounded queries before -> owner queries p = Some (d, pat) ->
  List.length (owned queries d before) = 128%nat ->
  tallied queries (before ++ [p]) (scan queries (before ++ p :: after) no_tally)
  /\ hard_abort_item (scan queries (before ++ p :: after) no_tally) = Some (d, pat).
Proof.
  intros B O L. rewrite scan_app.
  destruct (scan_bounded queries before [] no_tally (tallied_start queries) eq_refl B)
    as [T A].
  cbn [app] in T. cbn [scan]. rewrite A.
  destruct (visit_tallied queries before p _ T) as [T' A'].
  rewrite O, owned_snoc, (owned_by_owner _ _ _ _ d O), String.eqb_refl, length_app, L in A'.
  cbn in A'. rewrite (scan_aborted _ _ _ _ A'). auto.
Qed.

Lemma tallied_items queries done t d :
  tallied queries done t ->
  item no_agg d (grouped t) = aggregate (owned queries d done)
  /\ item 0 d (match_counts t) = Z.of_nat (List.length (owned queries d done))
  /\ item false d (warn_flags t)
     = (64 <? Z.of_nat (List.length (owned queries d done))).
Proof.
  intros T. destruct (T d) as [HG [HC [_ HW]]]. unfold item.
  rewrite HG, HC, HW. now destruct (owned queries d done).
Qed.

Lemma row_for_expected queries done t ncpu d name :
  tallied queries done t -> 0 < ncpu ->
  row_for t ncpu d name = expected_row ncpu name (owned queries d done).
Proof.
  intros T N. unfold row_for, expected_row.
  destruct (tallied_items queries done t d T) as [-> _].
  apply Z.ltb_lt in N. now rewrite N.
Qed.

Lemma rows_for_expected queries done t ncpu :
  tallied queries done t -> 0 < ncpu ->
  forall qs,
    rows_for t ncpu qs
    = collect (fun q => expected_row ncpu
                          (label (fst q) (Z.of_nat (List.length (owned queries (fst q) done))))
                          (owned queries (fst q) done)) qs.
Proof.
  intros T N. induction qs as [|[d pat] qs IH]; [reflexivity|].
  cbn [rows_for collect fst].
  destruct (tallied_items queries done t d T) as [_ [-> ->]].
  rewrite (row_for_expected queries done t ncpu d _ T N), IH. reflexivity.
Qed.

Lemma process_status_unfold self procs q0 qs :
  process_queries self = q0 :: qs -> 0 < ncpu self ->
  process_status self procs
  = let t := scan (q0 :: qs) procs no_tally in
    match hard_abort_item t with
    | Some (disp, pat) =>
        r <- row_for t (ncpu self) disp
               (disp ++ " [匹配过多(" ++ str_of_int (item 0 disp (match_counts t))
                     ++ ") 已终止]")%string ;;
        Ok [r]
    | None => rows_for t (ncpu self) (q0 :: qs)
    end.
Proof.
  intros Q N. unfold process_status. rewrite Q.
  replace (ncpu self =? 0) with false by (symmetry; apply Z.eqb_neq; lia).
  reflexivity.
Qed.

(** X15. With at least one query, and no display name attributed more
    than 128 processes, [process_status] returns one row per query, in the
    order of the queries.  The row of a display name aggregates the
    processes whose first matching query bears that name (a query matches
    when its pattern occurs in the lower-cased, stripped executable path):
    their number, the sum of their CPU percentages divided by the number of
    logical CPUs, and the sum of their resident sizes, each over the
    processes it could be read from.  The name is marked once more than 64
    matched.  The only exception it can raise is that of [int] on the
    memory sum. *)
Theorem process_status_aggregates (self : Self) (procs : list Process) :
  process_queries self <> [] -> 0 < ncpu self ->
  bounded (process_queries self) procs ->
  process_status self procs
  = collect (fun q =>
               let ps := owned (process_queries self) (fst q) procs in
               expected_row (ncpu self) (label (fst q) (Z.of_nat (List.length ps))) ps)
            (process_queries self).
Proof.
  intros NE N B.
  destruct (process_queries self) as [|q0 qs] eqn:Q; [now destruct NE|].
  rewrite (process_status_unfold self procs q0 qs Q N). cbv zeta.
  destruct (scan_bounded _ procs [] no_tally (tallied_start _) eq_refl B) as [T A].
  cbn [app] in T. rewrite A.
  now apply rows_for_expected.
Qed.

Lemma process_status_aggregates_witness :
  process_status web_server three_procs
  = Ok [mkRow "nginx" 2 2.0%float 1024; mkRow "db" 1 0.0%float 2048].
Proof.
  rewrite (process_status_aggregates web_server three_procs).
  - reflexivity.
  - discriminate.
  - reflexivity.
  - intros q [<-|[<-|[]]]; vm_compute; lia.
Defined.

(** X16. When the 129th process attributed to a display name is met,
    none having exceeded 128 before, [process_status] looks no further and
    returns a single row, for that name: the aggregate of those 129
    processes, under a name that says the detection was terminated.  The
    other queries get no row, whatever matched them. *)
Theorem process_status_flood_terminates (self : Self)
    (before after : list Process) (p : Process) (d pat : string) :
  0 < ncpu self ->
  bounded (process_queries self) before ->
  owner (process_queries self) p = Some (d, pat) ->
  List.length (owned (process_queries self) d before) = 128%nat ->
  process_status self (before ++ p :: after)
  = (r <- expected_row (ncpu self) (d ++ " [匹配过多(129) 已终止]")%string
                       (owned (process_queries self) d (before ++ [p])) ;;
     Ok [r]).
Proof.
  intros N B O L.
  pose proof (owner_in _ _ _ _ O) as I.
  destruct (process_queries self) as [|q0 qs] eqn:Q; [destruct I|].
  rewrite (process_status_unfold self _ q0 qs Q N). cbv zeta.
  destruct (scan_flooded _ before p after d pat B O L) as [T A].
  rewrite A.
  destruct (tallied_items _ _ _ d T) as [_ [-> _]].
  rewrite (row_for_expected _ _ _ (ncpu self) d _ T N).
  rewrite owned_snoc, (owned_by_owner _ _ _ _ d O), String.eqb_refl, length_app, L.
  reflexivity.
Qed.

Lemma process_status_flood_terminates_witness :
  process_status web_server (repeat nginx_worker 128 ++ nginx_worker :: three_procs)
  = Ok [mkRow "nginx [匹配过多(129) 已终止]"%string 129 64.5%float 132096].
Proof.
  rewrite (process_status_flood_terminates web_server (repeat nginx_worker 128)
             three_procs nginx_worker "nginx" "nginx").
  - vm_compute. reflexivity.
  - reflexivity.
  - intros q [<-|[<-|[]]]; vm_compute; lia.
  - reflexivity.
  - vm_compute. reflexivity.
Defined.

End ProcessStatus.

(** ** A selection cut short *)

Module Interrupted.
Import Spec Examples.
Import SensorSelector Metrics.
Open Scope list_scope.





End Interrupted.

(** ** The fan speed of [cpu_stats] *)

Module CpuFan.
Import Spec Examples.
Import SensorSelector Metrics.
Open Scope list_scope.

Lemma wmi_fan_fold fans : forall acc,
  fold_left wmi_fan_step fans acc = acc ++ flat_map fan_speed fans.
Proof.
  induction fans as [|f fans IH]; intros acc; cbn [fold_left flat_map].
  - now rewrite app_nil_r.
  - rewrite IH. unfold wmi_fan_step, fan_speed.
    destruct (first_some (fan_Speed f) (fan_DesiredSpeed f)) as [sp|]; [|reflexivity].
    destruct (in_fan_range (float_of_Z sp)); [|reflexivity].
    now rewrite <- app_assoc.
Qed.

Lemma cpu_fan_rpm_wmi_mean E : _cpu_fan_rpm_wmi E = mean (wmi_fan_speeds E).
Proof.
  unfold _cpu_fan_rpm_wmi, wmi_fan_speeds.
  destruct (wmi_ok E); [|reflexivity]. cbn [negb].
  destruct (wmi_fan E) as [fans|e]; [|reflexivity].
  now rewrite (wmi_fan_fold fans []).
Qed.

Lemma native_fan_in_range E v :
  native_fan E = Some v -> (1.0 <=? v)%float = true /\ (v <? 20000.0)%float = true.
Proof.
  unfold native_fan. destruct (lhm_ok E) as [r|]; [|discriminate].
  destruct (FallbackReaders.cpu_fan_rpm_cases r) as [[-> _]|[w [-> [R _]]]];
    [discriminate|].
  intros H. injection H as <-.
  destruct R as [hws [hw [s R]]]. tauto.
Qed.

(** X18. The fan speed [cpu_stats] reports is the pinned source's reading
    whenever that reading is present, whatever its value; otherwise the
    native reader's highest CPU, AIO or pump fan, which lies in
    [1, 20000); otherwise the mean of the speeds in [1, 20000) that the
    [Win32_Fan] records give, [None] when there is none. *)
Theorem cpu_stats_fan_tiers (E : Env) (st : state) (fq : exc (option float)) :
  (forall v, read_fan_rpm E st = Some v -> fan_rpm (cpu_stats E st fq) = Some v)
  /\ (read_fan_rpm E st = None ->
      forall v, native_fan E = Some v ->
        fan_rpm (cpu_stats E st fq) = Some v
        /\ (1.0 <=? v)%float = true /\ (v <? 20000.0)%float = true)
  /\ (read_fan_rpm E st = None -> native_fan E = None ->
      fan_rpm (cpu_stats E st fq) = mean (wmi_fan_speeds E)).
Proof.
  unfold cpu_stats. cbn [fan_rpm].
  destruct (read_fan_rpm E st) as [p|].
  - split; [intros v H; now destruct (lhm_ok E)|]. split; discriminate.
  - split; [discriminate|]. split.
    + intros _ v H. split; [|now apply (native_fan_in_range E)].
      unfold native_fan in H. destruct (lhm_ok E); [|discriminate]. now rewrite H.
    + intros _ H. rewrite <- cpu_fan_rpm_wmi_mean.
      unfold native_fan in H. destruct (lhm_ok E); [|reflexivity]. now rewrite H.
Qed.

End CpuFan.
